(** * The Zindi session object ([zindi/user.py]), embedded in Rocq

    The class [Zindian] is a sequence of "check the precondition, issue a
    request, interpret the JSON payload, print or return" methods.  The
    embedding keeps that shape:

    - JSON payloads are values of the inductive type [json], with the Python
      operations the methods apply to them ([in], subscripting, [.get],
      truthiness, [==], [str]);
    - a method is a computation in a state-and-exception monad [M] whose state
      holds the session object, the heap cell of every list argument that a
      method updates in place, the file system, the standard output and the
      log of calls that left the process;
    - everything outside the process (the HTTP service and the helpers of
      [zindi/utils.py], which the session object only calls) answers through
      an [environment]: a function from the log and the call to a reply,
      and what the operating system opposes to [os.makedirs]. *)

From Stdlib Require Import ZArith String Ascii List Bool Lia.
From stdpp Require Import base tactics option list gmap strings sets.

#[local] Set Warnings "-register-all".

Local Open Scope string_scope.
Local Open Scope Z_scope.

(** ** Python strings *)

Module PyStr.

Definition nl : string := String (ascii_of_nat 10) EmptyString.
Definition tab : string := String (ascii_of_nat 9) EmptyString.

Definition red : string := "[ 🔴 ] ".
Definition green : string := "[ 🟢 ] ".

Fixpoint rev_acc (s acc : string) : string :=
  match s with
  | EmptyString => acc
  | String c s' => rev_acc s' (String c acc)
  end.

Definition rev (s : string) : string := rev_acc s EmptyString.

(** [needle in hay] on two [str] objects. *)
Fixpoint contains (needle hay : string) : bool :=
  String.prefix needle hay
  || match hay with
     | EmptyString => false
     | String _ hay' => contains needle hay'
     end.

(** [s.split(".")[-1]]: what follows the last dot, the whole string when
    there is none. *)
Fixpoint last_segment_acc (s seg : string) : string :=
  match s with
  | EmptyString => rev seg
  | String c s' =>
      if Ascii.eqb c "."%char then last_segment_acc s' EmptyString
      else last_segment_acc s' (String c seg)
  end.

Definition last_segment (s : string) : string := last_segment_acc s EmptyString.

(** The characters for which [str.isspace] holds.  In ASCII: 9 to 13 and
    28 to 32. *)
Definition isspace (c : ascii) : bool :=
  let n := nat_of_ascii c in
  ((9 <=? n) && (n <=? 13) || (28 <=? n) && (n <=? 32))%nat.

(** Above ASCII, by their UTF-8 bytes: U+0085 and U+00A0 on two bytes;
    U+1680, U+2000 to U+200A, U+2028, U+2029, U+202F, U+205F and U+3000 on
    three. *)
Definition isspace2 (c1 c2 : ascii) : bool :=
  let b1 := nat_of_ascii c1 in
  let b2 := nat_of_ascii c2 in
  ((b1 =? 194) && ((b2 =? 133) || (b2 =? 160)))%nat.

Definition isspace3 (c1 c2 c3 : ascii) : bool :=
  let b1 := nat_of_ascii c1 in
  let b2 := nat_of_ascii c2 in
  let b3 := nat_of_ascii c3 in
  ((b1 =? 225) && (b2 =? 154) && (b3 =? 128)
   || (b1 =? 226) && (b2 =? 128)
      && ((128 <=? b3) && (b3 <=? 138) || (b3 =? 168) || (b3 =? 169) || (b3 =? 175))
   || (b1 =? 226) && (b2 =? 129) && (b3 =? 159)
   || (b1 =? 227) && (b2 =? 128) && (b3 =? 128))%nat.

(** [s.lstrip()] *)
Fixpoint lstrip (s : string) : string :=
  match s with
  | EmptyString => EmptyString
  | String c1 s1 =>
      if isspace c1 then lstrip s1
      else
        match s1 with
        | String c2 s2 =>
            if isspace2 c1 c2 then lstrip s2
            else
              match s2 with
              | String c3 s3 => if isspace3 c1 c2 c3 then lstrip s3 else s
              | EmptyString => s
              end
        | EmptyString => s
        end
  end.

(** [s.rstrip()], on the reversed text: the bytes of a character come last
    byte first. *)
Fixpoint lstrip_reversed (s : string) : string :=
  match s with
  | EmptyString => EmptyString
  | String c1 s1 =>
      if isspace c1 then lstrip_reversed s1
      else
        match s1 with
        | String c2 s2 =>
            if isspace2 c2 c1 then lstrip_reversed s2
            else
              match s2 with
              | String c3 s3 => if isspace3 c3 c2 c1 then lstrip_reversed s3 else s
              | EmptyString => s
              end
        | EmptyString => s
        end
  end.

(** [s.strip()] *)
Definition strip (s : string) : string := rev (lstrip_reversed (rev (lstrip s))).

(** [c.lower()] for an ASCII character.  The other characters are left as
    they are; none of them lowers to an ASCII letter of [csv], so the test of
    line 349 is the same. *)
Definition lower_char (c : ascii) : ascii :=
  let n := nat_of_ascii c in
  if ((65 <=? n) && (n <=? 90))%nat then ascii_of_nat (n + 32) else c.

(** [s.lower()] *)
Fixpoint lower (s : string) : string :=
  match s with
  | EmptyString => EmptyString
  | String c s' => String (lower_char c) (lower s')
  end.

(** [s[-1]] and [s[-2]], [None] standing for [IndexError]. *)
Definition index_last (s : string) : option ascii :=
  match rev s with
  | String c _ => Some c
  | EmptyString => None
  end.

Definition index_last2 (s : string) : option ascii :=
  match rev s with
  | String _ (String c _) => Some c
  | _ => None
  end.

Definition digit (d : Z) : ascii := ascii_of_nat (48 + Z.to_nat d).

(** Decimal digits of a non-negative integer, most significant first;
    [fuel] bounds the number of digits. *)
Fixpoint digits (fuel : nat) (n : Z) (acc : string) : string :=
  match fuel with
  | O => acc
  | S fuel' =>
      let acc' := String (digit (n mod 10)) acc in
      if n / 10 =? 0 then acc' else digits fuel' (n / 10) acc'
  end.

(** [str(n)] for an [int]. *)
Definition of_Z (n : Z) : string :=
  if n <? 0 then String "-"%char (digits (S (Z.to_nat (Z.log2 (- n)))) (- n) EmptyString)
  else digits (S (Z.to_nat (Z.log2 n))) n EmptyString.

End PyStr.

(** ** JSON payloads as Python objects

    What [response.json()] returns: [None], [bool], [int], [str], [list] and
    [dict] with string keys (kept in insertion order).  JSON numbers with a
    fractional part are outside the model; the number fields the session
    reads are integers. *)

Inductive json : Type :=
| JNull
| JBool (b : bool)
| JInt (n : Z)
| JStr (s : string)
| JList (items : list json)
| JObj (fields : list (string * json)).

Definition dict : Type := list (string * json).

Module Py.

(** [d[k]] on the fields of a dict, [None] when the key is absent. *)
Fixpoint lookup {A : Type} (k : string) (d : list (string * A)) : option A :=
  match d with
  | [] => None
  | (k', v) :: d' => if String.eqb k k' then Some v else lookup k d'
  end.

(** [d[k] = v]: the key keeps its place when it is already there. *)
Fixpoint store {A : Type} (k : string) (v : A) (d : list (string * A)) : list (string * A) :=
  match d with
  | [] => [(k, v)]
  | (k', v') :: d' => if String.eqb k k' then (k, v) :: d' else (k', v') :: store k v d'
  end.

(** [{**d, k1: v1, ...}] *)
Definition extend {A : Type} (d : list (string * A)) (kvs : list (string * A)) : list (string * A) :=
  fold_left (fun acc kv => store (fst kv) (snd kv) acc) kvs d.

Definition int_of_bool (b : bool) : Z := if b then 1 else 0.

(** [a == b].  Dicts compare by key, whatever the order of insertion;
    [True == 1] and [False == 0] as in Python. *)
Fixpoint eq (a b : json) {struct a} : bool :=
  match a, b with
  | JNull, JNull => true
  | JBool x, JBool y => Bool.eqb x y
  | JBool x, JInt n | JInt n, JBool x => int_of_bool x =? n
  | JInt n, JInt m => n =? m
  | JStr s, JStr t => String.eqb s t
  | JList xs, JList ys =>
      (fix all2 (xs ys : list json) {struct xs} : bool :=
         match xs, ys with
         | [], [] => true
         | x :: xs', y :: ys' => eq x y && all2 xs' ys'
         | _, _ => false
         end) xs ys
  | JObj d, JObj e =>
      (length d =? length e)%nat
      && (fix sub (d : list (string * json)) {struct d} : bool :=
            match d with
            | [] => true
            | (k, v) :: d' =>
                match lookup k e with
                | Some w => eq v w
                | None => false
                end && sub d'
            end) d
  | _, _ => false
  end.

(** [bool(v)] *)
Definition truthy (v : json) : bool :=
  match v with
  | JNull => false
  | JBool b => b
  | JInt n => negb (n =? 0)
  | JStr s => negb (String.eqb s "")
  | JList l => match l with [] => false | _ => true end
  | JObj d => match d with [] => false | _ => true end
  end.

(** [a or b] *)
Definition or (a b : json) : json := if truthy a then a else b.

Definition hex_digit (n : nat) : ascii :=
  if (n <? 10)%nat then ascii_of_nat (48 + n) else ascii_of_nat (87 + n).

(** [repr] of one ASCII character inside the quotes [quote]. *)
Definition escape_char (quote c : ascii) : string :=
  let n := nat_of_ascii c in
  if Ascii.eqb c "\"%char then "\\"
  else if Ascii.eqb c quote then String "\"%char (String c EmptyString)
  else if (n =? 10)%nat then "\n"
  else if (n =? 13)%nat then "\r"
  else if (n =? 9)%nat then "\t"
  else if ((n <? 32) || (n =? 127))%nat
       then String "\"%char (String "x"%char
              (String (hex_digit (n / 16)) (String (hex_digit (n mod 16)) EmptyString)))
  else String c EmptyString.

(** The code points above ASCII that [str.isprintable] refuses, as
    inclusive ranges: the categories Cc, Cf, Cs, Co, Cn, Zl, Zp and Zs of
    Unicode 14.0, the database of CPython 3.11. *)
Definition nonprintable : list (Z * Z) :=
  [(128, 160); (173, 173); (888, 889); (896, 899); (907, 907); (909, 909); (930, 930);
   (1328, 1328); (1367, 1368); (1419, 1420); (1424, 1424); (1480, 1487); (1515, 1518);
   (1525, 1541); (1564, 1564); (1757, 1757); (1806, 1807); (1867, 1868); (1970, 1983);
   (2043, 2044); (2094, 2095); (2111, 2111); (2140, 2141); (2143, 2143); (2155, 2159);
   (2191, 2199); (2274, 2274); (2436, 2436); (2445, 2446); (2449, 2450); (2473, 2473);
   (2481, 2481); (2483, 2485); (2490, 2491); (2501, 2502); (2505, 2506); (2511, 2518);
   (2520, 2523); (2526, 2526); (2532, 2533); (2559, 2560); (2564, 2564); (2571, 2574);
   (2577, 2578); (2601, 2601); (2609, 2609); (2612, 2612); (2615, 2615); (2618, 2619);
   (2621, 2621); (2627, 2630); (2633, 2634); (2638, 2640); (2642, 2648); (2653, 2653);
   (2655, 2661); (2679, 2688); (2692, 2692); (2702, 2702); (2706, 2706); (2729, 2729);
   (2737, 2737); (2740, 2740); (2746, 2747); (2758, 2758); (2762, 2762); (2766, 2767);
   (2769, 2783); (2788, 2789); (2802, 2808); (2816, 2816); (2820, 2820); (2829, 2830);
   (2833, 2834); (2857, 2857); (2865, 2865); (2868, 2868); (2874, 2875); (2885, 2886);
   (2889, 2890); (2894, 2900); (2904, 2907); (2910, 2910); (2916, 2917); (2936, 2945);
   (2948, 2948); (2955, 2957); (2961, 2961); (2966, 2968); (2971, 2971); (2973, 2973);
   (2976, 2978); (2981, 2983); (2987, 2989); (3002, 3005); (3011, 3013); (3017, 3017);
   (3022, 3023); (3025, 3030); (3032, 3045); (3067, 3071); (3085, 3085); (3089, 3089);
   (3113, 3113); (3130, 3131); (3141, 3141); (3145, 3145); (3150, 3156); (3159, 3159);
   (3163, 3164); (3166, 3167); (3172, 3173); (3184, 3190); (3213, 3213); (3217, 3217);
   (3241, 3241); (3252, 3252); (3258, 3259); (3269, 3269); (3273, 3273); (3278, 3284);
   (3287, 3292); (3295, 3295); (3300, 3301); (3312, 3312); (3315, 3327); (3341, 3341);
   (3345, 3345); (3397, 3397); (3401, 3401); (3408, 3411); (3428, 3429); (3456, 3456);
   (3460, 3460); (3479, 3481); (3506, 3506); (3516, 3516); (3518, 3519); (3527, 3529);
   (3531, 3534); (3541, 3541); (3543, 3543); (3552, 3557); (3568, 3569); (3573, 3584);
   (3643, 3646); (3676, 3712); (3715, 3715); (3717, 3717); (3723, 3723); (3748, 3748);
   (3750, 3750); (3774, 3775); (3781, 3781); (3783, 3783); (3790, 3791); (3802, 3803);
   (3808, 3839); (3912, 3912); (3949, 3952); (3992, 3992); (4029, 4029); (4045, 4045);
   (4059, 4095); (4294, 4294); (4296, 4300); (4302, 4303); (4681, 4681); (4686, 4687);
   (4695, 4695); (4697, 4697); (4702, 4703); (4745, 4745); (4750, 4751); (4785, 4785);
   (4790, 4791); (4799, 4799); (4801, 4801); (4806, 4807); (4823, 4823); (4881, 4881);
   (4886, 4887); (4955, 4956); (4989, 4991); (5018, 5023); (5110, 5111); (5118, 5119);
   (5760, 5760); (5789, 5791); (5881, 5887); (5910, 5918); (5943, 5951); (5972, 5983);
   (5997, 5997); (6001, 6001); (6004, 6015); (6110, 6111); (6122, 6127); (6138, 6143);
   (6158, 6158); (6170, 6175); (6265, 6271); (6315, 6319); (6390, 6399); (6431, 6431);
   (6444, 6447); (6460, 6463); (6465, 6467); (6510, 6511); (6517, 6527); (6572, 6575);
   (6602, 6607); (6619, 6621); (6684, 6685); (6751, 6751); (6781, 6782); (6794, 6799);
   (6810, 6815); (6830, 6831); (6863, 6911); (6989, 6991); (7039, 7039); (7156, 7163);
   (7224, 7226); (7242, 7244); (7305, 7311); (7355, 7356); (7368, 7375); (7419, 7423);
   (7958, 7959); (7966, 7967); (8006, 8007); (8014, 8015); (8024, 8024); (8026, 8026);
   (8028, 8028); (8030, 8030); (8062, 8063); (8117, 8117); (8133, 8133); (8148, 8149);
   (8156, 8156); (8176, 8177); (8181, 8181); (8191, 8207); (8232, 8239); (8287, 8303);
   (8306, 8307); (8335, 8335); (8349, 8351); (8385, 8399); (8433, 8447); (8588, 8591);
   (9255, 9279); (9291, 9311); (11124, 11125); (11158, 11158); (11508, 11512); (11558, 11558);
   (11560, 11564); (11566, 11567); (11624, 11630); (11633, 11646); (11671, 11679);
   (11687, 11687); (11695, 11695); (11703, 11703); (11711, 11711); (11719, 11719);
   (11727, 11727); (11735, 11735); (11743, 11743); (11870, 11903); (11930, 11930);
   (12020, 12031); (12246, 12271); (12284, 12288); (12352, 12352); (12439, 12440);
   (12544, 12548); (12592, 12592); (12687, 12687); (12772, 12783); (12831, 12831);
   (42125, 42127); (42183, 42191); (42540, 42559); (42744, 42751); (42955, 42959);
   (42962, 42962); (42964, 42964); (42970, 42993); (43053, 43055); (43066, 43071);
   (43128, 43135); (43206, 43213); (43226, 43231); (43348, 43358); (43389, 43391);
   (43470, 43470); (43482, 43485); (43519, 43519); (43575, 43583); (43598, 43599);
   (43610, 43611); (43715, 43738); (43767, 43776); (43783, 43784); (43791, 43792);
   (43799, 43807); (43815, 43815); (43823, 43823); (43884, 43887); (44014, 44015);
   (44026, 44031); (55204, 55215); (55239, 55242); (55292, 63743); (64110, 64111);
   (64218, 64255); (64263, 64274); (64280, 64284); (64311, 64311); (64317, 64317);
   (64319, 64319); (64322, 64322); (64325, 64325); (64451, 64466); (64912, 64913);
   (64968, 64974); (64976, 65007); (65050, 65055); (65107, 65107); (65127, 65127);
   (65132, 65135); (65141, 65141); (65277, 65280); (65471, 65473); (65480, 65481);
   (65488, 65489); (65496, 65497); (65501, 65503); (65511, 65511); (65519, 65531);
   (65534, 65535); (65548, 65548); (65575, 65575); (65595, 65595); (65598, 65598);
   (65614, 65615); (65630, 65663); (65787, 65791); (65795, 65798); (65844, 65846);
   (65935, 65935); (65949, 65951); (65953, 65999); (66046, 66175); (66205, 66207);
   (66257, 66271); (66300, 66303); (66340, 66348); (66379, 66383); (66427, 66431);
   (66462, 66462); (66500, 66503); (66518, 66559); (66718, 66719); (66730, 66735);
   (66772, 66775); (66812, 66815); (66856, 66863); (66916, 66926); (66939, 66939);
   (66955, 66955); (66963, 66963); (66966, 66966); (66978, 66978); (66994, 66994);
   (67002, 67002); (67005, 67071); (67383, 67391); (67414, 67423); (67432, 67455);
   (67462, 67462); (67505, 67505); (67515, 67583); (67590, 67591); (67593, 67593);
   (67638, 67638); (67641, 67643); (67645, 67646); (67670, 67670); (67743, 67750);
   (67760, 67807); (67827, 67827); (67830, 67834); (67868, 67870); (67898, 67902);
   (67904, 67967); (68024, 68027); (68048, 68049); (68100, 68100); (68103, 68107);
   (68116, 68116); (68120, 68120); (68150, 68151); (68155, 68158); (68169, 68175);
   (68185, 68191); (68256, 68287); (68327, 68330); (68343, 68351); (68406, 68408);
   (68438, 68439); (68467, 68471); (68498, 68504); (68509, 68520); (68528, 68607);
   (68681, 68735); (68787, 68799); (68851, 68857); (68904, 68911); (68922, 69215);
   (69247, 69247); (69290, 69290); (69294, 69295); (69298, 69375); (69416, 69423);
   (69466, 69487); (69514, 69551); (69580, 69599); (69623, 69631); (69710, 69713);
   (69750, 69758); (69821, 69821); (69827, 69839); (69865, 69871); (69882, 69887);
   (69941, 69941); (69960, 69967); (70007, 70015); (70112, 70112); (70133, 70143);
   (70162, 70162); (70207, 70271); (70279, 70279); (70281, 70281); (70286, 70286);
   (70302, 70302); (70314, 70319); (70379, 70383); (70394, 70399); (70404, 70404);
   (70413, 70414); (70417, 70418); (70441, 70441); (70449, 70449); (70452, 70452);
   (70458, 70458); (70469, 70470); (70473, 70474); (70478, 70479); (70481, 70486);
   (70488, 70492); (70500, 70501); (70509, 70511); (70517, 70655); (70748, 70748);
   (70754, 70783); (70856, 70863); (70874, 71039); (71094, 71095); (71134, 71167);
   (71237, 71247); (71258, 71263); (71277, 71295); (71354, 71359); (71370, 71423);
   (71451, 71452); (71468, 71471); (71495, 71679); (71740, 71839); (71923, 71934);
   (71943, 71944); (71946, 71947); (71956, 71956); (71959, 71959); (71990, 71990);
   (71993, 71994); (72007, 72015); (72026, 72095); (72104, 72105); (72152, 72153);
   (72165, 72191); (72264, 72271); (72355, 72367); (72441, 72703); (72713, 72713);
   (72759, 72759); (72774, 72783); (72813, 72815); (72848, 72849); (72872, 72872);
   (72887, 72959); (72967, 72967); (72970, 72970); (73015, 73017); (73019, 73019);
   (73022, 73022); (73032, 73039); (73050, 73055); (73062, 73062); (73065, 73065);
   (73103, 73103); (73106, 73106); (73113, 73119); (73130, 73439); (73465, 73647);
   (73649, 73663); (73714, 73726); (74650, 74751); (74863, 74863); (74869, 74879);
   (75076, 77711); (77811, 77823); (78895, 82943); (83527, 92159); (92729, 92735);
   (92767, 92767); (92778, 92781); (92863, 92863); (92874, 92879); (92910, 92911);
   (92918, 92927); (92998, 93007); (93018, 93018); (93026, 93026); (93048, 93052);
   (93072, 93759); (93851, 93951); (94027, 94030); (94088, 94094); (94112, 94175);
   (94181, 94191); (94194, 94207); (100344, 100351); (101590, 101631); (101641, 110575);
   (110580, 110580); (110588, 110588); (110591, 110591); (110883, 110927); (110931, 110947);
   (110952, 110959); (111356, 113663); (113771, 113775); (113789, 113791); (113801, 113807);
   (113818, 113819); (113824, 118527); (118574, 118575); (118599, 118607); (118724, 118783);
   (119030, 119039); (119079, 119080); (119155, 119162); (119275, 119295); (119366, 119519);
   (119540, 119551); (119639, 119647); (119673, 119807); (119893, 119893); (119965, 119965);
   (119968, 119969); (119971, 119972); (119975, 119976); (119981, 119981); (119994, 119994);
   (119996, 119996); (120004, 120004); (120070, 120070); (120075, 120076); (120085, 120085);
   (120093, 120093); (120122, 120122); (120127, 120127); (120133, 120133); (120135, 120137);
   (120145, 120145); (120486, 120487); (120780, 120781); (121484, 121498); (121504, 121504);
   (121520, 122623); (122655, 122879); (122887, 122887); (122905, 122906); (122914, 122914);
   (122917, 122917); (122923, 123135); (123181, 123183); (123198, 123199); (123210, 123213);
   (123216, 123535); (123567, 123583); (123642, 123646); (123648, 124895); (124903, 124903);
   (124908, 124908); (124911, 124911); (124927, 124927); (125125, 125126); (125143, 125183);
   (125260, 125263); (125274, 125277); (125280, 126064); (126133, 126208); (126270, 126463);
   (126468, 126468); (126496, 126496); (126499, 126499); (126501, 126502); (126504, 126504);
   (126515, 126515); (126520, 126520); (126522, 126522); (126524, 126529); (126531, 126534);
   (126536, 126536); (126538, 126538); (126540, 126540); (126544, 126544); (126547, 126547);
   (126549, 126550); (126552, 126552); (126554, 126554); (126556, 126556); (126558, 126558);
   (126560, 126560); (126563, 126563); (126565, 126566); (126571, 126571); (126579, 126579);
   (126584, 126584); (126589, 126589); (126591, 126591); (126602, 126602); (126620, 126624);
   (126628, 126628); (126634, 126634); (126652, 126703); (126706, 126975); (127020, 127023);
   (127124, 127135); (127151, 127152); (127168, 127168); (127184, 127184); (127222, 127231);
   (127406, 127461); (127491, 127503); (127548, 127551); (127561, 127567); (127570, 127583);
   (127590, 127743); (128728, 128732); (128749, 128751); (128765, 128767); (128884, 128895);
   (128985, 128991); (129004, 129007); (129009, 129023); (129036, 129039); (129096, 129103);
   (129114, 129119); (129160, 129167); (129198, 129199); (129202, 129279); (129620, 129631);
   (129646, 129647); (129653, 129655); (129661, 129663); (129671, 129679); (129709, 129711);
   (129723, 129727); (129734, 129743); (129754, 129759); (129768, 129775); (129783, 129791);
   (129939, 129939); (129995, 130031); (130042, 131071); (173792, 173823); (177977, 177983);
   (178206, 178207); (183970, 183983); (191457, 194559); (195102, 196607); (201547, 917759);
   (918000, 1114111)].

Definition printable (cp : Z) : bool :=
  negb (existsb (fun r : Z * Z => (fst r <=? cp) && (cp <=? snd r)) nonprintable).

(** [width] lower-case hexadecimal digits of [n]. *)
Fixpoint hex (width : nat) (n : Z) (acc : string) : string :=
  match width with
  | O => acc
  | S width' => hex width' (n / 16) (String (hex_digit (Z.to_nat (n mod 16))) acc)
  end.

(** [repr] of one character above ASCII, given its bytes and its code
    point: itself when printable, [\xhh], [\uhhhh] or [\Uhhhhhhhh]
    otherwise. *)
Definition escape_code (bytes : string) (cp : Z) : string :=
  if printable cp then bytes
  else if cp <? 256 then String "\"%char (String "x"%char (hex 2 cp EmptyString))
  else if cp <? 65536 then String "\"%char (String "u"%char (hex 4 cp EmptyString))
  else String "\"%char (String "U"%char (hex 8 cp EmptyString)).

(** The payload of a continuation byte of UTF-8. *)
Definition continuation (c : ascii) : option Z :=
  let b := Z.of_nat (nat_of_ascii c) in
  if (128 <=? b) && (b <? 192) then Some (b - 128) else None.

(** The text between the quotes of [repr(s)].  A [str] is held as its
    UTF-8 encoding, so the characters are decoded on the way; a byte that
    starts no character (there is none in an encoded [str]) is copied. *)
Fixpoint escape (quote : ascii) (s : string) : string :=
  match s with
  | EmptyString => EmptyString
  | String c1 s1 =>
      let b1 := Z.of_nat (nat_of_ascii c1) in
      let copied := String c1 (escape quote s1) in
      if b1 <? 128 then escape_char quote c1 ++ escape quote s1
      else
        match s1 with
        | String c2 s2 =>
            match continuation c2 with
            | Some x2 =>
                if (194 <=? b1) && (b1 <? 224) then
                  escape_code (String c1 (String c2 EmptyString)) ((b1 - 192) * 64 + x2)
                  ++ escape quote s2
                else
                  match s2 with
                  | String c3 s3 =>
                      match continuation c3 with
                      | Some x3 =>
                          if (224 <=? b1) && (b1 <? 240) then
                            escape_code (String c1 (String c2 (String c3 EmptyString)))
                                        ((b1 - 224) * 4096 + x2 * 64 + x3)
                            ++ escape quote s3
                          else
                            match s3 with
                            | String c4 s4 =>
                                match continuation c4 with
                                | Some x4 =>
                                    if (240 <=? b1) && (b1 <? 245) then
                                      escape_code
                                        (String c1 (String c2 (String c3 (String c4 EmptyString))))
                                        ((b1 - 240) * 262144 + x2 * 4096 + x3 * 64 + x4)
                                      ++ escape quote s4
                                    else copied
                                | None => copied
                                end
                            | EmptyString => copied
                            end
                      | None => copied
                      end
                  | EmptyString => copied
                  end
            | None => copied
            end
        | EmptyString => copied
        end
  end.

Definition apostrophe : ascii := ascii_of_nat 39.
Definition dquote : ascii := ascii_of_nat 34.

(** [repr(s)] for a [str]: single quotes unless the text has an apostrophe
    and no double quote. *)
Definition repr_str (s : string) : string :=
  let q := if PyStr.contains (String apostrophe EmptyString) s
              && negb (PyStr.contains (String dquote EmptyString) s)
           then dquote else apostrophe in
  String q (escape q s ++ String q EmptyString).

Definition join (sep : string) (l : list string) : string :=
  match l with
  | [] => ""
  | x :: l' => fold_left (fun acc y => acc ++ sep ++ y) l' x
  end.

(** [repr(v)] *)
Fixpoint repr (v : json) : string :=
  match v with
  | JNull => "None"
  | JBool true => "True"
  | JBool false => "False"
  | JInt n => PyStr.of_Z n
  | JStr s => repr_str s
  | JList l =>
      "[" ++ join ", " ((fix each (l : list json) : list string :=
                           match l with
                           | [] => []
                           | x :: l' => repr x :: each l'
                           end) l) ++ "]"
  | JObj d =>
      "{" ++ join ", " ((fix each (d : list (string * json)) : list string :=
                           match d with
                           | [] => []
                           | (k, x) :: d' => (repr_str k ++ ": " ++ repr x) :: each d'
                           end) d) ++ "}"
  end.

(** [str(v)], which is what an f-string field [{v}] renders. *)
Definition str (v : json) : string :=
  match v with
  | JStr s => s
  | _ => repr v
  end.

End Py.

(** ** Exceptions and outcomes *)

Inductive exn : Type :=
| Exception (msg : string)          (* [raise Exception(msg)] in user.py *)
| KeyError (key : string)
| TypeError (what : string)
| AttributeError (name : string)
| IndexError
| FileExistsError (path : string)
| FileNotFoundError (path : string)
| NotADirectoryError
| JSONDecodeError
| Foreign (descr : string).         (* raised inside a call that left the process *)

Inductive outcome (A : Type) : Type :=
| Ok (a : A)
| Raise (e : exn).

Arguments Ok {A} a.
Arguments Raise {A} e.

Module PyOp.

(** [k in v] for a [str] [k]. *)
Definition contains (k : string) (v : json) : outcome bool :=
  match v with
  | JObj d => Ok (match Py.lookup k d with Some _ => true | None => false end)
  | JList l => Ok (existsb (fun item => Py.eq item (JStr k)) l)
  | JStr s => Ok (PyStr.contains k s)
  | _ => Raise (TypeError "argument is not iterable")
  end.

(** [v[k]] for a [str] [k]. *)
Definition getitem (v : json) (k : string) : outcome json :=
  match v with
  | JObj d => match Py.lookup k d with Some x => Ok x | None => Raise (KeyError k) end
  | JList _ | JStr _ => Raise (TypeError "indices must be integers")
  | _ => Raise (TypeError "object is not subscriptable")
  end.

(** [v.get(k, default)] *)
Definition get (v : json) (k : string) (default : json) : outcome json :=
  match v with
  | JObj d => Ok (match Py.lookup k d with Some x => x | None => default end)
  | _ => Raise (AttributeError "get")
  end.

(** The items [for x in v] visits. *)
Definition iter (v : json) : outcome (list json) :=
  match v with
  | JList l => Ok l
  | JObj d => Ok (map (fun kv => JStr (fst kv)) d)
  | JStr s => Ok (map (fun c => JStr (String c EmptyString)) (list_ascii_of_string s))
  | _ => Raise (TypeError "object is not iterable")
  end.

(** [isinstance(v, int)]; [bool] is a subclass of [int]. *)
Definition is_int (v : json) : bool :=
  match v with
  | JInt _ | JBool _ => true
  | _ => false
  end.

(** The integer an [int] (or [bool]) compares as. *)
Definition as_int (v : json) : outcome Z :=
  match v with
  | JInt n => Ok n
  | JBool b => Ok (Py.int_of_bool b)
  | _ => Raise (TypeError "ordering not supported")
  end.

(** [os.path.join(a, b)] on POSIX; [b] must be a [str]. *)
Definition posix_join (a b : string) : string :=
  if String.prefix "/" b then b
  else if String.eqb a "" || (match PyStr.index_last a with
                              | Some c => Ascii.eqb c "/"%char
                              | None => false
                              end)
       then a ++ b
       else a ++ "/" ++ b.

Definition path_join (a : string) (b : json) : outcome string :=
  match b with
  | JStr b => Ok (posix_join a b)
  | _ => Raise (TypeError "expected str, bytes or os.PathLike object")
  end.

(** [frame.shape[0]] and [frame.iloc[i]] of the table of challenges, a
    list of rows. *)
Definition n_rows (frame : json) : outcome Z :=
  match frame with
  | JList rows => Ok (Z.of_nat (length rows))
  | _ => Raise (AttributeError "shape")
  end.

Definition iloc (frame : json) (i : json) : outcome json :=
  match frame, i with
  | JList rows, JInt i =>
      let n := Z.of_nat (length rows) in
      let j := if i <? 0 then n + i else i in
      if (0 <=? j) && (j <? n)
      then match nth_error rows (Z.to_nat j) with
           | Some row => Ok row
           | None => Raise IndexError
           end
      else Raise IndexError
  | JList _, _ => Raise (TypeError "Cannot index by location index with a non-integer key")
  | _, _ => Raise (AttributeError "iloc")
  end.

End PyOp.

(** ** Calls that leave the process *)

Inductive method : Type := GET | POST | DELETE.

Inductive action : Type :=
| Http (m : method) (url : string) (headers : dict) (data params : option dict)
| Download (url filename : string) (headers : dict)
| Upload (filepath comment url : string) (headers : dict)
| JoinChallenge (url : string) (headers : dict)
| GetChallenges (query : option string) (kind : string) (reward : option string)
                (active : bool) (url : string) (headers : dict) (per_page : Z)
| PrintChallenges (challenges_data : json)
| ChallengeIdxSelector (n_challenges : Z)
| UserOnLb (challengers_data challenge_id username : json) (headers : dict)
| PrintLb (challengers_data user_rank : json)
| PrintSubmissionBoard (submissions_data : json).

(** A [requests.Response]: its status code and what [.json()] decodes
    ([None] when decoding fails). *)
Record http_response : Type := mk_response {
  status_code : Z;
  body : option json
}.

(** The world outside the process.  [respond] answers [requests.get], [.post],
    [.delete] and the [upload] helper, which return a response object;
    [reply] answers the other helpers of [zindi/utils.py].  Both see the log
    of the calls issued so far, so a service that changes its answers over
    time is covered.  [refuses] is the operating system: the error
    [os.makedirs] ends with at a path for a reason the file system of the
    state does not hold (permissions, a name too long, a null byte), if
    any. *)
Record environment : Type := mk_environment {
  respond : list action -> action -> outcome http_response;
  reply : list action -> action -> outcome json;
  refuses : string -> option exn
}.

(** ** The session object and the state of a run *)

Record Zindian : Type := mk_Zindian {
  headers_ : dict;                      (* __headers *)
  base_api : string;                    (* __base_api *)
  auth_data : json;                     (* __auth_data *)
  challenge_selected : bool;            (* __challenge_selected *)
  challenge_data : option json;         (* __challenge_data, unset at first *)
  api : option string;                  (* __api, unset at first *)
  rank : option json;                   (* __rank, unset at first *)
  challengers_data : option json;       (* __challengers_data, unset at first *)
  sb_data : option json                 (* __sb_data, unset at first *)
}.

(** A list object is known by its address. *)
Definition loc : Type := positive.

Record state : Type := mk_state {
  self : Zindian;
  heap : gmap loc (list string);        (* list objects shared with the caller *)
  dirs : gset string;                   (* directories on disk *)
  files : gset string;                  (* regular files on disk *)
  stdout : list string;                 (* what [print] wrote, oldest first *)
  log : list action                     (* calls that left the process, oldest first *)
}.

Definition with_self (f : Zindian -> Zindian) (s : state) : state :=
  mk_state (f (self s)) (heap s) (dirs s) (files s) (stdout s) (log s).
Definition with_heap (f : gmap loc (list string) -> gmap loc (list string)) (s : state) : state :=
  mk_state (self s) (f (heap s)) (dirs s) (files s) (stdout s) (log s).
Definition with_dirs (f : gset string -> gset string) (s : state) : state :=
  mk_state (self s) (heap s) (f (dirs s)) (files s) (stdout s) (log s).
Definition with_stdout (f : list string -> list string) (s : state) : state :=
  mk_state (self s) (heap s) (dirs s) (files s) (f (stdout s)) (log s).
Definition with_log (f : list action -> list action) (s : state) : state :=
  mk_state (self s) (heap s) (dirs s) (files s) (stdout s) (f (log s)).

Definition set_challenge_data (data : json) (z : Zindian) : Zindian :=
  mk_Zindian (headers_ z) (base_api z) (auth_data z) (challenge_selected z) (Some data) (api z)
             (rank z) (challengers_data z) (sb_data z).
Definition set_api (url : string) (z : Zindian) : Zindian :=
  mk_Zindian (headers_ z) (base_api z) (auth_data z) (challenge_selected z) (challenge_data z)
             (Some url) (rank z) (challengers_data z) (sb_data z).
Definition set_challenge_selected (b : bool) (z : Zindian) : Zindian :=
  mk_Zindian (headers_ z) (base_api z) (auth_data z) b (challenge_data z) (api z)
             (rank z) (challengers_data z) (sb_data z).
Definition set_rank (r : json) (z : Zindian) : Zindian :=
  mk_Zindian (headers_ z) (base_api z) (auth_data z) (challenge_selected z) (challenge_data z)
             (api z) (Some r) (challengers_data z) (sb_data z).
Definition set_challengers_data (d : json) (z : Zindian) : Zindian :=
  mk_Zindian (headers_ z) (base_api z) (auth_data z) (challenge_selected z) (challenge_data z)
             (api z) (rank z) (Some d) (sb_data z).
Definition set_sb_data (d : json) (z : Zindian) : Zindian :=
  mk_Zindian (headers_ z) (base_api z) (auth_data z) (challenge_selected z) (challenge_data z)
             (api z) (rank z) (challengers_data z) (Some d).

(** ** The monad of methods: state that survives an exception *)

Definition M (A : Type) : Type := state -> outcome A * state.

#[global] Instance M_ret : MRet M := fun A a s => (Ok a, s).
#[global] Instance M_bind : MBind M := fun A B f m s =>
  match m s with
  | (Ok a, s') => f a s'
  | (Raise e, s') => (Raise e, s')
  end.

Definition raise {A : Type} (e : exn) : M A := fun s => (Raise e, s).

Definition lift {A : Type} (o : outcome A) : M A := fun s => (o, s).

Definition get_state : M state := fun s => (Ok s, s).

Definition modify (f : state -> state) : M unit := fun s => (Ok tt, f s).

(** [try: body except: handler] with a bare [except]. *)
Definition try_except {A : Type} (body handler : M A) : M A := fun s =>
  match body s with
  | (Ok a, s') => (Ok a, s')
  | (Raise _, s') => handler s'
  end.

(** [for x in l: f(x)] *)
Fixpoint for_each {A : Type} (l : list A) (f : A -> M unit) : M unit :=
  match l with
  | [] => mret tt
  | x :: l' => f x ;; for_each l' f
  end.

(** Reading a private attribute that may not have been assigned yet. *)
Definition attr {A : Type} (name : string) (field : Zindian -> option A) : M A :=
  s ← get_state;
  match field (self s) with
  | Some a => mret a
  | None => raise (AttributeError name)
  end.

Definition print (line : string) : M unit :=
  modify (with_stdout (fun out => (out ++ [line])%list)).

(** The list object a reference points to; the heap holds every list the
    caller shares with a method. *)
Definition deref (l : loc) : M (list string) :=
  s ← get_state; mret (default [] (heap s !! l)).

(** [l += extra], in place. *)
Definition list_iadd (l : loc) (extra : list string) : M unit :=
  modify (with_heap (fun h => <[l := (default [] (h !! l) ++ extra)%list]> h)).

(** The file system: [dirs] and [files] are the path strings at which
    [os.path.isdir] and [os.path.isfile] hold.  Of the directories
    [os.makedirs] creates, only the one it was asked for is recorded, under
    the string it was given. *)
Definition os_path_isdir (p : string) : M bool :=
  s ← get_state; mret (bool_decide (p ∈ dirs s)).

Definition os_path_isfile (p : string) : M bool :=
  s ← get_state; mret (bool_decide (p ∈ files s)).

(** A path without its trailing slashes. *)
Fixpoint drop_slashes (p : string) : string :=
  match p with
  | String c p' => if Ascii.eqb c "/"%char then drop_slashes p' else p
  | EmptyString => EmptyString
  end.

Definition rstrip_slashes (p : string) : string :=
  PyStr.rev (drop_slashes (PyStr.rev p)).

(** The proper ancestors of a path: what stands before each of its
    slashes, the root apart. *)
Fixpoint ancestors_acc (p seen : string) : list string :=
  match p with
  | EmptyString => []
  | String c p' =>
      let rest := ancestors_acc p' (String c seen) in
      if Ascii.eqb c "/"%char then
        match seen with
        | EmptyString => rest
        | _ => PyStr.rev seen :: rest
        end
      else rest
  end.

Definition ancestors (p : string) : list string := ancestors_acc p EmptyString.

Section Session.

Variable E : environment.

(** [os.makedirs(p, exist_ok=True)]: nothing to do at a directory; a regular
    file at the path raises [FileExistsError], the empty path
    [FileNotFoundError], a regular file on the way [NotADirectoryError];
    otherwise the operating system refuses or the directory is there. *)
Definition os_makedirs (p : string) : M unit :=
  s ← get_state;
  if bool_decide (p ∈ dirs s) then mret tt
  else if bool_decide (p ∈ files s) || bool_decide (rstrip_slashes p ∈ files s)
  then raise (FileExistsError p)
  else if String.eqb p "" then raise (FileNotFoundError p)
  else if existsb (fun a => bool_decide (a ∈ files s)) (ancestors p)
  then raise NotADirectoryError
  else match refuses E p with
       | Some e => raise e
       | None => modify (with_dirs (fun d => {[p]} ∪ d))
       end.

(** A call that returns a response object. *)
Definition request (a : action) : M http_response := fun s =>
  (respond E (log s) a, with_log (fun l => (l ++ [a])%list) s).

(** A call to a helper of [zindi/utils.py]. *)
Definition call (a : action) : M json := fun s =>
  (reply E (log s) a, with_log (fun l => (l ++ [a])%list) s).

(** [response.json()] *)
Definition json_of (r : http_response) : M json :=
  match body r with
  | Some j => mret j
  | None => raise JSONDecodeError
  end.

Definition getitem (v : json) (k : string) : M json := lift (PyOp.getitem v k).
Definition contains (k : string) (v : json) : M bool := lift (PyOp.contains k v).

Definition not_selected_msg : string :=
  PyStr.nl ++ PyStr.red ++ "You have not yet selected any challenge." ++ PyStr.nl.

(** *** [my_rank] (lines 61-109) *)

(** Lines 85-103: the rendering of the rank. *)
Definition teen (text : string) : bool :=
  (1 <? String.length text)%nat
  && match PyStr.index_last2 text with
     | Some c => Ascii.eqb c "1"%char
     | None => false
     end.

Definition ordinal (int_rank : json) : outcome string :=
  let text := Py.str int_rank in
  if Py.eq int_rank (JInt 0) then Ok "not yet"
  else match PyStr.index_last text with
       | None => Raise IndexError
       | Some c =>
           if Ascii.eqb c "1"%char then
             Ok (if teen text then text ++ "th" else text ++ "st")
           else if Ascii.eqb c "2"%char then
             Ok (if teen text then text ++ "th" else text ++ "nd")
           else if Ascii.eqb c "3"%char then
             Ok (if teen text then text ++ "th" else text ++ "rd")
           else Ok (text ++ "th")
       end.

Definition rank_msg (rank : string) (id : json) : string :=
  PyStr.nl ++ PyStr.green ++ "You are " ++ rank ++ " on the leaderboad of "
  ++ Py.str id ++ " challenge, Go on..." ++ PyStr.nl.

Definition my_rank : M json :=
  s ← get_state;
  if challenge_selected (self s) then
    api_ ← attr "_Zindian__api" api;
    let url := api_ ++ "/participations/my_participation" in
    auth_token ← getitem (auth_data (self s)) "auth_token";
    challenge ← attr "_Zindian__challenge_data" challenge_data;
    id ← getitem challenge "id";
    let headers :=
      Py.extend (headers_ (self s))
        [("auth-token", auth_token);
         ("current-url", JStr ("https://zindi.africa/competitions/" ++ Py.str id ++ "/leaderboard"))] in
    response ← request (Http GET url headers None None);
    payload ← json_of response;
    response_data ← getitem payload "data";
    failed ← contains "errors" response_data;
    if failed : bool then
      errors ← getitem response_data "errors";
      raise (Exception (PyStr.nl ++ PyStr.red ++ Py.str errors ++ PyStr.nl))
    else
      public_rank ← lift (PyOp.get response_data "public_rank" (JInt 0));
      let int_rank := Py.or public_rank (JInt 0) in
      modify (with_self (set_rank int_rank)) ;;
      rank ← lift (ordinal int_rank);
      challenge' ← attr "_Zindian__challenge_data" challenge_data;
      id' ← getitem challenge' "id";
      print (rank_msg rank id') ;;
      mret int_rank
  else
    print not_selected_msg ;;
    mret (JInt 0).

(** *** [remaining_subimissions] (lines 111-140); [JNull] is [None]. *)

Definition remaining_msg (free_submissions id : json) : string :=
  PyStr.nl ++ PyStr.green ++ "You have " ++ Py.str free_submissions
  ++ " remaining submissions for the challenge " ++ Py.str id ++ "." ++ PyStr.nl.

Definition remaining_subimissions : M json :=
  s ← get_state;
  if challenge_selected (self s) then
    api_ ← attr "_Zindian__api" api;
    let url := api_ ++ "/submissions/limits" in
    auth_token ← getitem (auth_data (self s)) "auth_token";
    api' ← attr "_Zindian__api" api;
    let headers :=
      Py.extend (headers_ (self s))
        [("auth-token", auth_token); ("current-url", JStr (api' ++ "/submit"))] in
    response ← request (Http GET url headers None None);
    payload ← json_of response;
    response_data ← getitem payload "data";
    failed ← contains "errors" response_data;
    if failed : bool then
      errors ← getitem response_data "errors";
      raise (Exception (PyStr.nl ++ PyStr.red ++ Py.str errors ++ PyStr.nl))
    else
      free_submissions ← getitem response_data "today";
      challenge ← attr "_Zindian__challenge_data" challenge_data;
      id ← getitem challenge "id";
      print (remaining_msg free_submissions id) ;;
      mret free_submissions
  else
    print not_selected_msg ;;
    mret JNull.

(** *** [select_a_challenge] (lines 182-280) *)

Definition index_error_msg (n_challenges : Z) : string :=
  PyStr.nl ++ PyStr.red ++ "The parameter 'fixed_index' must be an integer in range(0, "
  ++ PyStr.of_Z n_challenges ++ ")." ++ PyStr.nl.

(** Line 264: [not isinstance(fixed_index, int) or fixed_index < 0 or
    fixed_index >= n_challenges]. *)
Definition bad_index (fixed_index : json) (n_challenges : Z) : bool :=
  negb (PyOp.is_int fixed_index)
  || match PyOp.as_int fixed_index with
     | Ok i => (i <? 0) || (n_challenges <=? i)
     | Raise _ => true
     end.

Definition select_a_challenge (challenge_id query : option string) (kind : string)
    (reward : option string) (active : bool) (fixed_index : option json) (per_page : Z)
  : M unit :=
  s ← get_state;
  auth_token ← getitem (auth_data (self s)) "auth_token";
  let headers :=
    Py.extend (headers_ (self s))
      [("auth-token", auth_token); ("current-url", JStr "https://zindi.africa/competitions")] in
  match challenge_id with
  | Some (String c id_) =>
      (* Direct selection by challenge_id *)
      let challenge_id := String c id_ in
      let url := base_api (self s) ++ "/" ++ challenge_id in
      response ← request (Http GET url headers None None);
      payload ← json_of response;
      response_data ← getitem payload "data";
      failed ← contains "errors" response_data;
      if failed : bool then
        print (PyStr.nl ++ PyStr.red ++ "Challenge '" ++ challenge_id ++ "' not found." ++ PyStr.nl)
      else
        modify (with_self (set_challenge_data response_data)) ;;
        modify (with_self (set_api url)) ;;
        modify (with_self (set_challenge_selected true)) ;;
        let join_url := url ++ "/participations" in
        id ← getitem response_data "id";
        subtitle ← lift (PyOp.get response_data "subtitle" (JStr ""));
        print (PyStr.nl ++ PyStr.green ++ "You choose the challenge : " ++ Py.str id ++ ","
               ++ PyStr.nl ++ PyStr.tab ++ Py.str subtitle ++ PyStr.nl) ;;
        call (JoinChallenge join_url headers) ;;
        mret tt
  | _ =>
      (* Search-based selection *)
      let url := base_api (self s) in
      challenges_data ← call (GetChallenges query kind reward active url headers per_page);
      n_challenges ← lift (PyOp.n_rows challenges_data);
      if n_challenges =? 0 then
        print (PyStr.nl ++ PyStr.red ++ "No challenges found matching your criteria." ++ PyStr.nl)
      else
        challenge_index ←
          match fixed_index with
          | None | Some JNull =>
              (* [fixed_index is None], left out or given *)
              call (PrintChallenges challenges_data) ;;
              call (ChallengeIdxSelector n_challenges)
          | Some fixed_index =>
              if bad_index fixed_index n_challenges
              then raise (Exception (index_error_msg n_challenges))
              else mret fixed_index
          end;
        i ← lift (PyOp.as_int challenge_index);
        if -1 <? i then
          row ← lift (PyOp.iloc challenges_data challenge_index);
          modify (with_self (set_challenge_data row)) ;;
          id ← getitem row "id";
          let api_ := base_api (self s) ++ "/" ++ Py.str id in
          modify (with_self (set_api api_)) ;;
          modify (with_self (set_challenge_selected true)) ;;
          let url := api_ ++ "/participations" in
          id' ← getitem row "id";
          subtitle ← getitem row "subtitle";
          print (PyStr.nl ++ PyStr.green ++ "You choose the challenge : " ++ Py.str id' ++ ","
                 ++ PyStr.nl ++ PyStr.tab ++ Py.str subtitle ++ "." ++ PyStr.nl) ;;
          call (JoinChallenge url headers) ;;
          mret tt
        else mret tt
  end.

(** *** [download_dataset] (lines 283-321) *)

Definition download_not_selected_msg : string :=
  PyStr.nl ++ PyStr.red ++ "You have to select a challenge before to downoad a dataset,"
  ++ PyStr.nl ++ PyStr.tab ++ "use the select_a_challenge method before." ++ PyStr.nl.

(** Lines 304-307: [datafiles.append(i) for i in datafiles_ if i not in
    datafiles], with [datafiles] starting empty. *)
Fixpoint append_new {A : Type} (same : A -> A -> bool) (todo datafiles : list A) : list A :=
  match todo with
  | [] => datafiles
  | i :: todo' =>
      if existsb (fun item => same item i) datafiles
      then append_new same todo' datafiles
      else append_new same todo' (datafiles ++ [i])%list
  end.

Definition remove_duplicates (datafiles_ : list json) : list json :=
  append_new Py.eq datafiles_ [].

(** Lines 311-315: one call of the [download] helper. *)
Definition download_one (url destination : string) (headers : dict) (data : json) : M unit :=
  filename ← getitem data "filename";
  filename' ← getitem data "filename";
  path ← lift (PyOp.path_join destination filename');
  call (Download (url ++ "/files/" ++ Py.str filename) path headers) ;;
  mret tt.

(** Lines 295-296: the destination folder. *)
Definition make_destination_dir (destination : string) (make_destination : bool) : M unit :=
  isdir ← os_path_isdir destination;
  if negb isdir && make_destination then os_makedirs destination else mret tt.

(** Lines 297-321: the download proper, behind the check. *)
Definition download_selected (destination : string) : M unit :=
  s ← get_state;
  if challenge_selected (self s) then
    auth_token ← getitem (auth_data (self s)) "auth_token";
    let headers := Py.extend (headers_ (self s)) [("auth_token", auth_token)] in
    auth_token' ← getitem (auth_data (self s)) "auth_token";
    let data := [("auth_token", auth_token')] in
    url ← attr "_Zindian__api" api;
    response ← request (Http GET url headers (Some data) None);
    payload ← json_of response;
    response_data ← getitem payload "data";
    datafiles_ ← getitem response_data "datafiles";
    items ← lift (PyOp.iter datafiles_);
    let datafiles := remove_duplicates items in
    for_each datafiles (download_one url destination headers)
  else
    raise (Exception download_not_selected_msg).

Definition download_dataset (destination : string) (make_destination : bool) : M unit :=
  make_destination_dir destination make_destination ;;
  download_selected destination.

(** *** [submit] (lines 324-377) *)

Definition submit_not_selected_msg : string :=
  PyStr.nl ++ PyStr.red ++ "You have to select a challenge before to push any submission file,"
  ++ PyStr.nl ++ PyStr.tab ++ "use the select_a_challenge method before." ++ PyStr.nl.

(** The list object created once for the default [comments=[]]; every call
    that leaves [comments] out receives this same object. *)
Definition submit_default_comments : loc := 1%positive.

Definition allowed_extensions : list string := ["csv"].

(** Line 348: [filepath.split(".")[-1].strip().lower()]. *)
Definition extension_of (filepath : string) : string :=
  PyStr.lower (PyStr.strip (PyStr.last_segment filepath)).

Definition wrong_file_msg (filepath : string) (errors : json) : string :=
  PyStr.nl ++ PyStr.red ++ "Something wrong with file :" ++ filepath ++ " ," ++ PyStr.nl
  ++ Py.str errors ++ PyStr.nl.

Definition submitted_msg (filepath : string) (id : json) : string :=
  PyStr.nl ++ PyStr.green ++ "Submission ID: " ++ Py.str id ++ " - File submitted : "
  ++ filepath ++ PyStr.nl.

Definition no_file_msg (filepath : string) : string :=
  PyStr.nl ++ PyStr.red ++ "File doesn't exists, please verify this filepath : "
  ++ filepath ++ PyStr.nl.

Definition not_csv_msg (filepath : string) : string :=
  PyStr.nl ++ PyStr.red ++ "Submission file must be a CSV file ( .csv ),"
  ++ PyStr.nl ++ PyStr.tab ++ "please verify this filepath : " ++ filepath ++ PyStr.nl.

(** Lines 348-374: the body of the loop. *)
Definition submit_one (url : string) (headers : dict) (pair : string * string) : M unit :=
  let (filepath, comment) := pair in
  let extension := extension_of filepath in
  if existsb (String.eqb extension) allowed_extensions then
    isfile ← os_path_isfile filepath;
    if isfile : bool then
      response ← request (Upload filepath comment url headers);
      payload ← json_of response;
      response ← getitem payload "data";
      try_except
        (errors ← getitem response "errors"; print (wrong_file_msg filepath errors))
        (id ← getitem response "id"; print (submitted_msg filepath id))
    else print (no_file_msg filepath)
  else print (not_csv_msg filepath).

Definition submit (filepaths : list string) (comments : loc) : M unit :=
  s ← get_state;
  if challenge_selected (self s) then
    auth_token ← getitem (auth_data (self s)) "auth_token";
    let headers := Py.extend (headers_ (self s)) [("auth_token", auth_token)] in
    api_ ← attr "_Zindian__api" api;
    let url := api_ ++ "/submissions" in
    given ← deref comments;
    (if (length given <? length filepaths)%nat then
       let n_blank_comment := (length filepaths - length given)%nat in
       list_iadd comments (repeat "" n_blank_comment)
     else mret tt) ;;
    padded ← deref comments;
    for_each (zip filepaths padded) (submit_one url headers)
  else
    raise (Exception submit_not_selected_msg).

(** *** [leaderboard] (lines 380-417) and [submission_board] (lines 420-456) *)

Definition leaderboard_not_selected_msg : string :=
  PyStr.nl ++ PyStr.red ++ "You have to select a challenge before to get the leaderboard,"
  ++ PyStr.nl ++ PyStr.tab ++ "use the select_a_challenge method before." ++ PyStr.nl.

Definition submission_board_not_selected_msg : string :=
  PyStr.nl ++ PyStr.red ++ "You have to select a challenge before to get the submission-board,"
  ++ PyStr.nl ++ PyStr.tab ++ "use the select_a_challenge method before." ++ PyStr.nl.

(** [f"\n[ red ] {response['errors']}\n"], the message of most failures. *)
Definition errors_msg (response : json) : M string :=
  errors ← getitem response "errors";
  mret (PyStr.nl ++ PyStr.red ++ Py.str errors ++ PyStr.nl).

Definition leaderboard (to_print : bool) (per_page : Z) : M unit :=
  s ← get_state;
  if challenge_selected (self s) then
    auth_token ← getitem (auth_data (self s)) "auth_token";
    let headers := Py.extend (headers_ (self s)) [("auth_token", auth_token)] in
    api_ ← attr "_Zindian__api" api;
    let url := api_ ++ "/participations" in
    let params_in_url := [("page", JInt 0); ("per_page", JInt per_page)] in
    response ← request (Http GET url headers None (Some params_in_url));
    payload ← json_of response;
    response ← getitem payload "data";
    failed ← contains "errors" response;
    if failed : bool then
      error_msg ← errors_msg response;
      raise (Exception error_msg)
    else
      modify (with_self (set_challengers_data response)) ;;
      challenge ← attr "_Zindian__challenge_data" challenge_data;
      id ← getitem challenge "id";
      user ← getitem (auth_data (self s)) "user";
      username ← getitem user "username";
      user_rank ← call (UserOnLb response id username headers);
      modify (with_self (set_rank user_rank)) ;;
      if to_print then call (PrintLb response user_rank) ;; mret tt
      else mret tt
  else
    raise (Exception leaderboard_not_selected_msg).

(** [print(response)] writes the [repr] of the response object. *)
Definition response_repr (r : http_response) : string :=
  "<Response [" ++ PyStr.of_Z (status_code r) ++ "]>".

Definition submission_board (to_print : bool) (per_page : Z) : M unit :=
  s ← get_state;
  if challenge_selected (self s) then
    api_ ← attr "_Zindian__api" api;
    let url := api_ ++ "/submissions" in
    auth_token ← getitem (auth_data (self s)) "auth_token";
    let headers := Py.extend (headers_ (self s)) [("auth-token", auth_token)] in
    let params_in_url := [("per_page", JInt per_page)] in
    token ← getitem (JObj headers) "auth-token";
    response ← request (Http GET url headers (Some [("auth-token", token)]) (Some params_in_url));
    print (response_repr response) ;;
    payload ← json_of response;
    response ← getitem payload "data";
    failed ← contains "errors" response;
    if failed : bool then
      error_msg ← errors_msg response;
      raise (Exception error_msg)
    else
      modify (with_self (set_sb_data response)) ;;
      if to_print then call (PrintSubmissionBoard response) ;; mret tt
      else mret tt
  else
    raise (Exception submission_board_not_selected_msg).

(** *** Teams: [create_team] (lines 460-505), [team_up] (lines 508-544),
    [disband_team] (lines 547-568) *)

Definition team_not_selected_msg : string :=
  PyStr.nl ++ PyStr.red ++ "You have to select a challenge before to manage your team,"
  ++ PyStr.nl ++ PyStr.tab ++ "use the select_a_challenge method before." ++ PyStr.nl.

Definition already_invited_msg (zindian : string) : string :=
  PyStr.nl ++ PyStr.green ++ "An invitation has been sent already to join your team to: "
  ++ zindian ++ PyStr.nl.

Definition invited_msg (zindian : string) : string :=
  PyStr.nl ++ PyStr.green ++ "An invitation has been sent to join your team to: "
  ++ zindian ++ PyStr.nl.

(** Lines 526-540: the body of the loop. *)
Definition invite_one (url : string) (headers : dict) (zindian : string) : M unit :=
  let data := [("username", JStr zindian)] in
  response ← request (Http POST url headers (Some data) None);
  payload ← json_of response;
  response ← getitem payload "data";
  failed ← contains "errors" response;
  if failed : bool then
    errors ← getitem response "errors";
    base ← getitem errors "base";
    benign ← contains "is already invited" base;
    if benign : bool then print (already_invited_msg zindian)
    else
      error_msg ← errors_msg response;
      raise (Exception error_msg)
  else print (invited_msg zindian).

Definition team_up (zindians : list string) : M unit :=
  s ← get_state;
  if challenge_selected (self s) then
    let headers := Py.extend (headers_ (self s)) [] in
    auth_token ← getitem (auth_data (self s)) "auth_token";
    api_ ← attr "_Zindian__api" api;
    let url := api_ ++ "/my_team/invite" in
    for_each zindians (invite_one url headers)
  else
    raise (Exception team_not_selected_msg).

(** [response["errors"]["base"]] *)
Definition errors_base (response : json) : M json :=
  errors ← getitem response "errors";
  getitem errors "base".

Definition create_team (team_name : string) (teammates : list string) : M unit :=
  s ← get_state;
  if challenge_selected (self s) then
    let headers := Py.extend (headers_ (self s)) [] in
    api_ ← attr "_Zindian__api" api;
    let url := api_ ++ "/my_team" in
    auth_token ← getitem (auth_data (self s)) "auth_token";
    let data := [("title", JStr team_name); ("auth_token", auth_token)] in
    response ← request (Http POST url headers (Some data) None);
    payload ← json_of response;
    response ← getitem payload "data";
    failed ← contains "errors" response;
    other ← (if failed : bool then
               base ← errors_base response;
               leader ← contains "Leader can only be" base;
               mret (negb leader)
             else mret false);
    if other : bool then
      base ← errors_base response;
      raise (Exception (PyStr.nl ++ PyStr.red ++ Py.str base ++ PyStr.nl))
    else
      failed' ← contains "errors" response;
      leader ← (if failed' : bool then
                  base ← errors_base response;
                  contains "Leader can only be" base
                else mret false);
      (if leader : bool then
         print (PyStr.nl ++ PyStr.green ++ "You are already the leader of a team." ++ PyStr.nl)
       else
         title ← getitem response "title";
         print (PyStr.nl ++ PyStr.green ++ "Your team is well created as :" ++ Py.str title
                ++ PyStr.nl)) ;;
      if (0 <? length teammates)%nat then team_up teammates
      else print "You can send invitation to join your team using teamup function"
  else
    raise (Exception team_not_selected_msg).

Definition disband_team : M unit :=
  s ← get_state;
  if challenge_selected (self s) then
    let headers := Py.extend (headers_ (self s)) [] in
    auth_token ← getitem (auth_data (self s)) "auth_token";
    let data := [("auth_token", auth_token)] in
    api_ ← attr "_Zindian__api" api;
    let url := api_ ++ "/my_team" in
    response ← request (Http DELETE url headers (Some data) None);
    payload ← json_of response;
    response ← getitem payload "data";
    failed ← contains "errors" response;
    if failed : bool then
      error_msg ← errors_msg response;
      raise (Exception error_msg)
    else
      print (PyStr.nl ++ PyStr.green ++ Py.str response ++ PyStr.nl)
  else
    raise (Exception team_not_selected_msg).

End Session.

(** *** [__init__] (lines 36-43), once [__signin] has returned [auth_data] *)

Definition user_agent : string :=
  "Mozilla/5.0 (Windows NT 10.0; Win64; x64) AppleWebKit/537.36 (KHTML, like Gecko) Chrome/144.0.0.0 Safari/537.36".

Definition init (auth_data : json) : Zindian :=
  mk_Zindian [("User-Agent", JStr user_agent)]
             "https://api.zindi.africa/v1/competitions"
             auth_data false None None None None None.

(** ** Definitions in the words of the specification

    Nothing in this module comes from [user.py]; it is what the methods are
    compared with.

    Section 4.6, remaining submissions: the quota is the integer in the
    phrase "maximum of N submissions per day" of the page titled "Rules" (0
    when the page, the phrase or the number is missing); the entries of the
    submission board created within the trailing 24 hours are counted; the
    result is max(quota - count, 0).

    Section 4.5, rank: the numeric public rank (absent: 0) with its ordinal
    suffix, 1st 2nd 3rd 4th, and 11th 12th 13th. *)

Module Spec.

Definition is_digit (c : ascii) : bool :=
  let n := nat_of_ascii c in ((48 <=? n) && (n <=? 57))%nat.

(** The decimal number [s] starts with, and how many characters it takes. *)
Fixpoint number (s : string) (acc : Z) (len : nat) : Z * nat * string :=
  match s with
  | String c s' =>
      if is_digit c then number s' (10 * acc + Z.of_nat (nat_of_ascii c - 48)) (S len)
      else (acc, len, s)
  | EmptyString => (acc, len, s)
  end.

Fixpoint drop_prefix (p s : string) : option string :=
  match p, s with
  | EmptyString, _ => Some s
  | String a p', String b s' => if Ascii.eqb a b then drop_prefix p' s' else None
  | _, EmptyString => None
  end.

(** The N of the first "maximum of N submissions per day" in [text]. *)
Fixpoint quota_in (text : string) : Z :=
  let here :=
    match drop_prefix "maximum of " text with
    | Some rest =>
        match number rest 0 0 with
        | (n, S _, rest') =>
            if String.prefix " submissions per day" rest' then Some n else None
        | _ => None
        end
    | None => None
    end in
  match here, text with
  | Some n, _ => n
  | None, String _ text' => quota_in text'
  | None, EmptyString => 0
  end.

(** The quota of a challenge, from its list of pages. *)
Fixpoint quota_of (pages : list json) : Z :=
  match pages with
  | [] => 0
  | page :: pages' =>
      match PyOp.getitem page "title", PyOp.getitem page "content_html" with
      | Ok (JStr "Rules"), Ok (JStr text) => quota_in text
      | Ok (JStr "Rules"), _ => 0
      | _, _ => quota_of pages'
      end
  end.

Definition quota (pages : json) : Z :=
  match pages with
  | JList l => quota_of l
  | _ => 0
  end.

(** Seconds since 1970-01-01 of a timestamp [YYYY-MM-DDTHH:MM:SSZ]. *)
Definition field (s : string) (start len : nat) : Z :=
  fst (fst (number (String.substring start len s) 0 0)).

Definition days_from_civil (y m d : Z) : Z :=
  let y := if m <=? 2 then y - 1 else y in
  let era := y / 400 in
  let yoe := y - era * 400 in
  let doy := (153 * (if 2 <? m then m - 3 else m + 9) + 2) / 5 + d - 1 in
  let doe := yoe * 365 + yoe / 4 - yoe / 100 + doy in
  era * 146097 + doe - 719468.

Definition seconds (stamp : string) : Z :=
  days_from_civil (field stamp 0 4) (field stamp 5 2) (field stamp 8 2) * 86400
  + field stamp 11 2 * 3600 + field stamp 14 2 * 60 + field stamp 17 2.

(** How many entries of the board were created in the 24 hours before [now]. *)
Definition created_today (now : string) (entry : json) : bool :=
  match PyOp.getitem entry "created_at" with
  | Ok (JStr stamp) => (seconds now - 86400 <? seconds stamp) && (seconds stamp <=? seconds now)
  | _ => false
  end.

Definition count_today (now : string) (board : json) : Z :=
  match board with
  | JList entries => Z.of_nat (length (List.filter (created_today now) entries))
  | _ => 0
  end.

Definition remaining (pages board : json) (now : string) : Z :=
  Z.max (quota pages - count_today now board) 0.

(** The numeric public rank of a "my participation" payload, 0 when absent. *)
Definition public_rank (response_data : json) : option Z :=
  match response_data with
  | JObj fields =>
      match Py.lookup "public_rank" fields with
      | None | Some JNull => Some 0
      | Some (JInt n) => Some n
      | Some _ => None
      end
  | _ => None
  end.

(** st, nd, rd when the last digit is 1, 2, 3 and the last two digits are
    not 11, 12, 13; th otherwise. *)
Definition suffix (n : Z) : string :=
  let a := Z.abs n in
  if (a mod 10 =? 1) && negb (a mod 100 =? 11) then "st"
  else if (a mod 10 =? 2) && negb (a mod 100 =? 12) then "nd"
  else if (a mod 10 =? 3) && negb (a mod 100 =? 13) then "rd"
  else "th".

Definition rendering (n : Z) : string :=
  if n =? 0 then "not yet" else PyStr.of_Z n ++ suffix n.

(** Section 4.7, the answer to one invitation: accepted when the payload has
    no [errors] entry; otherwise already invited or refused, by the text of
    [errors.base]. *)
Inductive invitation : Type :=
| Invited
| AlreadyInvited
| Refused (errors : json).

Definition invitation_of (phrase : string) (response : json) : option invitation :=
  match response with
  | JObj fields =>
      match Py.lookup "errors" fields with
      | None => Some Invited
      | Some (JObj errors) =>
          match Py.lookup "base" errors with
          | Some (JStr base) =>
              Some (if PyStr.contains phrase base then AlreadyInvited
                    else Refused (JObj errors))
          | _ => None
          end
      | Some _ => None
      end
  | _ => None
  end.

End Spec.

(** ** Sample sessions and services, after the fixtures of [tests/test_user.py] *)

Module Sample.

(** MOCK_SIGNIN_SUCCESS *)
Definition auth : json :=
  JObj [("auth_token", JStr "mock_token");
        ("user", JObj [("username", JStr "testuser"); ("id", JInt 123)])].

Definition challenge_2 : json :=
  JObj [("id", JStr "challenge-2"); ("subtitle", JStr "Challenge 2 Subtitle")].

Definition api_2 : string := "https://api.zindi.africa/v1/competitions/challenge-2".

(** A session right after sign-in, and the same session once challenge-2 is
    selected. *)
Definition signed_in : Zindian := init auth.

Definition enrolled : Zindian :=
  set_challenge_selected true (set_api api_2 (set_challenge_data challenge_2 signed_in)).

(** A process that has just imported the module: the default [comments]
    list is empty, the working directory exists, nothing was printed. *)
Definition boot (z : Zindian) : state :=
  mk_state z {[submit_default_comments := []]} {["."]} ∅ [] [].

(** A network that is down. *)
Definition offline : environment :=
  mk_environment (fun _ _ => Raise (Foreign "ConnectionError"))
                 (fun _ _ => Raise (Foreign "ConnectionError"))
                 (fun _ => None).

(** A service that answers every request with the same payload and lets
    every helper return the same value. *)
Definition constant (payload result : json) : environment :=
  mk_environment (fun _ _ => Ok (mk_response 200 (Some payload)))
                 (fun _ _ => Ok result)
                 (fun _ => None).

(** MOCK_CHALLENGES_DATA, the columns the session reads. *)
Definition challenges : json :=
  JList [JObj [("id", JStr "challenge-1"); ("subtitle", JStr "Challenge 1 Subtitle")];
         JObj [("id", JStr "challenge-2"); ("subtitle", JStr "Challenge 2 Subtitle")];
         JObj [("id", JStr "challenge-3"); ("subtitle", JStr "Challenge 3 Subtitle")]].

(** MOCK_CHALLENGE_DETAILS_DATA: the pages of challenge-2. *)
Definition pages : json :=
  JList [JObj [("title", JStr "Overview"); ("content_html", JStr "Some content")];
         JObj [("title", JStr "Rules");
               ("content_html",
                JStr "Blah blah You may make a maximum of 5 submissions per day. Blah blah")]].

(** A submission board read at [now]: one entry 25 hours old, two entries
    2 hours and 1 hour old, the second of them failed. *)
Definition now : string := "2023-01-11T10:00:00Z".

Definition board : json :=
  JList [JObj [("id", JStr "sub-1"); ("status", JStr "successful");
               ("created_at", JStr "2023-01-11T08:00:00Z")];
         JObj [("id", JStr "sub-2"); ("status", JStr "failed");
               ("created_at", JStr "2023-01-11T09:00:00Z")];
         JObj [("id", JStr "sub-3"); ("status", JStr "successful");
               ("created_at", JStr "2023-01-10T09:00:00Z")]].

(** The service for challenge-2: the challenge with its pages, the
    submission board, and the limits endpoint, which reports [today]. *)
Definition service (today : json) : environment :=
  mk_environment
    (fun _ a =>
       match a with
       | Http GET url _ _ _ =>
           if String.eqb url (api_2 ++ "/submissions/limits")
           then Ok (mk_response 200 (Some (JObj [("data", JObj [("today", today)])])))
           else if String.eqb url (api_2 ++ "/submissions")
           then Ok (mk_response 200 (Some (JObj [("data", board)])))
           else if String.eqb url api_2
           then Ok (mk_response 200
                      (Some (JObj [("data", JObj [("id", JStr "challenge-2");
                                                  ("pages", pages)])])))
           else Ok (mk_response 404 None)
       | _ => Ok (mk_response 404 None)
       end)
    (fun _ _ => Ok JNull)
    (fun _ => None).

(** A service that answers each invitation by the invitee's name. *)
Definition team_service (answer : string -> json) : environment :=
  mk_environment
    (fun _ a =>
       match a with
       | Http POST _ _ (Some [(_, JStr zindian)]) _ =>
           Ok (mk_response 200 (Some (JObj [("data", answer zindian)])))
       | _ => Ok (mk_response 404 None)
       end)
    (fun _ _ => Ok JNull)
    (fun _ => None).

(** MOCK_TEAM_UP_SUCCESS and MOCK_TEAM_UP_ALREADY_INVITED *)
Definition invitation_sent : json := JObj [("message", JStr "Invitation sent")].

Definition errors_base (text : string) : json :=
  JObj [("errors", JObj [("base", JStr text)])].

(** MOCK_CHALLENGE_DETAILS_DATA with the first record listed twice. *)
Definition train : json := JObj [("filename", JStr "Train.csv"); ("id", JStr "df-1")].
Definition test : json := JObj [("filename", JStr "Test.csv"); ("id", JStr "df-2")].

Definition manifest : list json := [train; test; train].

Definition details : json :=
  JObj [("data", JObj [("id", JStr "challenge-2"); ("datafiles", JList manifest)])].

Definition name_of (data : json) : string :=
  match PyOp.getitem data "filename" with
  | Ok (JStr name) => name
  | _ => ""
  end.

(** A service that answers each upload by the path of the file. *)
Definition upload_service (answer : string -> json) : environment :=
  mk_environment
    (fun _ a =>
       match a with
       | Upload filepath _ _ _ => Ok (mk_response 200 (Some (JObj [("data", answer filepath)])))
       | _ => Ok (mk_response 404 None)
       end)
    (fun _ _ => Ok JNull)
    (fun _ => None).

(** MOCK_SUBMIT_SUCCESS and MOCK_SUBMIT_FAILURE *)
Definition submit_success : json := JObj [("id", JStr "sub-new-123")].

(** The process of [boot], with some regular files on disk. *)
Definition with_files (on_disk : gset string) (s : state) : state :=
  mk_state (self s) (heap s) (dirs s) on_disk (stdout s) (log s).

End Sample.

(** ** Running a method symbolically *)

#[global] Arguments bad_index : simpl never.
#[global] Arguments index_error_msg : simpl never.
#[global] Arguments Py.extend : simpl never.
#[global] Arguments Py.str : simpl never.
#[global] Arguments PyStr.of_Z : simpl never.
#[local] Arguments String.append : simpl never.
#[local] Arguments Nat.ltb : simpl never.
#[global] Arguments remove_duplicates : simpl never.

Ltac exec :=
  repeat progress
    unfold mbind, M_bind, mret, M_ret, get_state, modify, raise, lift, attr, print,
           getitem, contains, deref, list_iadd, os_path_isdir, os_path_isfile, os_makedirs,
           request, call, json_of, errors_msg, errors_base, make_destination_dir;
  cbn.

(** What a method leaves untouched. *)
Definition preserves {A X : Type} (field : state -> X) (m : M A) : Prop :=
  forall s, field (snd (m s)) = field s.

(** ** Vocabulary of the statements about [team_up]

    One invitation, what the service answers to it, and what the method
    prints for it. *)
Definition invite (url : string) (headers : dict) (zindian : string) : action :=
  Http POST url headers (Some [("username", JStr zindian)]) None.

Definition verdict (answer : string -> json) (zindian : string) : option Spec.invitation :=
  Spec.invitation_of "is already invited" (answer zindian).

Definition notice (answer : string -> json) (zindian : string) : string :=
  match verdict answer zindian with
  | Some Spec.AlreadyInvited => already_invited_msg zindian
  | _ => invited_msg zindian
  end.

Definition goes_through (answer : string -> json) (zindian : string) : Prop :=
  verdict answer zindian = Some Spec.Invited
  \/ verdict answer zindian = Some Spec.AlreadyInvited.

Definition refused_msg (errors : json) : string :=
  PyStr.nl ++ PyStr.red ++ Py.str errors ++ PyStr.nl.

(** ** Vocabulary of the statements about [download_dataset] *)

(** No entry of [l] repeats an earlier one, for the comparison [same]. *)
Definition pairwise_distinct {A : Type} (same : A -> A -> bool) (l : list A) : Prop :=
  forall (i j : nat) (x y : A),
    (i < j)%nat -> l !! i = Some x -> l !! j = Some y -> same x y = false.

(** The call of the [download] helper for the file called [name]. *)
Definition download_of (url destination : string) (headers : dict) (name : string) : action :=
  Download (url ++ "/files/" ++ name) (PyOp.posix_join destination name) headers.

(** ** Vocabulary of the statements about [submit] *)

(** The comments the loop pairs with the file paths. *)
Definition padded (given filepaths : list string) : list string :=
  if (length given <? length filepaths)%nat
  then (given ++ repeat "" (length filepaths - length given))%list
  else given.

Definition is_csv (filepath : string) : bool :=
  existsb (String.eqb (extension_of filepath)) allowed_extensions.

(** The pairs whose file is uploaded: a csv extension and a file on disk. *)
Definition uploaded (on_disk : gset string) (pair : string * string) : bool :=
  is_csv (fst pair) && bool_decide (fst pair ∈ on_disk).

Definition upload_of (url : string) (headers : dict) (pair : string * string) : action :=
  Upload (fst pair) (snd pair) url headers.

(** The line printed for an upload the service answered with [response]:
    the failure when the answer has an [errors] entry, the submission id
    otherwise; there is none when the answer has neither. *)
Definition upload_line (filepath : string) (response : json) : option string :=
  match PyOp.getitem response "errors", PyOp.getitem response "id" with
  | Ok errors, _ => Some (wrong_file_msg filepath errors)
  | Raise _, Ok id => Some (submitted_msg filepath id)
  | Raise _, Raise _ => None
  end.

(** The line printed for one pair of the batch. *)
Definition submit_line (on_disk : gset string) (answer : string -> json)
    (pair : string * string) : option string :=
  let filepath := fst pair in
  if is_csv filepath then
    if bool_decide (filepath ∈ on_disk) then upload_line filepath (answer filepath)
    else Some (no_file_msg filepath)
  else Some (not_csv_msg filepath).

(** The state after some lines were printed and some calls were issued. *)
Definition emit (lines : list string) (calls : list action) (s : state) : state :=
  mk_state (self s) (heap s) (dirs s) (files s)
           (stdout s ++ lines)%list (log s ++ calls)%list.

(** What the two accessors leave behind when no challenge is selected. *)
Definition says_not_selected (s : state) : state :=
  with_stdout (fun out => (out ++ [not_selected_msg])%list) s.

(** ** The rest of the class

    [which_challenge], the constructor and the sign-in it performs. *)

(** *** [which_challenge] (lines 46-59); [JNull] is [None]. *)

Definition enrolled_msg (id subtitle : json) : string :=
  PyStr.nl ++ PyStr.green ++ "You are currently enrolled in : " ++ Py.str id ++ " challenge,"
  ++ PyStr.nl ++ PyStr.tab ++ Py.str subtitle ++ "." ++ PyStr.nl.

Definition which_challenge : M json :=
  s ← get_state;
  if challenge_selected (self s) then
    data ← attr "_Zindian__challenge_data" challenge_data;
    id ← getitem data "id";
    data' ← attr "_Zindian__challenge_data" challenge_data;
    subtitle ← getitem data' "subtitle";
    let msg := enrolled_msg id subtitle in
    data'' ← attr "_Zindian__challenge_data" challenge_data;
    challenge ← getitem data'' "id";
    print msg ;;
    mret challenge
  else
    print not_selected_msg ;;
    mret JNull.

(** *** [__signin] (lines 144-178) and [__init__] (lines 25-43) *)

Definition signin_url : string := "https://api.zindi.africa/v1/auth/signin".

Definition password_prompt : string := "Your password" ++ PyStr.nl ++ ">> ".

Definition wave : string := "👋🏾👋🏾".

Definition welcome_msg (username : json) : string :=
  PyStr.nl ++ PyStr.green ++ wave ++ " Welcome " ++ Py.str username ++ " " ++ wave ++ PyStr.nl.

Section SignIn.

Variable E : environment.

(** [getpass(prompt=...)]: what the user types at the masked prompt, or the
    exception the terminal raises. *)
Variable getpass : string -> outcome string.

Definition __signin (headers : dict) (username : string) (fixed_password : option string)
  : M json :=
  password ← match fixed_password with
             | None => lift (getpass password_prompt)
             | Some fixed => mret fixed
             end;
  let data := [("username", JStr username); ("password", JStr password)] in
  response ← request E (Http POST signin_url headers (Some data) None);
  payload ← json_of response;
  response ← getitem payload "data";
  failed ← contains "errors" response;
  if failed : bool then
    errors ← getitem response "errors";
    raise (Exception (PyStr.red ++ Py.str errors))
  else
    user ← getitem response "user";
    name ← getitem user "username";
    print (welcome_msg name) ;;
    mret response.

(** The constructor returns the new object; the object the state holds is
    the one the methods of a run are called on. *)
Definition __init__ (username : string) (fixed_password : option string) : M Zindian :=
  let headers := [("User-Agent", JStr user_agent)] in
  let base_api := "https://api.zindi.africa/v1/competitions" in
  auth_data ← __signin headers username fixed_password;
  mret (mk_Zindian headers base_api auth_data false None None None None None).

End SignIn.

(** ** Vocabulary of the statements about the session *)

(** Which challenge the session is on. *)
Definition selection (s : state) : bool * option json * option string :=
  (challenge_selected (self s), challenge_data (self s), api (self s)).

(** Who the session belongs to. *)
Definition credentials (s : state) : dict * string * json :=
  (headers_ (self s), base_api (self s), auth_data (self s)).

(** What the session remembers of the boards. *)
Definition caches (s : state) : option json * option json * option json :=
  (rank (self s), challengers_data (self s), sb_data (self s)).

(** A selected session knows its challenge and its address. *)
Definition consistent (s : state) : Prop :=
  challenge_selected (self s) = true ->
  is_Some (challenge_data (self s)) /\ is_Some (api (self s)).

(** The session once [data] was selected at [url]. *)
Definition selected_at (data : json) (url : string) (z : Zindian) : Zindian :=
  set_challenge_selected true (set_api url (set_challenge_data data z)).

(** ** Vocabulary of the statements about [select_a_challenge] *)

(** The headers of the requests of [select_a_challenge] (lines 214-218). *)
Definition selection_headers (s : state) (token : json) : dict :=
  Py.extend (headers_ (self s))
    [("auth-token", token); ("current-url", JStr "https://zindi.africa/competitions")].

(** The lines printed on a selection, by id (line 238) and from the search
    (line 275). *)
Definition chosen_by_id_msg (id subtitle : json) : string :=
  PyStr.nl ++ PyStr.green ++ "You choose the challenge : " ++ Py.str id ++ ","
  ++ PyStr.nl ++ PyStr.tab ++ Py.str subtitle ++ PyStr.nl.

Definition chosen_msg (id subtitle : json) : string :=
  PyStr.nl ++ PyStr.green ++ "You choose the challenge : " ++ Py.str id ++ ","
  ++ PyStr.nl ++ PyStr.tab ++ Py.str subtitle ++ "." ++ PyStr.nl.

Definition not_found_msg (challenge_id : string) : string :=
  PyStr.nl ++ PyStr.red ++ "Challenge '" ++ challenge_id ++ "' not found." ++ PyStr.nl.

(** What a helper's outcome becomes when its value is dropped. *)
Definition dropped {A : Type} (o : outcome A) : outcome unit :=
  match o with
  | Ok _ => Ok tt
  | Raise e => Raise e
  end.

(** ** More services, for the statements about the rest of the class *)

Module Scenario.

(** A service that answers every request with [payload] and whose helpers
    all raise. *)
Definition helpers_fail (payload : json) : environment :=
  mk_environment (fun _ _ => Ok (mk_response 200 (Some payload)))
                 (fun _ _ => Raise (Foreign "helper failed"))
                 (fun _ => None).

(** A search that finds [challenges], a user who types [typed] at the index
    prompt, a join that succeeds. *)
Definition interactive (challenges typed : json) : environment :=
  mk_environment
    (fun _ _ => Ok (mk_response 404 None))
    (fun _ a =>
       match a with
       | GetChallenges _ _ _ _ _ _ _ => Ok challenges
       | ChallengeIdxSelector _ => Ok typed
       | _ => Ok JNull
       end)
    (fun _ => None).

(** MOCK_SIGNIN_FAILURE *)
Definition signin_failure : json :=
  JObj [("errors", JObj [("message", JStr "Wrong username or password")])].

(** A terminal at which the user types [typed]. *)
Definition terminal (typed : string) : string -> outcome string := fun _ => Ok typed.

(** A terminal that must not be used. *)
Definition no_terminal : string -> outcome string := fun _ => Raise (Foreign "no terminal").

End Scenario.

(** ** Vocabulary of the statements about what a method establishes *)

(** Whatever the outcome, [m] started where [P] holds ends where [Q] holds. *)
Definition ensures {A : Type} (P : state -> Prop) (m : M A) (Q : state -> Prop) : Prop :=
  forall s, P s -> Q (snd (m s)).

(** A property of the session object, as a property of the state. *)
Definition on (A : Zindian -> Prop) : state -> Prop := fun s => A (self s).

(** The stages of a selection (lines 231-233 and 270-272): the flag implies
    the challenge and the address, and is not lowered ([was] is the flag at
    the start); then the challenge is stored; then the address as well. *)
Definition flag_implies_rest (was : bool) (z : Zindian) : Prop :=
  (challenge_selected z = true -> is_Some (challenge_data z) /\ is_Some (api z))
  /\ (was = true -> challenge_selected z = true).

Definition challenge_stored (was : bool) (z : Zindian) : Prop :=
  flag_implies_rest was z /\ is_Some (challenge_data z).

Definition address_stored (was : bool) (z : Zindian) : Prop :=
  challenge_stored was z /\ is_Some (api z).

(** * Properties *)

(** ** The Python layer on samples *)

Example rev_abc : PyStr.rev "abc" = "cba".
Proof. reflexivity. Qed.

Example of_Z_samples :
  map PyStr.of_Z [0; 7; 10; 113; 9999; -42; 1024] = ["0"; "7"; "10"; "113"; "9999"; "-42"; "1024"]%string.
Proof. reflexivity. Qed.

Example last_segment_samples :
  map PyStr.last_segment ["a.csv"; "dir.d/b.TXT"; "csv"; "x."; "a.tar.gz"]%string
  = ["csv"; "TXT"; "csv"; ""; "gz"]%string.
Proof. reflexivity. Qed.

Example store_keeps_place :
  Py.extend [("User-Agent", JStr "UA"); ("auth_token", JStr "old")]
            [("auth_token", JStr "T"); ("current-url", JStr "u")]
  = [("User-Agent", JStr "UA"); ("auth_token", JStr "T"); ("current-url", JStr "u")].
Proof. reflexivity. Qed.

Example eq_ignores_key_order :
  Py.eq (JObj [("id", JStr "df-1"); ("filename", JStr "Train.csv")])
        (JObj [("filename", JStr "Train.csv"); ("id", JStr "df-1")]) = true.
Proof. reflexivity. Qed.

Example str_samples :
  map Py.str [JNull; JInt 12; JStr "it's"; JList [JStr "it's"; JBool true];
              JObj [("base", JStr "User is already invited")]]
  = ["None"; "12"; "it's"; "[" ++ String Py.dquote ("it's" ++ String Py.dquote ", True]");
     "{'base': 'User is already invited'}"]%string.
Proof. reflexivity. Qed.

(** ** Frame lemmas *)

Section Frame.

Context {X : Type} (field : state -> X).

Lemma preserves_ret {A} (a : A) : preserves field (mret a).
Proof. intros s. reflexivity. Qed.

Lemma preserves_raise {A} (e : exn) : preserves field (raise (A := A) e).
Proof. intros s. reflexivity. Qed.

Lemma preserves_lift {A} (o : outcome A) : preserves field (lift o).
Proof. intros s. reflexivity. Qed.

Lemma preserves_get_state : preserves field get_state.
Proof. intros s. reflexivity. Qed.

Lemma preserves_bind {A B} (m : M A) (f : A -> M B) :
  preserves field m -> (forall a, preserves field (f a)) -> preserves field (m ≫= f).
Proof.
  intros Hm Hf s. unfold mbind, M_bind.
  specialize (Hm s). destruct (m s) as [[a | e] s']; cbn in *.
  - rewrite Hf. exact Hm.
  - exact Hm.
Qed.

Lemma preserves_try_except {A} (body handler : M A) :
  preserves field body -> preserves field handler -> preserves field (try_except body handler).
Proof.
  intros Hb Hh s. unfold try_except.
  specialize (Hb s). destruct (body s) as [[a | e] s']; cbn in *.
  - exact Hb.
  - rewrite Hh. exact Hb.
Qed.

Lemma preserves_for_each {A} (l : list A) (f : A -> M unit) :
  (forall x, preserves field (f x)) -> preserves field (for_each l f).
Proof.
  intros Hf. induction l as [| x l IH]; cbn.
  - apply preserves_ret.
  - apply preserves_bind; [apply Hf | intros _; exact IH].
Qed.

Lemma preserves_if {A} (b : bool) (m1 m2 : M A) :
  preserves field m1 -> preserves field m2 -> preserves field (if b then m1 else m2).
Proof. destruct b; trivial. Qed.

Lemma preserves_attr {A} name (get : Zindian -> option A) : preserves field (attr name get).
Proof. intros s. unfold attr. exec. destruct (get (self s)); reflexivity. Qed.

End Frame.

(** ** No challenge selected *)

Lemma my_rank_not_selected (E : environment) (s : state) :
  challenge_selected (self s) = false ->
  my_rank E s = (Ok (JInt 0), says_not_selected s).
Proof. intros Hsel. unfold my_rank. exec. rewrite Hsel. reflexivity. Qed.

Lemma remaining_subimissions_not_selected (E : environment) (s : state) :
  challenge_selected (self s) = false ->
  remaining_subimissions E s = (Ok JNull, says_not_selected s).
Proof. intros Hsel. unfold remaining_subimissions. exec. rewrite Hsel. reflexivity. Qed.

(** C4: with no challenge selected, [my_rank] prints its notice and returns
    the integer 0, and [remaining_subimissions] prints its notice and returns
    [None]; neither raises. *)
Theorem sentinels_when_not_selected (E : environment) (s : state) :
  challenge_selected (self s) = false ->
  my_rank E s = (Ok (JInt 0), says_not_selected s)
  /\ remaining_subimissions E s = (Ok JNull, says_not_selected s).
Proof.
  intros Hsel. split.
  - apply my_rank_not_selected, Hsel.
  - apply remaining_subimissions_not_selected, Hsel.
Qed.

Lemma sentinels_when_not_selected_witness :
  challenge_selected (self (Sample.boot Sample.signed_in)) = false
  /\ (my_rank Sample.offline (Sample.boot Sample.signed_in)
      = (Ok (JInt 0), says_not_selected (Sample.boot Sample.signed_in))
      /\ remaining_subimissions Sample.offline (Sample.boot Sample.signed_in)
         = (Ok JNull, says_not_selected (Sample.boot Sample.signed_in))).
Proof.
  split; [reflexivity | apply (sentinels_when_not_selected Sample.offline); reflexivity].
Defined.


(** The directory step of [download_dataset] (lines 295-296) has three
    ends: nothing to do, the directory created, or the error of
    [os.makedirs] with the state as it was. *)
Lemma make_destination_dir_cases (E : environment) (destination : string)
    (make_destination : bool) (s : state) :
  make_destination_dir E destination make_destination s = (Ok tt, s)
  \/ ((destination ∉ dirs s) /\ make_destination = true
      /\ os_makedirs E destination s
         = (Ok tt, with_dirs (fun d => {[destination]} ∪ d) s)
      /\ make_destination_dir E destination make_destination s
         = (Ok tt, with_dirs (fun d => {[destination]} ∪ d) s))
  \/ (exists e, (destination ∉ dirs s) /\ make_destination = true
                /\ os_makedirs E destination s = (Raise e, s)
                /\ make_destination_dir E destination make_destination s = (Raise e, s)).
Proof.
  exec.
  destruct (bool_decide_reflect (destination ∈ dirs s)) as [Hd | Hd]; cbn; [now left |].
  destruct make_destination; cbn; [| now left].
  rewrite ?(bool_decide_eq_false_2 _ Hd).
  destruct (bool_decide (destination ∈ files s) || bool_decide (_ ∈ files s)); cbn;
    [right; right; eauto |].
  destruct (String.eqb destination ""); cbn; [right; right; eauto |].
  destruct (existsb _ (ancestors destination)); cbn; [right; right; eauto |].
  destruct (refuses E destination); cbn; [right; right; eauto | right; left; auto].
Qed.

Lemma make_destination_dir_returns (E : environment) (destination : string)
    (make_destination : bool) (s s' : state) :
  make_destination_dir E destination make_destination s = (Ok tt, s') ->
  self s' = self s /\ heap s' = heap s /\ files s' = files s
  /\ stdout s' = stdout s /\ log s' = log s.
Proof.
  destruct (make_destination_dir_cases E destination make_destination s)
    as [-> | [(_ & _ & _ & ->) | (e & _ & _ & _ & ->)]]; intros [= <-]; repeat split.
Qed.



(** ** [select_a_challenge] with an explicit index *)

(** C3, as stated, fails at n = 0: when the search finds nothing the index
    is never looked at, the call prints its notice and returns. *)
Lemma index_ignored_when_search_is_empty :
  let run := select_a_challenge (Sample.constant JNull (JList [])) None None "competition" None
               true (Some (JInt 3)) 20 (Sample.boot Sample.signed_in) in
  PyOp.n_rows (JList []) = Ok 0
  /\ fst run = Ok tt
  /\ stdout (snd run)
     = [PyStr.nl ++ PyStr.red ++ "No challenges found matching your criteria." ++ PyStr.nl]
  /\ self (snd run) = Sample.signed_in.
Proof. repeat split; reflexivity. Qed.

(** C3, amended: when the search returns no challenge, [select_a_challenge]
    prints that none was found and returns, whatever [fixed_index] is: the
    index is not looked at and nothing is selected.  When the search returns
    at least one challenge, every explicit integer index below 0 or at least
    the number of results makes it raise its range error; in both cases the
    search is the only call issued and the session is as before. *)
Theorem index_out_of_range_raises (E : environment) (s : state)
    (challenge_id query reward : option string) (kind : string) (active : bool)
    (per_page : Z) (token : json) (rows : list json) :
  let headers := Py.extend (headers_ (self s))
                   [("auth-token", token);
                    ("current-url", JStr "https://zindi.africa/competitions")] in
  let search := GetChallenges query kind reward active (base_api (self s)) headers per_page in
  let n := Z.of_nat (length rows) in
  let none_found :=
    PyStr.nl ++ PyStr.red ++ "No challenges found matching your criteria." ++ PyStr.nl in
  challenge_id = None \/ challenge_id = Some "" ->
  PyOp.getitem (auth_data (self s)) "auth_token" = Ok token ->
  reply E (log s) search = Ok (JList rows) ->
  (n = 0 ->
   forall fixed_index : option json,
     select_a_challenge E challenge_id query kind reward active fixed_index per_page s
     = (Ok tt, emit [none_found] [search] s))
  /\ (0 < n ->
      forall i : Z,
        i < 0 \/ n <= i ->
        select_a_challenge E challenge_id query kind reward active (Some (JInt i)) per_page s
        = (Raise (Exception (index_error_msg n)), with_log (fun l => (l ++ [search])%list) s)).
Proof.
  intros headers search n none_found Hid Htoken Hreply. split.
  - intros Hn fixed_index. subst headers search none_found.
    unfold select_a_challenge.
    destruct Hid as [-> | ->]; exec; rewrite Htoken, Hreply; cbn; fold n; rewrite Hn;
      reflexivity.
  - intros Hn i Hi.
    assert (Hbad : bad_index (JInt i) n = true).
    { unfold bad_index. cbn. apply orb_true_iff. destruct Hi; [left | right]; lia. }
    subst headers search.
    unfold select_a_challenge.
    destruct Hid as [-> | ->]; exec; rewrite Htoken, Hreply; cbn; fold n;
      (destruct (Z.eqb_spec n 0) as [Hz | _]; [lia |]);
      rewrite Hbad; reflexivity.
Qed.

Lemma index_out_of_range_raises_witness :
  let s := Sample.boot Sample.signed_in in
  let found := select_a_challenge (Sample.constant JNull Sample.challenges) None None
                 "competition" None true (Some (JInt 10)) 20 s in
  let nothing := select_a_challenge (Sample.constant JNull (JList [])) None None
                   "competition" None true (Some (JStr "seven")) 20 s in
  PyOp.getitem (auth_data (self s)) "auth_token" = Ok (JStr "mock_token")
  /\ PyOp.n_rows Sample.challenges = Ok 3
  /\ (10 < 0 \/ 3 <= 10)
  /\ fst found = Raise (Exception (index_error_msg 3))
  /\ fst nothing = Ok tt
  /\ self (snd nothing) = Sample.signed_in.
Proof.
  intros s found nothing. subst found nothing s.
  split; [reflexivity |]. split; [reflexivity |]. split; [right; lia |].
  split.
  - rewrite (proj2 (index_out_of_range_raises (Sample.constant JNull Sample.challenges)
               (Sample.boot Sample.signed_in) None None None "competition" true 20
               (JStr "mock_token")
               [JObj [("id", JStr "challenge-1"); ("subtitle", JStr "Challenge 1 Subtitle")];
                JObj [("id", JStr "challenge-2"); ("subtitle", JStr "Challenge 2 Subtitle")];
                JObj [("id", JStr "challenge-3"); ("subtitle", JStr "Challenge 3 Subtitle")]]
               (or_introl eq_refl) eq_refl eq_refl) eq_refl 10);
      [reflexivity | right; cbn; lia].
  - rewrite (proj1 (index_out_of_range_raises (Sample.constant JNull (JList []))
               (Sample.boot Sample.signed_in) None None None "competition" true 20
               (JStr "mock_token") [] (or_introl eq_refl) eq_refl eq_refl) eq_refl
               (Some (JStr "seven"))).
    split; reflexivity.
Defined.

(** ** [remaining_subimissions] with a challenge selected *)

Example spec_quota_samples :
  map Spec.quota_in ["You may make a maximum of 7 submissions per day.";
                     "Submit whenever you want."; "maximum of  submissions per day";
                     "maximum of 12 submissions per week, maximum of 3 submissions per day"]%string
  = [7; 0; 0; 3].
Proof. reflexivity. Qed.

Example spec_seconds_samples :
  map Spec.seconds ["1970-01-01T00:00:00Z"; "2000-03-01T00:00:00Z"; "2023-01-11T10:00:00Z"]%string
  = [0; 951868800; 1673431200].
Proof. reflexivity. Qed.

(** C1, as stated, fails on its own example: the rules page of the service
    allows 5 submissions per day and the board holds two entries of the last
    24 hours and one 25 hours old, so the rule of the specification gives 3;
    the method returns the 4 reported by the limits endpoint, after one
    request that reads neither the pages nor the board. *)
Lemma remaining_is_what_the_limits_endpoint_reports :
  let s := Sample.boot Sample.enrolled in
  let run := remaining_subimissions (Sample.service (JInt 4)) s in
  challenge_selected (self s) = true
  /\ Spec.quota Sample.pages = 5
  /\ Spec.count_today Sample.now Sample.board = 2
  /\ Spec.remaining Sample.pages Sample.board Sample.now = 3
  /\ fst run = Ok (JInt 4)
  /\ fst run <> Ok (JInt (Spec.remaining Sample.pages Sample.board Sample.now))
  /\ log (snd run)
     = [Http GET (Sample.api_2 ++ "/submissions/limits")
             [("User-Agent", JStr user_agent); ("auth-token", JStr "mock_token");
              ("current-url", JStr (Sample.api_2 ++ "/submit"))] None None].
Proof.
  intros s run.
  repeat match goal with |- _ /\ _ => split end; try reflexivity.
  intros H. vm_compute in H. discriminate H.
Qed.

(** C1, amended: with a challenge selected, [remaining_subimissions] issues
    one GET to [<api>/submissions/limits].  When the data of the response has
    an [errors] entry it raises with that entry; otherwise it prints and
    returns the [today] entry of the data as it came: no rules page is read,
    no board entry is counted, nothing is clamped. *)
Theorem remaining_subimissions_reads_limits (E : environment) (s : state)
    (url : string) (token payload response_data : json) (code : Z) :
  let limits :=
    Http GET (url ++ "/submissions/limits")
         (Py.extend (headers_ (self s))
            [("auth-token", token); ("current-url", JStr (url ++ "/submit"))]) None None in
  let asked := with_log (fun l => (l ++ [limits])%list) s in
  challenge_selected (self s) = true ->
  api (self s) = Some url ->
  PyOp.getitem (auth_data (self s)) "auth_token" = Ok token ->
  respond E (log s) limits = Ok (mk_response code (Some payload)) ->
  PyOp.getitem payload "data" = Ok response_data ->
  (forall errors,
      PyOp.contains "errors" response_data = Ok true ->
      PyOp.getitem response_data "errors" = Ok errors ->
      remaining_subimissions E s
      = (Raise (Exception (PyStr.nl ++ PyStr.red ++ Py.str errors ++ PyStr.nl)), asked))
  /\ (forall today challenge id,
         PyOp.contains "errors" response_data = Ok false ->
         PyOp.getitem response_data "today" = Ok today ->
         challenge_data (self s) = Some challenge ->
         PyOp.getitem challenge "id" = Ok id ->
         remaining_subimissions E s
         = (Ok today,
            with_stdout (fun out => (out ++ [remaining_msg today id])%list) asked)).
Proof.
  intros limits asked Hsel Hapi Htoken Hresp Hdata. subst limits asked.
  split.
  - intros errors Hin Herr.
    unfold remaining_subimissions. exec.
    repeat progress (rewrite ?Hsel, ?Hapi, ?Htoken, ?Hresp, ?Hdata, ?Hin, ?Herr; cbn).
    reflexivity.
  - intros today challenge id Hin Htoday Hch Hid.
    unfold remaining_subimissions. exec.
    repeat progress (rewrite ?Hsel, ?Hapi, ?Htoken, ?Hresp, ?Hdata, ?Hin, ?Htoday, ?Hch, ?Hid; cbn).
    reflexivity.
Qed.

Lemma remaining_subimissions_reads_limits_witness :
  let s := Sample.boot Sample.enrolled in
  challenge_selected (self s) = true
  /\ PyOp.contains "errors" (JObj [("today", JInt (-2))]) = Ok false
  /\ fst (remaining_subimissions (Sample.service (JInt (-2))) s) = Ok (JInt (-2)).
Proof.
  split; [reflexivity |]. split; [reflexivity |].
  pose proof (remaining_subimissions_reads_limits (Sample.service (JInt (-2)))
                (Sample.boot Sample.enrolled) Sample.api_2 (JStr "mock_token")
                (JObj [("data", JObj [("today", JInt (-2))])]) (JObj [("today", JInt (-2))]) 200
                eq_refl eq_refl eq_refl eq_refl eq_refl) as [_ Hok].
  rewrite (Hok (JInt (-2)) Sample.challenge_2 (JStr "challenge-2") eq_refl eq_refl eq_refl eq_refl).
  reflexivity.
Defined.

(** ** The decimal text of an integer *)

Lemma append_assoc (a b c : string) : (a ++ b) ++ c = a ++ (b ++ c).
Proof.
  induction a as [| x a IH]; [reflexivity |].
  change (String x ((a ++ b) ++ c) = String x (a ++ (b ++ c))). now rewrite IH.
Qed.

Lemma rev_acc_append (a b acc : string) :
  PyStr.rev_acc (a ++ b) acc = PyStr.rev_acc b (PyStr.rev_acc a acc).
Proof.
  revert acc. induction a as [| x a IH]; intros acc; [reflexivity |].
  change (PyStr.rev_acc (a ++ b) (String x acc)
          = PyStr.rev_acc b (PyStr.rev_acc a (String x acc))).
  apply IH.
Qed.

Lemma index_last_append (pre : string) (c : ascii) :
  PyStr.index_last (pre ++ String c EmptyString) = Some c.
Proof. unfold PyStr.index_last, PyStr.rev. rewrite rev_acc_append. reflexivity. Qed.

Lemma index_last2_append (pre : string) (c d : ascii) :
  PyStr.index_last2 (pre ++ String c (String d EmptyString)) = Some c.
Proof. unfold PyStr.index_last2, PyStr.rev. rewrite rev_acc_append. reflexivity. Qed.

Lemma length_append (a b : string) :
  String.length (a ++ b) = (String.length a + String.length b)%nat.
Proof.
  induction a as [| x a IH]; [reflexivity |].
  change (S (String.length (a ++ b)) = S (String.length a + String.length b)).
  now rewrite IH.
Qed.

Lemma digits_S (fuel : nat) (n : Z) (acc : string) :
  PyStr.digits (S fuel) n acc
  = if n / 10 =? 0 then String (PyStr.digit (n mod 10)) acc
    else PyStr.digits fuel (n / 10) (String (PyStr.digit (n mod 10)) acc).
Proof. reflexivity. Qed.

(** The last character [digits] writes is the units digit. *)
Lemma digits_units (fuel : nat) (n : Z) (acc : string) :
  exists pre, PyStr.digits (S fuel) n acc = pre ++ String (PyStr.digit (n mod 10)) acc.
Proof.
  revert n acc. induction fuel as [| fuel IH]; intros n acc.
  - exists EmptyString. rewrite digits_S. destruct (n / 10 =? 0); reflexivity.
  - rewrite digits_S. destruct (n / 10 =? 0).
    + exists EmptyString. reflexivity.
    + destruct (IH (n / 10) (String (PyStr.digit (n mod 10)) acc)) as [pre Hpre].
      exists (pre ++ String (PyStr.digit (n / 10 mod 10)) EmptyString).
      rewrite Hpre, append_assoc. reflexivity.
Qed.

Lemma digits_single (fuel : nat) (n : Z) (acc : string) :
  n / 10 = 0 -> PyStr.digits (S fuel) n acc = String (PyStr.digit (n mod 10)) acc.
Proof. intros H. rewrite digits_S, H. reflexivity. Qed.

Lemma digits_tens (fuel : nat) (n : Z) (acc : string) :
  n / 10 <> 0 ->
  exists pre,
    PyStr.digits (S (S fuel)) n acc
    = pre ++ String (PyStr.digit (n / 10 mod 10)) (String (PyStr.digit (n mod 10)) acc).
Proof.
  intros H. rewrite digits_S.
  destruct (Z.eqb_spec (n / 10) 0) as [Hz | _]; [contradiction |].
  apply (digits_units fuel (n / 10)).
Qed.

Lemma digit_is (d k : Z) :
  0 <= d < 10 -> 0 <= k < 10 ->
  Ascii.eqb (PyStr.digit d) (PyStr.digit k) = (d =? k).
Proof.
  intros Hd Hk.
  assert (Hd' : d = 0 \/ d = 1 \/ d = 2 \/ d = 3 \/ d = 4 \/ d = 5 \/ d = 6 \/ d = 7
                \/ d = 8 \/ d = 9) by lia.
  assert (Hk' : k = 0 \/ k = 1 \/ k = 2 \/ k = 3 \/ k = 4 \/ k = 5 \/ k = 6 \/ k = 7
                \/ k = 8 \/ k = 9) by lia.
  repeat (destruct Hd' as [-> | Hd']); try subst d;
    repeat (destruct Hk' as [-> | Hk']); try subst k; reflexivity.
Qed.

(** The text of a positive integer: its last character, and the one before
    when there are two digits or more. *)
Lemma digits_of_positive (a : Z) (sign : string) :
  0 < a ->
  let text := sign ++ PyStr.digits (S (Z.to_nat (Z.log2 a))) a EmptyString in
  PyStr.index_last text = Some (PyStr.digit (a mod 10))
  /\ (a < 10 -> PyStr.digits (S (Z.to_nat (Z.log2 a))) a EmptyString
               = String (PyStr.digit (a mod 10)) EmptyString)
  /\ (10 <= a -> (1 <? String.length text)%nat = true
                 /\ PyStr.index_last2 text = Some (PyStr.digit (a / 10 mod 10))).
Proof.
  intros Ha text. subst text. repeat split.
  - destruct (digits_units (Z.to_nat (Z.log2 a)) a EmptyString) as [pre ->].
    rewrite <- append_assoc. apply index_last_append.
  - intros Hlt. apply digits_single. apply Z.div_small. lia.
  - assert (Hlog : 3 <= Z.log2 a) by (apply Z.log2_le_pow2; [lia | cbn; lia]).
    destruct (Z.to_nat (Z.log2 a)) as [| fuel] eqn:Hfuel; [lia |].
    destruct (digits_tens fuel a EmptyString) as [pre ->].
    { intros Hz. apply Z.div_small_iff in Hz; lia. }
    rewrite <- append_assoc, length_append. apply Nat.ltb_lt. cbn [String.length]. lia.
  - assert (Hlog : 3 <= Z.log2 a) by (apply Z.log2_le_pow2; [lia | cbn; lia]).
    destruct (Z.to_nat (Z.log2 a)) as [| fuel] eqn:Hfuel; [lia |].
    destruct (digits_tens fuel a EmptyString) as [pre ->].
    { intros Hz. apply Z.div_small_iff in Hz; lia. }
    rewrite <- append_assoc. apply index_last2_append.
Qed.

Lemma of_Z_last (n : Z) :
  n <> 0 -> PyStr.index_last (PyStr.of_Z n) = Some (PyStr.digit (Z.abs n mod 10)).
Proof.
  intros Hn. unfold PyStr.of_Z. destruct (Z.ltb_spec n 0) as [Hneg | Hpos].
  - replace (Z.abs n) with (- n) by lia.
    apply (digits_of_positive (- n) (String "-"%char EmptyString)). lia.
  - replace (Z.abs n) with n by lia.
    apply (digits_of_positive n EmptyString). lia.
Qed.

Lemma of_Z_teen (n : Z) :
  n <> 0 -> teen (PyStr.of_Z n) = (Z.abs n / 10 mod 10 =? 1).
Proof.
  intros Hn. unfold teen, PyStr.of_Z.
  destruct (Z.ltb_spec n 0) as [Hneg | Hpos].
  - replace (Z.abs n) with (- n) by lia.
    destruct (digits_of_positive (- n) (String "-"%char EmptyString)) as (_ & Hone & Hten);
      [lia |].
    destruct (Z_lt_le_dec (- n) 10) as [Hlt | Hge].
    + rewrite (Hone Hlt), Z.div_small by lia. reflexivity.
    + destruct (Hten Hge) as [Hlen Hlast2].
      change (String "-"%char EmptyString ++ ?d) with (String "-"%char d) in Hlen, Hlast2.
      rewrite Hlen, Hlast2. cbn [andb].
      apply (digit_is (- n / 10 mod 10) 1); [apply Z.mod_pos_bound |]; lia.
  - replace (Z.abs n) with n by lia.
    destruct (digits_of_positive n EmptyString) as (_ & Hone & Hten); [lia |].
    destruct (Z_lt_le_dec n 10) as [Hlt | Hge].
    + rewrite (Hone Hlt), Z.div_small by lia. reflexivity.
    + destruct (Hten Hge) as [Hlen Hlast2].
      change (EmptyString ++ ?d) with d in Hlen, Hlast2.
      rewrite Hlen, Hlast2. cbn [andb].
      apply (digit_is (n / 10 mod 10) 1); [apply Z.mod_pos_bound |]; lia.
Qed.

(** Lines 85-103 on an integer rank: the text of the rank with the suffix
    the specification describes. *)
Lemma ordinal_int (n : Z) : ordinal (JInt n) = Ok (Spec.rendering n).
Proof.
  unfold ordinal, Spec.rendering. cbn [Py.eq].
  destruct (Z.eqb_spec n 0) as [-> | Hn]; [reflexivity |].
  change (Py.str (JInt n)) with (PyStr.of_Z n).
  rewrite (of_Z_last n Hn), (of_Z_teen n Hn).
  set (a := Z.abs n).
  assert (Hu : 0 <= a mod 10 < 10) by (apply Z.mod_pos_bound; lia).
  assert (Ht : 0 <= a / 10 mod 10 < 10) by (apply Z.mod_pos_bound; lia).
  change "1"%char with (PyStr.digit 1).
  change "2"%char with (PyStr.digit 2).
  change "3"%char with (PyStr.digit 3).
  rewrite !digit_is by lia.
  unfold Spec.suffix. fold a.
  replace (a mod 100) with (a mod 10 + 10 * (a / 10 mod 10))
    by (change 100 with (10 * 10); rewrite Z.rem_mul_r by lia; reflexivity).
  repeat match goal with
         | |- context [?x =? ?y] => destruct (Z.eqb_spec x y)
         end; cbn [andb negb]; try reflexivity; lia.
Qed.

Example ordinal_samples :
  map (fun n => ordinal (JInt n)) [0; 1; 2; 3; 4; 11; 12; 13; 21; 22; 23; 101; 111; 112; 113; 1000]
  = map Ok ["not yet"; "1st"; "2nd"; "3rd"; "4th"; "11th"; "12th"; "13th"; "21st"; "22nd";
            "23rd"; "101st"; "111th"; "112th"; "113th"; "1000th"]%string.
Proof. reflexivity. Qed.

(** ** [my_rank] with a challenge selected *)

(** What [response_data.get("public_rank", 0) or 0] evaluates to when the
    rank is an integer, [null] or absent. *)
Lemma public_rank_or_0 (response_data : json) (n : Z) :
  Spec.public_rank response_data = Some n ->
  exists v, PyOp.get response_data "public_rank" (JInt 0) = Ok v /\ Py.or v (JInt 0) = JInt n.
Proof.
  unfold Spec.public_rank, PyOp.get.
  destruct response_data as [| | | | | fields]; try discriminate.
  destruct (Py.lookup "public_rank" fields) as [[| | k | | |] |]; try discriminate;
    intros [= <-]; eexists; (split; [reflexivity |]); try reflexivity.
  unfold Py.or, Py.truthy. destruct (Z.eqb_spec k 0) as [-> | _]; reflexivity.
Qed.

(** C7: with a challenge selected and a payload without [errors],
    [my_rank] takes the integer public rank of the payload (0 when absent or
    null), stores it in the session, prints the notice with the rank's
    ordinal rendering (st, nd, rd by the last digit, th for the teens and
    everything else, "not yet" for 0) and returns the integer.  The line is
    written out: a line feed, the green mark, "You are <rendering> on the
    leaderboad of <id> challenge, Go on...", a line feed. *)
Theorem my_rank_selected (E : environment) (s : state) (url : string)
    (token challenge id payload response_data : json) (code n : Z) :
  let asked :=
    Http GET (url ++ "/participations/my_participation")
         (Py.extend (headers_ (self s))
            [("auth-token", token);
             ("current-url",
              JStr ("https://zindi.africa/competitions/" ++ Py.str id ++ "/leaderboard"))])
         None None in
  let line :=
    String "010" ("[ 🟢 ] You are " ++ Spec.rendering n ++ " on the leaderboad of "
                  ++ Py.str id ++ " challenge, Go on..." ++ String "010" "") in
  challenge_selected (self s) = true ->
  api (self s) = Some url ->
  PyOp.getitem (auth_data (self s)) "auth_token" = Ok token ->
  challenge_data (self s) = Some challenge ->
  PyOp.getitem challenge "id" = Ok id ->
  respond E (log s) asked = Ok (mk_response code (Some payload)) ->
  PyOp.getitem payload "data" = Ok response_data ->
  PyOp.contains "errors" response_data = Ok false ->
  Spec.public_rank response_data = Some n ->
  my_rank E s
  = (Ok (JInt n),
     with_stdout (fun out => (out ++ [line])%list)
       (with_self (set_rank (JInt n))
          (with_log (fun l => (l ++ [asked])%list) s))).
Proof.
  intros asked line Hsel Hapi Htoken Hch Hid Hresp Hdata Hin Hrank. subst asked line.
  destruct (public_rank_or_0 response_data n Hrank) as (v & Hget & Hor).
  unfold my_rank. exec.
  repeat progress (rewrite ?Hsel, ?Hapi, ?Htoken, ?Hch, ?Hid, ?Hresp, ?Hdata, ?Hin, ?Hget,
                     ?Hor, ?ordinal_int; cbn).
  reflexivity.
Qed.

Lemma my_rank_selected_witness :
  let payload := JObj [("data", JObj [("public_rank", JInt 112)])] in
  let run := my_rank (Sample.constant payload JNull) (Sample.boot Sample.enrolled) in
  Spec.public_rank (JObj [("public_rank", JInt 112)]) = Some 112
  /\ fst run = Ok (JInt 112)
  /\ rank (self (snd run)) = Some (JInt 112)
  /\ stdout (snd run)
     = [String "010" ("[ 🟢 ] You are 112th on the leaderboad of challenge-2 challenge, Go on..."
                      ++ String "010" "")].
Proof.
  intros payload run. split; [reflexivity |]. subst run.
  rewrite (my_rank_selected (Sample.constant payload JNull) (Sample.boot Sample.enrolled)
             Sample.api_2 (JStr "mock_token") Sample.challenge_2 (JStr "challenge-2") payload
             (JObj [("public_rank", JInt 112)]) 200 112
             eq_refl eq_refl eq_refl eq_refl eq_refl eq_refl eq_refl eq_refl eq_refl).
  repeat split; reflexivity.
Defined.

(** ** Printed lines and issued calls add up *)

Lemma emit_emit (l1 l2 : list string) (c1 c2 : list action) (s : state) :
  emit l2 c2 (emit l1 c1 s) = emit (l1 ++ l2)%list (c1 ++ c2)%list s.
Proof. unfold emit. cbn. now rewrite <- !app_assoc. Qed.

Lemma emit_nothing (s : state) : emit [] [] s = s.
Proof. destruct s. unfold emit. cbn. now rewrite !app_nil_r. Qed.

(** ** [team_up] *)

(** C8, as stated, fails: the benign text in the code is "is already
    invited"; a refusal whose message contains "already invited" without the
    "is" raises at the first invitee, and the second invitation is not
    posted. *)
Lemma already_invited_without_is_raises :
  let E := Sample.team_service (fun _ => Sample.errors_base "User already invited") in
  let s := Sample.boot Sample.enrolled in
  let run := team_up E ["friend1"; "friend2"] s in
  challenge_selected (self s) = true
  /\ PyStr.contains "already invited" "User already invited" = true
  /\ fst run = Raise (Exception (PyStr.nl ++ PyStr.red ++ "{'base': 'User already invited'}"
                                 ++ PyStr.nl))
  /\ stdout (snd run) = []
  /\ log (snd run)
     = [Http POST (Sample.api_2 ++ "/my_team/invite") [("User-Agent", JStr user_agent)]
             (Some [("username", JStr "friend1")]) None].
Proof. repeat split; reflexivity. Qed.

Section TeamUp.

Variable E : environment.
Variables (url : string) (headers : dict) (code : Z).

(** What the service answers to the invitation of each user. *)
Variable answer : string -> json.

Hypothesis answers :
  forall history zindian,
    respond E history (invite url headers zindian)
    = Ok (mk_response code (Some (JObj [("data", answer zindian)]))).

Lemma invite_one_goes_through (zindian : string) (s : state) :
  goes_through answer zindian ->
  invite_one E url headers zindian s
  = (Ok tt, emit [notice answer zindian] [invite url headers zindian] s).
Proof.
  unfold goes_through, notice, verdict, Spec.invitation_of. intros Hv.
  unfold invite_one. exec. fold (invite url headers zindian). rewrite answers. cbn.
  destruct (answer zindian) as [| | | | | fields]; try (destruct Hv; discriminate).
  cbn. destruct (Py.lookup "errors" fields) as [[| | | | | errors] |];
    try (destruct Hv; discriminate); cbn; [| reflexivity].
  destruct (Py.lookup "base" errors) as [[| | | base | |] |];
    try (destruct Hv; discriminate); cbn.
  destruct (PyStr.contains "is already invited" base);
    [reflexivity | destruct Hv; discriminate].
Qed.

Lemma invite_one_refused (zindian : string) (errors : json) (s : state) :
  verdict answer zindian = Some (Spec.Refused errors) ->
  invite_one E url headers zindian s
  = (Raise (Exception (refused_msg errors)), emit [] [invite url headers zindian] s).
Proof.
  unfold verdict, Spec.invitation_of. intros Hv.
  unfold invite_one. exec. fold (invite url headers zindian). rewrite answers. cbn.
  destruct (answer zindian) as [| | | | | fields]; try discriminate.
  cbn. destruct (Py.lookup "errors" fields) as [[| | | | | errs] |]; try discriminate; cbn.
  destruct (Py.lookup "base" errs) as [[| | | base | |] |]; try discriminate; cbn.
  destruct (PyStr.contains "is already invited" base); [discriminate |].
  injection Hv as <-. unfold emit. cbn. now rewrite app_nil_r.
Qed.

Lemma invitations_all (zindians : list string) (s : state) :
  Forall (goes_through answer) zindians ->
  for_each zindians (invite_one E url headers) s
  = (Ok tt, emit (map (notice answer) zindians) (map (invite url headers) zindians) s).
Proof.
  intros Hall. revert s. induction Hall as [| z zs Hz _ IH]; intros s.
  - cbn. now rewrite emit_nothing.
  - cbn [for_each]. unfold mbind, M_bind.
    rewrite (invite_one_goes_through z s Hz), IH, emit_emit. reflexivity.
Qed.

Lemma invitations_stop (before after : list string) (zindian : string) (errors : json)
    (s : state) :
  Forall (goes_through answer) before ->
  verdict answer zindian = Some (Spec.Refused errors) ->
  for_each (before ++ zindian :: after)%list (invite_one E url headers) s
  = (Raise (Exception (refused_msg errors)),
     emit (map (notice answer) before)
          (map (invite url headers) (before ++ [zindian])%list) s).
Proof.
  intros Hall Hv. revert s. induction Hall as [| z zs Hz _ IH]; intros s.
  - cbn [app for_each map]. unfold mbind, M_bind.
    rewrite (invite_one_refused zindian errors s Hv). reflexivity.
  - cbn [app for_each map]. unfold mbind, M_bind.
    rewrite (invite_one_goes_through z s Hz), IH, emit_emit. reflexivity.
Qed.

End TeamUp.

(** C8, amended: with a challenge selected, [team_up] posts the invitations
    in list order.  An answer without [errors], or whose [errors.base]
    contains "is already invited", prints its notice and the loop goes on; the
    first answer with any other [errors.base] text raises with the [errors]
    entry, and no invitation after it is posted. *)
Theorem team_up_in_order (E : environment) (s : state) (api_ : string) (token : json)
    (code : Z) (answer : string -> json) :
  let url := api_ ++ "/my_team/invite" in
  let headers := headers_ (self s) in
  challenge_selected (self s) = true ->
  api (self s) = Some api_ ->
  PyOp.getitem (auth_data (self s)) "auth_token" = Ok token ->
  (forall history zindian,
      respond E history (invite url headers zindian)
      = Ok (mk_response code (Some (JObj [("data", answer zindian)])))) ->
  (forall zindians,
      Forall (goes_through answer) zindians ->
      team_up E zindians s
      = (Ok tt, emit (map (notice answer) zindians) (map (invite url headers) zindians) s))
  /\ (forall before zindian after errors,
         Forall (goes_through answer) before ->
         verdict answer zindian = Some (Spec.Refused errors) ->
         team_up E (before ++ zindian :: after)%list s
         = (Raise (Exception (refused_msg errors)),
            emit (map (notice answer) before)
                 (map (invite url headers) (before ++ [zindian])%list) s)).
Proof.
  intros url headers Hsel Hapi Htoken Hanswers. split.
  - intros zindians Hall. unfold team_up. exec. rewrite Hsel, Htoken, Hapi. cbn.
    apply (invitations_all E url headers code answer Hanswers zindians s Hall).
  - intros before zindian after errors Hall Hv. unfold team_up. exec.
    rewrite Hsel, Htoken, Hapi. cbn.
    apply (invitations_stop E url headers code answer Hanswers before after zindian errors s
             Hall Hv).
Qed.

Lemma team_up_in_order_witness :
  let answer := fun zindian : string =>
                  if String.eqb zindian "friend2" then Sample.errors_base "User is already invited"
                  else if String.eqb zindian "friend3" then Sample.errors_base "Team is full"
                  else Sample.invitation_sent in
  let run := team_up (Sample.team_service answer) ["friend1"; "friend2"; "friend3"; "friend4"]
               (Sample.boot Sample.enrolled) in
  Forall (goes_through answer) ["friend1"; "friend2"]
  /\ verdict answer "friend3" = Some (Spec.Refused (JObj [("base", JStr "Team is full")]))
  /\ fst run = Raise (Exception (refused_msg (JObj [("base", JStr "Team is full")])))
  /\ stdout (snd run) = [invited_msg "friend1"; already_invited_msg "friend2"]
  /\ length (log (snd run)) = 3%nat.
Proof.
  intros answer run.
  assert (Hall : Forall (goes_through answer) ["friend1"; "friend2"]).
  { constructor; [left; reflexivity |]. constructor; [right; reflexivity |]. constructor. }
  split; [exact Hall |]. split; [reflexivity |]. subst run.
  pose proof (team_up_in_order (Sample.team_service answer) (Sample.boot Sample.enrolled)
                Sample.api_2 (JStr "mock_token") 200 answer eq_refl eq_refl eq_refl
                (fun _ _ => eq_refl)) as [_ Hstop].
  pose proof (Hstop ["friend1"; "friend2"] "friend3" ["friend4"]
                (JObj [("base", JStr "Team is full")]) Hall eq_refl) as Hrun.
  change (["friend1"; "friend2"] ++ "friend3" :: ["friend4"])%list
    with ["friend1"; "friend2"; "friend3"; "friend4"] in Hrun.
  rewrite Hrun. repeat split; reflexivity.
Defined.


(** ** Removing duplicates (lines 304-307) *)

Section AppendNew.

Context {A : Type} (same : A -> A -> bool).

Lemma existsb_false (f : A -> bool) (l : list A) (x : A) :
  existsb f l = false -> x ∈ l -> f x = false.
Proof.
  intros Hf Hx. destruct (f x) eqn:Hfx; [| reflexivity].
  assert (Ht : existsb f l = true).
  { apply existsb_exists. exists x. split; [now apply list_elem_of_In | exact Hfx]. }
  congruence.
Qed.

(** The entries kept are appended to the accumulator, in the order of the
    input, and nothing else is. *)
Lemma append_new_sublist (todo datafiles : list A) :
  exists kept, append_new same todo datafiles = (datafiles ++ kept)%list
               /\ kept `sublist_of` todo.
Proof.
  revert datafiles. induction todo as [| i todo IH]; intros datafiles; cbn.
  - exists []. split; [now rewrite app_nil_r | constructor].
  - destruct (existsb (fun item => same item i) datafiles).
    + destruct (IH datafiles) as (kept & -> & Hsub).
      exists kept. split; [reflexivity | now apply sublist_cons].
    + destruct (IH (datafiles ++ [i])%list) as (kept & -> & Hsub).
      exists (i :: kept). split; [now rewrite <- app_assoc | now apply sublist_skip].
Qed.

Lemma pairwise_distinct_snoc (l : list A) (i : A) :
  pairwise_distinct same l ->
  existsb (fun item => same item i) l = false ->
  pairwise_distinct same (l ++ [i])%list.
Proof.
  intros Hl Hi a b x y Hab Hx Hy.
  assert (Hb : (b < length (l ++ [i]))%nat) by (apply lookup_lt_is_Some; eauto).
  rewrite length_app in Hb. cbn in Hb.
  rewrite lookup_app_l in Hx by lia.
  destruct (decide (b < length l)%nat) as [Hlt | Hge].
  - rewrite lookup_app_l in Hy by lia. exact (Hl a b x y Hab Hx Hy).
  - rewrite lookup_app_r in Hy by lia.
    replace (b - length l)%nat with 0%nat in Hy by lia. injection Hy as <-.
    apply (existsb_false (fun item => same item i) l x Hi).
    apply list_elem_of_lookup. eauto.
Qed.

Lemma append_new_distinct (todo datafiles : list A) :
  pairwise_distinct same datafiles ->
  pairwise_distinct same (append_new same todo datafiles).
Proof.
  revert datafiles. induction todo as [| i todo IH]; intros datafiles Hd; cbn.
  - exact Hd.
  - destruct (existsb (fun item => same item i) datafiles) eqn:Hi.
    + now apply IH.
    + apply IH. now apply pairwise_distinct_snoc.
Qed.

(** Every entry of the input is kept, or compares equal to a kept entry. *)
Lemma append_new_covers (todo datafiles : list A) (x : A) :
  x ∈ todo ->
  exists y, y ∈ append_new same todo datafiles /\ (y = x \/ same y x = true).
Proof.
  revert datafiles. induction todo as [| i todo IH]; intros datafiles Hx.
  - inversion Hx.
  - cbn. apply elem_of_cons in Hx as [-> | Hx].
    + destruct (existsb (fun item => same item i) datafiles) eqn:Hi.
      * apply existsb_exists in Hi as (y & Hy & Hsame).
        exists y. split; [| now right].
        destruct (append_new_sublist todo datafiles) as (kept & -> & _).
        apply elem_of_app. left. now apply list_elem_of_In.
      * exists i. split; [| now left].
        destruct (append_new_sublist todo (datafiles ++ [i])%list) as (kept & -> & _).
        apply elem_of_app. left. apply elem_of_app. right. now apply list_elem_of_singleton.
    + destruct (existsb (fun item => same item i) datafiles); now apply IH.
Qed.

End AppendNew.

Lemma pairwise_distinct_nil {A : Type} (same : A -> A -> bool) : pairwise_distinct same [].
Proof. intros i j x y _ Hx. rewrite lookup_nil in Hx. discriminate. Qed.

(** What [remove_duplicates] keeps: a sublist of the manifest, in its
    order, without two entries that compare equal, and with a
    representative for every record of the manifest. *)
Lemma remove_duplicates_spec (datafiles_ : list json) :
  remove_duplicates datafiles_ `sublist_of` datafiles_
  /\ pairwise_distinct Py.eq (remove_duplicates datafiles_)
  /\ (forall x, x ∈ datafiles_ ->
                exists y, y ∈ remove_duplicates datafiles_ /\ (y = x \/ Py.eq y x = true)).
Proof.
  unfold remove_duplicates. repeat split.
  - destruct (append_new_sublist Py.eq datafiles_ []) as (kept & -> & Hsub). exact Hsub.
  - apply append_new_distinct, pairwise_distinct_nil.
  - intros x Hx. now apply append_new_covers.
Qed.

(** A record that only its identical copies compare equal to is kept
    exactly once, however often the manifest repeats it. *)
Lemma remove_duplicates_once (datafiles_ : list json) (r : json) :
  r ∈ datafiles_ ->
  Py.eq r r = true ->
  (forall y, y ∈ datafiles_ -> Py.eq y r = true -> y = r) ->
  exists i, remove_duplicates datafiles_ !! i = Some r
            /\ forall j, remove_duplicates datafiles_ !! j = Some r -> j = i.
Proof.
  intros Hr Hrefl Honly.
  destruct (remove_duplicates_spec datafiles_) as (Hsub & Hdist & Hcov).
  destruct (Hcov r Hr) as (y & Hy & Hyr).
  assert (y = r) as ->.
  { destruct Hyr as [-> | Hyr]; [reflexivity |].
    apply Honly; [| exact Hyr]. eapply elem_of_sublist; eassumption. }
  apply list_elem_of_lookup in Hy as [i Hi]. exists i. split; [exact Hi |].
  intros j Hj. destruct (Nat.lt_trichotomy i j) as [Hlt | [-> | Hgt]]; [| reflexivity |].
  - rewrite (Hdist i j r r Hlt Hi Hj) in Hrefl. discriminate.
  - rewrite (Hdist j i r r Hgt Hj Hi) in Hrefl. discriminate.
Qed.

Example remove_duplicates_sample :
  remove_duplicates
    [JObj [("filename", JStr "Train.csv"); ("id", JStr "df-1")];
     JObj [("filename", JStr "Test.csv"); ("id", JStr "df-2")];
     JObj [("id", JStr "df-1"); ("filename", JStr "Train.csv")];
     JObj [("filename", JStr "Train.csv"); ("id", JStr "df-9")];
     JObj [("filename", JStr "Test.csv"); ("id", JStr "df-2")]]
  = [JObj [("filename", JStr "Train.csv"); ("id", JStr "df-1")];
     JObj [("filename", JStr "Test.csv"); ("id", JStr "df-2")];
     JObj [("filename", JStr "Train.csv"); ("id", JStr "df-9")]].
Proof. reflexivity. Qed.

(** ** What the calls, the prints and the session updates leave alone *)

Section Untouched.

Context {X : Type} (field : state -> X).
Hypothesis field_log : forall f s, field (with_log f s) = field s.
Hypothesis field_stdout : forall f s, field (with_stdout f s) = field s.
Hypothesis field_self : forall f s, field (with_self f s) = field s.

Variable E : environment.

Lemma request_untouched (a : action) : preserves field (request E a).
Proof. intros s. apply field_log. Qed.

Lemma call_untouched (a : action) : preserves field (call E a).
Proof. intros s. apply field_log. Qed.

Lemma print_untouched (line : string) : preserves field (print line).
Proof. intros s. apply field_stdout. Qed.

Lemma json_of_untouched (r : http_response) : preserves field (json_of r).
Proof. intros s. unfold json_of. destruct (body r); reflexivity. Qed.

Lemma self_update_untouched (f : Zindian -> Zindian) : preserves field (modify (with_self f)).
Proof. intros s. apply field_self. Qed.

End Untouched.

Ltac untouched :=
  repeat match goal with
    | |- preserves _ (mbind _ _) => apply preserves_bind; [| intros ?]
    | |- preserves _ (mret _) => apply preserves_ret
    | |- preserves _ (raise _) => apply preserves_raise
    | |- preserves _ (lift _) => apply preserves_lift
    | |- preserves _ (getitem _ _) => apply preserves_lift
    | |- preserves _ (contains _ _) => apply preserves_lift
    | |- preserves _ get_state => apply preserves_get_state
    | |- preserves _ (attr _ _) => apply preserves_attr
    | |- preserves _ (os_path_isfile _) => unfold os_path_isfile
    | |- preserves _ (for_each _ _) => apply preserves_for_each; intros ?
    | |- preserves _ (try_except _ _) => apply preserves_try_except
    | |- preserves _ (request _ _) => apply request_untouched; assumption
    | |- preserves _ (call _ _) => apply call_untouched; assumption
    | |- preserves _ (print _) => apply print_untouched; assumption
    | |- preserves _ (json_of _) => apply json_of_untouched
    | |- preserves _ (modify (with_self _)) => apply self_update_untouched; assumption
    | |- preserves _ (if ?b then _ else _) => destruct b
    | |- preserves _ (match ?x with _ => _ end) => destruct x
    | |- preserves _ (let (_, _) := ?x in _) => destruct x
    end.

Section UntouchedByMethods.

Context {X : Type} (field : state -> X).
Hypothesis field_log : forall f s, field (with_log f s) = field s.
Hypothesis field_stdout : forall f s, field (with_stdout f s) = field s.
Hypothesis field_self : forall f s, field (with_self f s) = field s.

Variable E : environment.


Lemma submit_one_untouched (url : string) (headers : dict) (pair : string * string) :
  preserves field (submit_one E url headers pair).
Proof. unfold submit_one. untouched. Qed.

End UntouchedByMethods.

(** ** [download_dataset]: the destination folder *)




(** ** [download_dataset]: one download per kept record *)

Lemma make_destination_dir_ok (E : environment) (destination : string)
    (make_destination : bool) (s : state) :
  fst (make_destination_dir E destination make_destination s) = Ok tt ->
  exists s', make_destination_dir E destination make_destination s = (Ok tt, s')
             /\ self s' = self s /\ log s' = log s /\ stdout s' = stdout s.
Proof.
  intros Hok.
  destruct (make_destination_dir E destination make_destination s) as [[[] | e] s'] eqn:Hrun;
    [| discriminate Hok].
  destruct (make_destination_dir_returns E destination make_destination s s' Hrun)
    as (Hself & _ & _ & Hout & Hlog).
  exists s'. auto.
Qed.

(** The records kept from an initial part of the manifest are kept first. *)
Lemma append_new_app {A : Type} (same : A -> A -> bool) (l1 l2 datafiles : list A) :
  append_new same (l1 ++ l2)%list datafiles
  = append_new same l2 (append_new same l1 datafiles).
Proof.
  revert datafiles. induction l1 as [| i l1 IH]; intros datafiles; [reflexivity |].
  cbn. destruct (existsb (fun item => same item i) datafiles); apply IH.
Qed.

Lemma remove_duplicates_prefix (datafiles_ : list json) (k : nat) :
  remove_duplicates (take k datafiles_) `prefix_of` remove_duplicates datafiles_.
Proof.
  unfold remove_duplicates.
  rewrite <- (take_drop k datafiles_) at 2. rewrite append_new_app.
  destruct (append_new_sublist Py.eq (drop k datafiles_)
              (append_new Py.eq (take k datafiles_) [])) as (kept & -> & _).
  now exists kept.
Qed.

Section Downloads.

Variable E : environment.
Variables (url destination : string) (headers : dict).

(** The name each record gives its file. *)
Variable filename : json -> string.

Hypothesis downloads_return :
  forall history name,
    exists v, reply E history (download_of url destination headers name) = Ok v.

Lemma download_one_runs (data : json) (s : state) :
  PyOp.getitem data "filename" = Ok (JStr (filename data)) ->
  download_one E url destination headers data s
  = (Ok tt, emit [] [download_of url destination headers (filename data)] s).
Proof.
  intros Hname. unfold download_one. exec. rewrite Hname. cbn.
  change (Py.str (JStr (filename data))) with (filename data).
  fold (download_of url destination headers (filename data)).
  destruct (downloads_return (log s) (filename data)) as [v ->].
  unfold emit. cbn. now rewrite app_nil_r.
Qed.

Lemma downloads_run (datafiles : list json) (s : state) :
  Forall (fun data => PyOp.getitem data "filename" = Ok (JStr (filename data))) datafiles ->
  for_each datafiles (download_one E url destination headers) s
  = (Ok tt,
     emit [] (map (fun data => download_of url destination headers (filename data)) datafiles)
          s).
Proof.
  intros Hall. revert s. induction Hall as [| data datafiles Hdata _ IH]; intros s.
  - cbn. now rewrite emit_nothing.
  - cbn [for_each map]. unfold mbind, M_bind.
    rewrite (download_one_runs data s Hdata), IH, emit_emit. reflexivity.
Qed.

End Downloads.

(** C6: with a challenge selected and once the directory step has
    returned, [download_dataset] fetches the manifest and calls the
    [download] helper once for each record that [remove_duplicates] keeps, in
    order.  The kept records are a sublist of the manifest in first-seen
    order (what is kept from an initial part of the manifest comes first), no
    two of them compare equal, every record of the manifest is kept or
    compares equal to a kept one, and a record that only its identical copies
    compare equal to is downloaded exactly once. *)
Theorem download_dataset_once_per_record (E : environment) (s : state)
    (destination url : string) (make_destination : bool)
    (token payload response_data : json) (code : Z)
    (manifest : list json) (filename : json -> string) :
  let headers := Py.extend (headers_ (self s)) [("auth_token", token)] in
  let fetch := Http GET url headers (Some [("auth_token", token)]) None in
  let kept := remove_duplicates manifest in
  let download := fun data => download_of url destination headers (filename data) in
  let run := download_dataset E destination make_destination s in
  challenge_selected (self s) = true ->
  api (self s) = Some url ->
  PyOp.getitem (auth_data (self s)) "auth_token" = Ok token ->
  fst (make_destination_dir E destination make_destination s) = Ok tt ->
  respond E (log s) fetch = Ok (mk_response code (Some payload)) ->
  PyOp.getitem payload "data" = Ok response_data ->
  PyOp.getitem response_data "datafiles" = Ok (JList manifest) ->
  Forall (fun data => PyOp.getitem data "filename" = Ok (JStr (filename data))) manifest ->
  (forall history name,
      exists v, reply E history (download_of url destination headers name) = Ok v) ->
  fst run = Ok tt
  /\ log (snd run) = (log s ++ fetch :: map download kept)%list
  /\ kept `sublist_of` manifest
  /\ (forall k, remove_duplicates (take k manifest) `prefix_of` kept)
  /\ pairwise_distinct Py.eq kept
  /\ (forall x, x ∈ manifest -> exists y, y ∈ kept /\ (y = x \/ Py.eq y x = true))
  /\ (forall r, r ∈ manifest -> Py.eq r r = true ->
                (forall y, y ∈ manifest -> Py.eq y r = true -> y = r) ->
                exists i, kept !! i = Some r /\ forall j, kept !! j = Some r -> j = i).
Proof.
  intros headers fetch kept download run Hsel Hapi Htoken Hdir Hresp Hdata Hfiles Hnames
         Hreply.
  destruct (remove_duplicates_spec manifest) as (Hsub & Hdist & Hcov). fold kept in Hsub, Hdist, Hcov.
  assert (Hkept : Forall (fun data => PyOp.getitem data "filename" = Ok (JStr (filename data)))
                         kept).
  { apply Forall_forall. intros x Hx.
    apply (proj1 (Forall_forall _ _) Hnames). eapply elem_of_sublist; eassumption. }
  destruct (make_destination_dir_ok E destination make_destination s Hdir)
    as (s1 & Hs1 & Hself & Hlog & _).
  assert (Hrun : run = (Ok tt, emit [] (fetch :: map download kept) s1)).
  { subst run. unfold download_dataset, mbind at 1, M_bind at 1. rewrite Hs1.
    unfold download_selected. exec.
    repeat progress (rewrite ?Hself, ?Hlog, ?Hsel, ?Hapi, ?Htoken; cbn).
    fold headers. fold fetch. rewrite Hresp. cbn.
    rewrite Hdata. cbn. rewrite Hfiles. cbn. fold kept.
    rewrite (downloads_run E url destination headers filename Hreply kept _ Hkept).
    unfold emit. cbn. now rewrite <- app_assoc. }
  rewrite Hrun. cbn [fst snd emit log]. rewrite Hlog.
  repeat split; try assumption.
  - intros k. apply remove_duplicates_prefix.
  - intros r Hr Hrefl Honly. now apply remove_duplicates_once.
Qed.

Lemma download_dataset_once_per_record_witness :
  let s := Sample.boot Sample.enrolled in
  let headers := [("User-Agent", JStr user_agent); ("auth_token", JStr "mock_token")] in
  let run := download_dataset (Sample.constant Sample.details JNull) "data" true s in
  challenge_selected (self s) = true
  /\ Forall (fun data => PyOp.getitem data "filename" = Ok (JStr (Sample.name_of data)))
            Sample.manifest
  /\ fst run = Ok tt
  /\ log (snd run)
     = [Http GET Sample.api_2 headers (Some [("auth_token", JStr "mock_token")]) None;
        Download (Sample.api_2 ++ "/files/Train.csv") "data/Train.csv" headers;
        Download (Sample.api_2 ++ "/files/Test.csv") "data/Test.csv" headers].
Proof.
  intros s headers run.
  assert (Hnames : Forall (fun data => PyOp.getitem data "filename"
                                       = Ok (JStr (Sample.name_of data))) Sample.manifest).
  { repeat (constructor; [reflexivity |]). constructor. }
  assert (Hdir : fst (make_destination_dir (Sample.constant Sample.details JNull) "data" true s)
                 = Ok tt) by reflexivity.
  destruct (download_dataset_once_per_record (Sample.constant Sample.details JNull) s
              "data" Sample.api_2 true (JStr "mock_token") Sample.details
              (JObj [("id", JStr "challenge-2"); ("datafiles", JList Sample.manifest)])
              200 Sample.manifest Sample.name_of eq_refl eq_refl eq_refl Hdir eq_refl eq_refl
              eq_refl Hnames (fun _ _ => ex_intro _ JNull eq_refl))
    as (Hok & Hlog & _).
  split; [reflexivity |]. split; [exact Hnames |]. split; [exact Hok |].
  subst run. rewrite Hlog. reflexivity.
Defined.

(** ** [submit]: the list of comments *)

(** C10, as stated, fails: without a selected challenge [submit] raises
    before it reaches the padding, and a list of comments shorter than the
    list of file paths (here the shared default, empty) is left as it was. *)
Lemma comments_untouched_when_not_selected :
  let s := Sample.boot Sample.signed_in in
  let run := submit Sample.offline ["a.csv"; "b.csv"] submit_default_comments s in
  heap s !! submit_default_comments = Some []
  /\ fst run = Raise (Exception submit_not_selected_msg)
  /\ heap (snd run) !! submit_default_comments = Some [].
Proof. repeat split; reflexivity. Qed.

(** C10, amended: with a challenge selected, when the list of comments is
    shorter than the list of file paths, [submit] extends the caller's list
    object in place with empty strings up to the length of [filepaths],
    whatever happens in the loop afterwards; the object is the caller's own
    list, or the shared default when [comments] is left out, and no other
    list is touched. *)
Theorem submit_pads_comments_in_place (E : environment) (s : state)
    (filepaths : list string) (comments : loc) (api_ : string) (token : json) :
  let given := default [] (heap s !! comments) in
  let blanks := repeat "" (length filepaths - length given) in
  challenge_selected (self s) = true ->
  api (self s) = Some api_ ->
  PyOp.getitem (auth_data (self s)) "auth_token" = Ok token ->
  (length given < length filepaths)%nat ->
  heap (snd (submit E filepaths comments s)) = <[comments := (given ++ blanks)%list]> (heap s)
  /\ length (given ++ blanks)%list = length filepaths.
Proof.
  intros given blanks Hsel Hapi Htoken Hshort. split.
  - unfold submit. exec.
    repeat progress (rewrite ?Hsel, ?Htoken, ?Hapi; cbn).
    fold given. rewrite (proj2 (Nat.ltb_lt _ _) Hshort). cbn.
    match goal with
    | |- heap (snd (for_each ?l ?f ?s1)) = _ =>
        rewrite (preserves_for_each heap l f
                   (submit_one_untouched heap (fun _ _ => eq_refl) (fun _ _ => eq_refl) E _ _) s1)
    end.
    reflexivity.
  - subst blanks. rewrite length_app, repeat_length. lia.
Qed.

Lemma submit_pads_comments_in_place_witness :
  let s := Sample.boot Sample.enrolled in
  let run := submit Sample.offline ["a.txt"; "b.txt"] submit_default_comments s in
  challenge_selected (self s) = true
  /\ heap s !! submit_default_comments = Some []
  /\ heap (snd run) !! submit_default_comments = Some [""; ""]%string.
Proof.
  intros s run. split; [reflexivity |]. split; [reflexivity |].
  destruct (submit_pads_comments_in_place Sample.offline s ["a.txt"; "b.txt"]
              submit_default_comments Sample.api_2 (JStr "mock_token")
              eq_refl eq_refl eq_refl) as [Hheap _].
  { vm_compute. lia. }
  subst run. rewrite Hheap. reflexivity.
Defined.

(** ** [submit]: the batch *)

Lemma rev_acc_rev_acc (s acc tail : string) :
  PyStr.rev_acc (PyStr.rev_acc s acc) tail = PyStr.rev_acc acc (s ++ tail).
Proof.
  revert acc tail. induction s as [| c s IH]; intros acc tail; [reflexivity |].
  change (PyStr.rev_acc (String c s) acc) with (PyStr.rev_acc s (String c acc)).
  rewrite IH. reflexivity.
Qed.

Lemma string_app_empty (s : string) : s ++ "" = s.
Proof.
  induction s as [| c s IH]; [reflexivity |].
  change (String c s ++ "") with (String c (s ++ "")). now rewrite IH.
Qed.

Lemma last_segment_acc_dotless (ext seg : string) :
  PyStr.contains "." ext = false ->
  PyStr.last_segment_acc ext seg = PyStr.rev (PyStr.rev_acc ext seg).
Proof.
  revert seg. induction ext as [| c ext IH]; intros seg Hdot; [reflexivity |].
  change (PyStr.contains "." (String c ext))
    with (String.prefix "." (String c ext) || PyStr.contains "." ext) in Hdot.
  apply orb_false_elim in Hdot as [Hc Hext].
  change (PyStr.last_segment_acc (String c ext) seg)
    with (if Ascii.eqb c "."%char then PyStr.last_segment_acc ext EmptyString
          else PyStr.last_segment_acc ext (String c seg)).
  destruct (Ascii.eqb_spec c "."%char) as [-> | Hne].
  - cbn in Hc. destruct ext; discriminate.
  - now rewrite IH.
Qed.

Lemma last_segment_acc_after_dot (stem ext seg : string) :
  PyStr.last_segment_acc (stem ++ "." ++ ext) seg = PyStr.last_segment_acc ext EmptyString.
Proof.
  revert seg. induction stem as [| c stem IH]; intros seg; [reflexivity |].
  change (PyStr.last_segment_acc (String c stem ++ "." ++ ext) seg)
    with (if Ascii.eqb c "."%char then PyStr.last_segment_acc (stem ++ "." ++ ext) EmptyString
          else PyStr.last_segment_acc (stem ++ "." ++ ext) (String c seg)).
  destruct (Ascii.eqb c "."%char); apply IH.
Qed.

Example extension_samples :
  map extension_of ["a.csv"; "b.txt"; "missing.csv"; "UPPER.CSV"; "notes.csv.bak"; "x.csv "]%string
  = ["csv"; "txt"; "csv"; "csv"; "bak"; "csv"]%string.
Proof. reflexivity. Qed.

Section Uploads.

Variable E : environment.
Variables (url : string) (headers : dict) (code : Z).

(** What the service answers to the upload of each file. *)
Variable answer : string -> json.

Hypothesis answers :
  forall history pair,
    respond E history (upload_of url headers pair)
    = Ok (mk_response code (Some (JObj [("data", answer (fst pair))]))).

Lemma submit_one_runs (pair : string * string) (line : string) (s : state) :
  submit_line (files s) answer pair = Some line ->
  submit_one E url headers pair s
  = (Ok tt,
     emit [line] (if uploaded (files s) pair then [upload_of url headers pair] else []) s).
Proof.
  destruct pair as [filepath comment].
  unfold submit_line, uploaded, submit_one. cbn [fst snd]. fold (is_csv filepath).
  destruct (is_csv filepath); cbn [andb].
  - exec. destruct (bool_decide (filepath ∈ files s)); cbn.
    + change (Upload filepath comment url headers)
        with (upload_of url headers (filepath, comment)).
      rewrite answers. cbn.
      unfold upload_line, try_except. exec.
      destruct (PyOp.getitem (answer filepath) "errors") as [errors | e]; cbn.
      * intros [= <-]. reflexivity.
      * destruct (PyOp.getitem (answer filepath) "id") as [id | e']; cbn.
        -- intros [= <-]. reflexivity.
        -- discriminate.
    + intros [= <-]. unfold emit. cbn. now rewrite app_nil_r.
  - exec. intros [= <-]. unfold emit. cbn. now rewrite app_nil_r.
Qed.

Lemma submit_loop_runs (pairs : list (string * string)) (lines : list string) (s : state) :
  mapM (submit_line (files s) answer) pairs = Some lines ->
  for_each pairs (submit_one E url headers) s
  = (Ok tt,
     emit lines (map (upload_of url headers) (List.filter (uploaded (files s)) pairs)) s).
Proof.
  revert lines s. induction pairs as [| pair pairs IH]; intros lines s Hlines.
  - cbn in Hlines. injection Hlines as <-. cbn. now rewrite emit_nothing.
  - cbn in Hlines.
    destruct (submit_line (files s) answer pair) as [line |] eqn:Hline; [| discriminate].
    cbn in Hlines.
    destruct (mapM (submit_line (files s) answer) pairs) as [rest |] eqn:Hrest; [| discriminate].
    injection Hlines as <-.
    cbn [for_each]. unfold mbind at 1, M_bind at 1.
    rewrite (submit_one_runs pair line s Hline).
    match goal with
    | |- context [for_each pairs _ ?s1] => rewrite (IH rest s1 Hrest)
    end.
    rewrite emit_emit. cbn [files emit].
    cbn [List.filter]. destruct (uploaded (files s) pair); reflexivity.
Qed.

End Uploads.





(** * Further properties of the class *)

(** Two descriptions of the same final state: the fields one by one. *)
Ltac same_state :=
  unfold emit, says_not_selected, with_log, with_stdout, with_self, with_heap, with_dirs;
  cbn; rewrite <- ?app_assoc, ?app_nil_r; cbn; try reflexivity.

(** ** [select_a_challenge] by id *)

(** X1: given a non-empty [challenge_id] that the service knows,
    [select_a_challenge] ignores the search filters and the index, stores the
    payload, the address and the flag, prints the choice and calls
    [join_challenge]; the selection is already stored when the join raises. *)
Theorem select_by_id_commits_before_join (E : environment) (s : state)
    (c : ascii) (rest : string) (query reward : option string) (kind : string)
    (active : bool) (fixed_index : option json) (per_page : Z)
    (token payload data id : json) (code : Z) :
  let challenge_id := String c rest in
  let url := base_api (self s) ++ "/" ++ challenge_id in
  let headers := selection_headers s token in
  let fetch := Http GET url headers None None in
  let join := JoinChallenge (url ++ "/participations") headers in
  let subtitle := match PyOp.get data "subtitle" (JStr "") with
                  | Ok subtitle => subtitle
                  | Raise _ => JStr ""
                  end in
  PyOp.getitem (auth_data (self s)) "auth_token" = Ok token ->
  respond E (log s) fetch = Ok (mk_response code (Some payload)) ->
  PyOp.getitem payload "data" = Ok data ->
  PyOp.contains "errors" data = Ok false ->
  PyOp.getitem data "id" = Ok id ->
  select_a_challenge E (Some challenge_id) query kind reward active fixed_index per_page s
  = (dropped (reply E (log s ++ [fetch]) join),
     emit [chosen_by_id_msg id subtitle] [fetch; join] (with_self (selected_at data url) s)).
Proof.
  intros challenge_id url headers fetch join subtitle Htoken Hresp Hdata Hin Hid.
  subst subtitle join fetch headers. unfold selection_headers in *.
  unfold select_a_challenge. exec. rewrite Htoken. fold challenge_id. fold url.
  rewrite Hresp. cbn. rewrite Hdata, Hin. cbn. rewrite Hid.
  destruct data as [| | | | | fields]; try discriminate. cbn.
  unfold chosen_by_id_msg. same_state.
  match goal with |- context [dropped ?r] => destruct r; reflexivity end.
Qed.

Lemma select_by_id_commits_before_join_witness :
  let E := Scenario.helpers_fail (JObj [("data", Sample.challenge_2)]) in
  let run := select_a_challenge E (Some "challenge-2") (Some "ignored") "hackathon" None false
               (Some (JInt 99)) 20 (Sample.boot Sample.signed_in) in
  PyOp.contains "errors" Sample.challenge_2 = Ok false
  /\ fst run = Raise (Foreign "helper failed")
  /\ self (snd run) = Sample.enrolled.
Proof.
  intros E run. split; [reflexivity |]. subst run.
  rewrite (select_by_id_commits_before_join E (Sample.boot Sample.signed_in)
             "c"%char "hallenge-2" (Some "ignored") None "hackathon" false (Some (JInt 99)) 20
             (JStr "mock_token") (JObj [("data", Sample.challenge_2)]) Sample.challenge_2
             (JStr "challenge-2") 200 eq_refl eq_refl eq_refl eq_refl eq_refl).
  split; reflexivity.
Defined.

(** X2: given a non-empty [challenge_id] for which the service answers with
    an [errors] entry, [select_a_challenge] prints that the challenge was not
    found and returns normally: nothing is raised, the session is as before
    and [join_challenge] is not called. *)
Theorem select_by_id_not_found (E : environment) (s : state)
    (c : ascii) (rest : string) (query reward : option string) (kind : string)
    (active : bool) (fixed_index : option json) (per_page : Z)
    (token payload data : json) (code : Z) :
  let challenge_id := String c rest in
  let fetch := Http GET (base_api (self s) ++ "/" ++ challenge_id)
                    (selection_headers s token) None None in
  PyOp.getitem (auth_data (self s)) "auth_token" = Ok token ->
  respond E (log s) fetch = Ok (mk_response code (Some payload)) ->
  PyOp.getitem payload "data" = Ok data ->
  PyOp.contains "errors" data = Ok true ->
  select_a_challenge E (Some challenge_id) query kind reward active fixed_index per_page s
  = (Ok tt, emit [not_found_msg challenge_id] [fetch] s).
Proof.
  intros challenge_id fetch Htoken Hresp Hdata Hin.
  subst fetch. unfold selection_headers in *.
  unfold select_a_challenge. exec. rewrite Htoken. fold challenge_id.
  rewrite Hresp. cbn. rewrite Hdata, Hin. cbn.
  unfold not_found_msg. same_state.
Qed.

Lemma select_by_id_not_found_witness :
  let payload := JObj [("data", JObj [("errors", JStr "Not found")])] in
  let s := Sample.boot Sample.enrolled in
  let run := select_a_challenge (Sample.constant payload JNull) (Some "no-such-challenge") None
               "competition" None true None 20 s in
  PyOp.contains "errors" (JObj [("errors", JStr "Not found")]) = Ok true
  /\ fst run = Ok tt
  /\ self (snd run) = Sample.enrolled
  /\ stdout (snd run) = [not_found_msg "no-such-challenge"].
Proof.
  intros payload s run. split; [reflexivity |]. subst run.
  rewrite (select_by_id_not_found (Sample.constant payload JNull) s "n"%char "o-such-challenge"
             None None "competition" true None 20 (JStr "mock_token") payload
             (JObj [("errors", JStr "Not found")]) 200 eq_refl eq_refl eq_refl eq_refl).
  repeat split; reflexivity.
Defined.

(** ** [select_a_challenge] from the search *)

#[local] Arguments PyOp.iloc : simpl never.

(** X3: when the search returns rows and [fixed_index] is an integer i with
    0 <= i < n, [select_a_challenge] selects row i without printing the list
    or prompting: the row, the address built from the row's id and the flag are
    stored, the choice is printed and [join_challenge] is called; the selection
    is already stored when the join raises. *)
Theorem select_by_index (E : environment) (s : state)
    (challenge_id query reward : option string) (kind : string) (active : bool)
    (per_page : Z) (token row id subtitle : json) (rows : list json) (i : Z) :
  let headers := selection_headers s token in
  let search := GetChallenges query kind reward active (base_api (self s)) headers per_page in
  let url := base_api (self s) ++ "/" ++ Py.str id in
  let join := JoinChallenge (url ++ "/participations") headers in
  challenge_id = None \/ challenge_id = Some "" ->
  PyOp.getitem (auth_data (self s)) "auth_token" = Ok token ->
  reply E (log s) search = Ok (JList rows) ->
  0 <= i ->
  nth_error rows (Z.to_nat i) = Some row ->
  PyOp.getitem row "id" = Ok id ->
  PyOp.getitem row "subtitle" = Ok subtitle ->
  select_a_challenge E challenge_id query kind reward active (Some (JInt i)) per_page s
  = (dropped (reply E (log s ++ [search]) join),
     emit [chosen_msg id subtitle] [search; join] (with_self (selected_at row url) s)).
Proof.
  intros headers search url join Hcid Htoken Hreply Hi Hrow Hid Hsub.
  assert (Hlen : (Z.to_nat i < length rows)%nat).
  { apply nth_error_Some. rewrite Hrow. discriminate. }
  assert (Hgood : bad_index (JInt i) (Z.of_nat (length rows)) = false).
  { unfold bad_index. cbn.
    destruct (Z.ltb_spec i 0); [lia |]. destruct (Z.leb_spec (Z.of_nat (length rows)) i); [lia |].
    reflexivity. }
  assert (Hiloc : PyOp.iloc (JList rows) (JInt i) = Ok row).
  { unfold PyOp.iloc. destruct (Z.ltb_spec i 0); [lia |].
    destruct (Z.leb_spec 0 i); [| lia].
    destruct (Z.ltb_spec i (Z.of_nat (length rows))); [| lia]. cbn. now rewrite Hrow. }
  subst join url search headers. unfold selection_headers in *.
  unfold select_a_challenge.
  destruct Hcid as [-> | ->]; exec; rewrite Htoken, Hreply; cbn;
    (destruct (Z.eqb_spec (Z.of_nat (length rows)) 0) as [Hz | _]; [lia |]);
    rewrite Hgood; cbn;
    (destruct (Z.ltb_spec (-1) i) as [_ | Hneg]; [| lia]);
    rewrite Hiloc; cbn; rewrite Hid; cbn; rewrite Hsub; cbn;
    unfold chosen_msg; same_state;
    match goal with |- context [dropped ?r] => destruct r; reflexivity end.
Qed.

Lemma select_by_index_witness :
  let E := Sample.constant JNull Sample.challenges in
  let run := select_a_challenge E None None "competition" None true (Some (JInt 2)) 20
               (Sample.boot Sample.signed_in) in
  0 <= 2
  /\ fst run = Ok tt
  /\ selection (snd run)
     = (true,
        Some (JObj [("id", JStr "challenge-3"); ("subtitle", JStr "Challenge 3 Subtitle")]),
        Some "https://api.zindi.africa/v1/competitions/challenge-3").
Proof.
  intros E run. split; [lia |]. subst run.
  rewrite (select_by_index E (Sample.boot Sample.signed_in) None None None "competition" true 20
             (JStr "mock_token")
             (JObj [("id", JStr "challenge-3"); ("subtitle", JStr "Challenge 3 Subtitle")])
             (JStr "challenge-3") (JStr "Challenge 3 Subtitle")
             [JObj [("id", JStr "challenge-1"); ("subtitle", JStr "Challenge 1 Subtitle")];
              JObj [("id", JStr "challenge-2"); ("subtitle", JStr "Challenge 2 Subtitle")];
              JObj [("id", JStr "challenge-3"); ("subtitle", JStr "Challenge 3 Subtitle")]] 2
             (or_introl eq_refl) eq_refl eq_refl ltac:(lia) eq_refl eq_refl eq_refl).
  split; reflexivity.
Defined.

(** X4: when [fixed_index] is left out, the list is shown and the user is
    asked; an answer below 0 (the quit value is -1) leaves the session as it
    was: nothing is selected, [join_challenge] is not called, and the call
    returns normally. *)
Theorem select_interactive_quit (E : environment) (s : state)
    (challenge_id query reward : option string) (kind : string) (active : bool)
    (per_page : Z) (token shown : json) (rows : list json) (i : Z) :
  let headers := selection_headers s token in
  let search := GetChallenges query kind reward active (base_api (self s)) headers per_page in
  let show := PrintChallenges (JList rows) in
  let ask := ChallengeIdxSelector (Z.of_nat (length rows)) in
  challenge_id = None \/ challenge_id = Some "" ->
  PyOp.getitem (auth_data (self s)) "auth_token" = Ok token ->
  reply E (log s) search = Ok (JList rows) ->
  rows <> [] ->
  reply E (log s ++ [search]) show = Ok shown ->
  reply E (log s ++ [search; show]) ask = Ok (JInt i) ->
  i <= -1 ->
  select_a_challenge E challenge_id query kind reward active None per_page s
  = (Ok tt, emit [] [search; show; ask] s).
Proof.
  intros headers search show ask Hcid Htoken Hreply Hrows Hshow Hask Hi.
  assert (Hn : Z.of_nat (length rows) <> 0) by (destruct rows; [congruence | cbn; lia]).
  subst ask show search headers. unfold selection_headers in *.
  unfold select_a_challenge.
  destruct Hcid as [-> | ->]; exec; rewrite Htoken, Hreply; cbn;
    (destruct (Z.eqb_spec (Z.of_nat (length rows)) 0) as [Hz | _]; [contradiction |]);
    unfold with_log; cbn; rewrite Hshow; cbn; rewrite <- app_assoc; cbn; rewrite Hask; cbn;
    (destruct (Z.ltb_spec (-1) i) as [Hpos | _]; [lia |]);
    same_state.
Qed.

Lemma select_interactive_quit_witness :
  let E := Scenario.interactive Sample.challenges (JInt (-1)) in
  let s := Sample.boot Sample.signed_in in
  let run := select_a_challenge E None None "competition" None true None 20 s in
  -1 <= -1
  /\ fst run = Ok tt
  /\ self (snd run) = Sample.signed_in
  /\ length (log (snd run)) = 3%nat.
Proof.
  intros E s run. split; [lia |]. subst run.
  rewrite (select_interactive_quit E s None None None "competition" true 20
             (JStr "mock_token") JNull
             [JObj [("id", JStr "challenge-1"); ("subtitle", JStr "Challenge 1 Subtitle")];
              JObj [("id", JStr "challenge-2"); ("subtitle", JStr "Challenge 2 Subtitle")];
              JObj [("id", JStr "challenge-3"); ("subtitle", JStr "Challenge 3 Subtitle")]]
             (-1) (or_introl eq_refl) eq_refl eq_refl ltac:(discriminate) eq_refl eq_refl
             ltac:(lia)).
  repeat split; reflexivity.
Defined.

(** X5: when the search returns at least one challenge, a [fixed_index]
    that is neither [None] nor an integer (a string such as "1", a list)
    raises the range error; it is neither converted nor used.  [None] given
    explicitly is the same call as [fixed_index] left out. *)
Theorem index_not_an_integer_raises (E : environment) (s : state)
    (challenge_id query reward : option string) (kind : string) (active : bool)
    (per_page : Z) (token fixed_index : json) (rows : list json) :
  let search := GetChallenges query kind reward active (base_api (self s))
                  (selection_headers s token) per_page in
  challenge_id = None \/ challenge_id = Some "" ->
  PyOp.getitem (auth_data (self s)) "auth_token" = Ok token ->
  reply E (log s) search = Ok (JList rows) ->
  rows <> [] ->
  fixed_index <> JNull ->
  PyOp.is_int fixed_index = false ->
  select_a_challenge E challenge_id query kind reward active (Some fixed_index) per_page s
  = (Raise (Exception (index_error_msg (Z.of_nat (length rows)))), emit [] [search] s)
  /\ select_a_challenge E challenge_id query kind reward active (Some JNull) per_page
     = select_a_challenge E challenge_id query kind reward active None per_page.
Proof.
  intros search Hcid Htoken Hreply Hrows Hnone Hint. split; [| reflexivity].
  assert (Hn : Z.of_nat (length rows) <> 0) by (destruct rows; [congruence | cbn; lia]).
  assert (Hbad : bad_index fixed_index (Z.of_nat (length rows)) = true).
  { unfold bad_index. now rewrite Hint. }
  subst search. unfold selection_headers in *.
  unfold select_a_challenge.
  destruct fixed_index as [| b | k | text | items | fields]; try contradiction;
    try discriminate Hint;
    (destruct Hcid as [-> | ->]; exec; rewrite Htoken, Hreply; cbn;
     (destruct (Z.eqb_spec (Z.of_nat (length rows)) 0) as [Hz | _]; [contradiction |]);
     rewrite Hbad; same_state).
Qed.

Lemma index_not_an_integer_raises_witness :
  let run := select_a_challenge (Sample.constant JNull Sample.challenges) None None
               "competition" None true (Some (JStr "1")) 20 (Sample.boot Sample.signed_in) in
  PyOp.is_int (JStr "1") = false
  /\ JStr "1" <> JNull
  /\ fst run = Raise (Exception (index_error_msg 3)).
Proof.
  intros run.
  assert (Hnone : JStr "1" <> JNull) by discriminate.
  split; [reflexivity |]. split; [exact Hnone |]. subst run.
  rewrite (proj1 (index_not_an_integer_raises (Sample.constant JNull Sample.challenges)
             (Sample.boot Sample.signed_in) None None None "competition" true 20
             (JStr "mock_token") (JStr "1")
             [JObj [("id", JStr "challenge-1"); ("subtitle", JStr "Challenge 1 Subtitle")];
              JObj [("id", JStr "challenge-2"); ("subtitle", JStr "Challenge 2 Subtitle")];
              JObj [("id", JStr "challenge-3"); ("subtitle", JStr "Challenge 3 Subtitle")]]
             (or_introl eq_refl) eq_refl eq_refl ltac:(discriminate) Hnone eq_refl)).
  reflexivity.
Defined.

(** ** [which_challenge] after a selection *)

(** X6: [select_a_challenge] by id accepts a payload without [subtitle]
    (it reads it with a default), but [which_challenge] then raises
    [KeyError('subtitle')] on the selected session; with a subtitle it prints
    the enrolment and returns the id of the payload. *)
Theorem which_challenge_after_select_by_id (E : environment) (s : state)
    (c : ascii) (rest : string) (query reward : option string) (kind : string)
    (active : bool) (fixed_index : option json) (per_page : Z)
    (token payload id joined : json) (fields : list (string * json)) (code : Z) :
  let challenge_id := String c rest in
  let url := base_api (self s) ++ "/" ++ challenge_id in
  let headers := selection_headers s token in
  let fetch := Http GET url headers None None in
  let join := JoinChallenge (url ++ "/participations") headers in
  let run := (select_a_challenge E (Some challenge_id) query kind reward active fixed_index
                per_page ;; which_challenge) s in
  PyOp.getitem (auth_data (self s)) "auth_token" = Ok token ->
  respond E (log s) fetch = Ok (mk_response code (Some payload)) ->
  PyOp.getitem payload "data" = Ok (JObj fields) ->
  Py.lookup "errors" fields = None ->
  Py.lookup "id" fields = Some id ->
  reply E (log s ++ [fetch]) join = Ok joined ->
  match Py.lookup "subtitle" fields with
  | Some subtitle =>
      run = (Ok id,
             emit [chosen_by_id_msg id subtitle; enrolled_msg id subtitle] [fetch; join]
                  (with_self (selected_at (JObj fields) url) s))
  | None =>
      run = (Raise (KeyError "subtitle"),
             emit [chosen_by_id_msg id (JStr "")] [fetch; join]
                  (with_self (selected_at (JObj fields) url) s))
  end.
Proof.
  intros challenge_id url headers fetch join run Htoken Hresp Hdata Herr Hid Hjoin.
  subst run join fetch headers. unfold selection_headers in *.
  unfold select_a_challenge, which_challenge. exec.
  rewrite Htoken. fold challenge_id. fold url.
  rewrite Hresp. cbn. rewrite Hdata. cbn. rewrite Herr, Hid. cbn. rewrite Hjoin. cbn.
  rewrite Hid. cbn.
  destruct (Py.lookup "subtitle" fields) as [subtitle |]; cbn;
    unfold chosen_by_id_msg; same_state.
Qed.

Lemma which_challenge_after_select_by_id_witness :
  let data := [("id", JStr "challenge-2")] in
  let E := Sample.constant (JObj [("data", JObj data)]) JNull in
  let run := (select_a_challenge E (Some "challenge-2") None "competition" None true None 20 ;;
              which_challenge) (Sample.boot Sample.signed_in) in
  Py.lookup "subtitle" data = None
  /\ fst run = Raise (KeyError "subtitle")
  /\ challenge_selected (self (snd run)) = true.
Proof.
  intros data E run. split; [reflexivity |]. subst run.
  rewrite (which_challenge_after_select_by_id E (Sample.boot Sample.signed_in)
             "c"%char "hallenge-2" None None "competition" true None 20
             (JStr "mock_token") (JObj [("data", JObj data)]) (JStr "challenge-2") JNull data 200
             eq_refl eq_refl eq_refl eq_refl eq_refl eq_refl).
  split; reflexivity.
Defined.

(** ** The constructor *)

(** X7: when the service answers the sign-in with an [errors] entry, the
    constructor raises with that entry and returns no session; it has issued
    the one sign-in request, with the password given or typed at the prompt,
    and printed nothing.  With a [fixed_password] the terminal is not
    used. *)
Theorem sign_in_refused (E : environment) (getpass : string -> outcome string) (s : state)
    (username password : string) (fixed_password : option string)
    (payload data errors : json) (code : Z) :
  let post := Http POST signin_url [("User-Agent", JStr user_agent)]
                   (Some [("username", JStr username); ("password", JStr password)]) None in
  fixed_password = Some password
  \/ (fixed_password = None /\ getpass password_prompt = Ok password) ->
  respond E (log s) post = Ok (mk_response code (Some payload)) ->
  PyOp.getitem payload "data" = Ok data ->
  PyOp.contains "errors" data = Ok true ->
  PyOp.getitem data "errors" = Ok errors ->
  __init__ E getpass username fixed_password s
  = (Raise (Exception (PyStr.red ++ Py.str errors)), emit [] [post] s).
Proof.
  intros post Hpassword Hresp Hdata Hin Herr. subst post.
  unfold __init__, __signin.
  destruct Hpassword as [-> | [-> Htyped]]; exec; rewrite ?Htyped; cbn;
    rewrite Hresp; cbn; rewrite Hdata, Hin, Herr; same_state.
Qed.

Lemma sign_in_refused_witness :
  let E := Sample.constant (JObj [("data", Scenario.signin_failure)]) JNull in
  let given := __init__ E Scenario.no_terminal "testuser" (Some "wrongpassword")
                 (Sample.boot Sample.signed_in) in
  let typed := __init__ E (Scenario.terminal "wrongpassword") "testuser" None
                 (Sample.boot Sample.signed_in) in
  PyOp.contains "errors" Scenario.signin_failure = Ok true
  /\ Scenario.terminal "wrongpassword" password_prompt = Ok "wrongpassword"
  /\ fst given
     = Raise (Exception (PyStr.red ++ "{'message': 'Wrong username or password'}"))
  /\ typed = given
  /\ stdout (snd typed) = [].
Proof.
  intros E given typed. split; [reflexivity |]. split; [reflexivity |]. subst given typed.
  rewrite (sign_in_refused E Scenario.no_terminal (Sample.boot Sample.signed_in) "testuser"
             "wrongpassword" (Some "wrongpassword") (JObj [("data", Scenario.signin_failure)])
             Scenario.signin_failure (JObj [("message", JStr "Wrong username or password")])
             200 (or_introl eq_refl) eq_refl eq_refl eq_refl eq_refl).
  rewrite (sign_in_refused E (Scenario.terminal "wrongpassword")
             (Sample.boot Sample.signed_in) "testuser"
             "wrongpassword" None (JObj [("data", Scenario.signin_failure)])
             Scenario.signin_failure (JObj [("message", JStr "Wrong username or password")])
             200 (or_intror (conj eq_refl eq_refl)) eq_refl eq_refl eq_refl eq_refl).
  split; [reflexivity | split; reflexivity].
Defined.

(** X8: when the service accepts the sign-in, the constructor returns a
    session that holds the payload as its credentials and has no challenge
    selected and no cache; the password, given or typed at the prompt, goes
    into the request and into nothing that is printed. *)
Theorem sign_in_accepted (E : environment) (getpass : string -> outcome string) (s : state)
    (username password : string) (fixed_password : option string)
    (payload data user name : json) (code : Z) :
  let post := Http POST signin_url [("User-Agent", JStr user_agent)]
                   (Some [("username", JStr username); ("password", JStr password)]) None in
  fixed_password = Some password
  \/ (fixed_password = None /\ getpass password_prompt = Ok password) ->
  respond E (log s) post = Ok (mk_response code (Some payload)) ->
  PyOp.getitem payload "data" = Ok data ->
  PyOp.contains "errors" data = Ok false ->
  PyOp.getitem data "user" = Ok user ->
  PyOp.getitem user "username" = Ok name ->
  __init__ E getpass username fixed_password s
  = (Ok (init data), emit [welcome_msg name] [post] s)
  /\ challenge_selected (init data) = false
  /\ auth_data (init data) = data.
Proof.
  intros post Hpassword Hresp Hdata Hin Huser Hname. subst post.
  split; [| split; reflexivity].
  unfold __init__, __signin.
  destruct Hpassword as [-> | [-> Htyped]]; exec; rewrite ?Htyped; cbn;
    rewrite Hresp; cbn; rewrite Hdata, Hin, Huser; cbn; rewrite Hname; same_state.
Qed.

Lemma sign_in_accepted_witness :
  let E := Sample.constant (JObj [("data", Sample.auth)]) JNull in
  let run := __init__ E (Scenario.terminal "password") "testuser" None
               (Sample.boot Sample.signed_in) in
  Scenario.terminal "password" password_prompt = Ok "password"
  /\ fst run = Ok Sample.signed_in
  /\ stdout (snd run) = [welcome_msg (JStr "testuser")]
  /\ log (snd run)
     = [Http POST signin_url [("User-Agent", JStr user_agent)]
             (Some [("username", JStr "testuser"); ("password", JStr "password")]) None].
Proof.
  intros E run. split; [reflexivity |]. subst run.
  destruct (sign_in_accepted E (Scenario.terminal "password") (Sample.boot Sample.signed_in)
              "testuser" "password" None (JObj [("data", Sample.auth)]) Sample.auth
              (JObj [("username", JStr "testuser"); ("id", JInt 123)]) (JStr "testuser") 200
              (or_intror (conj eq_refl eq_refl)) eq_refl eq_refl eq_refl eq_refl eq_refl)
    as [-> _].
  repeat split; reflexivity.
Defined.

(** ** What each method may change *)

Ltac unchanged :=
  repeat match goal with
    | |- preserves _ (mbind _ _) => apply preserves_bind; [| intros ?]
    | |- preserves _ (mret _) => apply preserves_ret
    | |- preserves _ (raise _) => apply preserves_raise
    | |- preserves _ (lift _) => apply preserves_lift
    | |- preserves _ (getitem _ _) => apply preserves_lift
    | |- preserves _ (contains _ _) => apply preserves_lift
    | |- preserves _ get_state => apply preserves_get_state
    | |- preserves _ (attr _ _) => apply preserves_attr
    | |- preserves _ (for_each _ _) => apply preserves_for_each; intros ?
    | |- preserves _ (try_except _ _) => apply preserves_try_except
    | |- preserves _ (json_of _) => apply json_of_untouched
    | |- preserves _ (request _ _) => intros ?; reflexivity
    | |- preserves _ (call _ _) => intros ?; reflexivity
    | |- preserves _ (print _) => intros ?; reflexivity
    | |- preserves _ (modify _) => intros ?; reflexivity
    | |- preserves _ (if ?b then _ else _) => destruct b
    | |- preserves _ (match ?x with _ => _ end) => destruct x
    | |- preserves _ _ =>
        progress unfold os_path_isdir, os_path_isfile, os_makedirs, deref, list_iadd,
                        errors_msg, errors_base, make_destination_dir, download_selected,
                        download_one, submit_one, invite_one, team_up
    end.

Section Footprints.

Variable E : environment.

(** X9: whatever the service and the helpers answer, no method other than
    [select_a_challenge] changes which challenge the session is on (the flag,
    the challenge, the address) or whose session it is (headers, API root,
    credentials). *)
Theorem only_select_changes_the_selection :
  let field := fun s => (selection s, credentials s) in
  preserves field which_challenge
  /\ preserves field (my_rank E)
  /\ preserves field (remaining_subimissions E)
  /\ (forall destination make_destination,
         preserves field (download_dataset E destination make_destination))
  /\ (forall filepaths comments, preserves field (submit E filepaths comments))
  /\ (forall to_print per_page, preserves field (leaderboard E to_print per_page))
  /\ (forall to_print per_page, preserves field (submission_board E to_print per_page))
  /\ (forall team_name teammates, preserves field (create_team E team_name teammates))
  /\ (forall zindians, preserves field (team_up E zindians))
  /\ preserves field (disband_team E).
Proof.
  intros field. repeat split; intros.
  - unfold which_challenge. unchanged.
  - unfold my_rank. unchanged.
  - unfold remaining_subimissions. unchanged.
  - unfold download_dataset. unchanged.
  - unfold submit. unchanged.
  - unfold leaderboard. unchanged.
  - unfold submission_board. unchanged.
  - unfold create_team. unchanged.
  - unfold team_up. unchanged.
  - unfold disband_team. unchanged.
Qed.

(** X10: the caches have one writer each, whatever the service answers:
    [my_rank] and [leaderboard] write the rank, [leaderboard] the leaderboard
    page, [submission_board] the submission page; the other methods,
    [select_a_challenge] included, leave all three as they were, so that the
    rank and the pages of a previous challenge survive a new selection. *)
Theorem caches_have_one_writer_each :
  preserves caches which_challenge
  /\ preserves caches (remaining_subimissions E)
  /\ (forall challenge_id query kind reward active fixed_index per_page,
         preserves caches
           (select_a_challenge E challenge_id query kind reward active fixed_index per_page))
  /\ (forall destination make_destination,
         preserves caches (download_dataset E destination make_destination))
  /\ (forall filepaths comments, preserves caches (submit E filepaths comments))
  /\ (forall team_name teammates, preserves caches (create_team E team_name teammates))
  /\ (forall zindians, preserves caches (team_up E zindians))
  /\ preserves caches (disband_team E)
  /\ preserves (fun s => (challengers_data (self s), sb_data (self s))) (my_rank E)
  /\ (forall to_print per_page,
         preserves (fun s => sb_data (self s)) (leaderboard E to_print per_page))
  /\ (forall to_print per_page,
         preserves (fun s => (rank (self s), challengers_data (self s)))
                   (submission_board E to_print per_page)).
Proof.
  repeat split; intros.
  - unfold which_challenge. unchanged.
  - unfold remaining_subimissions. unchanged.
  - unfold select_a_challenge. unchanged.
  - unfold download_dataset. unchanged.
  - unfold submit. unchanged.
  - unfold create_team. unchanged.
  - unfold team_up. unchanged.
  - unfold disband_team. unchanged.
  - unfold my_rank. unchanged.
  - unfold leaderboard. unchanged.
  - unfold submission_board. unchanged.
Qed.

(** X11: only [submit] changes a list of the caller and only
    [download_dataset] creates a directory, whatever the service answers. *)
Theorem lists_and_directories_have_one_writer_each :
  let field := fun s => (heap s, dirs s) in
  preserves field which_challenge
  /\ preserves field (my_rank E)
  /\ preserves field (remaining_subimissions E)
  /\ (forall challenge_id query kind reward active fixed_index per_page,
         preserves field
           (select_a_challenge E challenge_id query kind reward active fixed_index per_page))
  /\ (forall to_print per_page, preserves field (leaderboard E to_print per_page))
  /\ (forall to_print per_page, preserves field (submission_board E to_print per_page))
  /\ (forall team_name teammates, preserves field (create_team E team_name teammates))
  /\ (forall zindians, preserves field (team_up E zindians))
  /\ preserves field (disband_team E)
  /\ (forall filepaths comments, preserves dirs (submit E filepaths comments))
  /\ (forall destination make_destination,
         preserves heap (download_dataset E destination make_destination)).
Proof.
  intros field. repeat split; intros.
  - unfold which_challenge. unchanged.
  - unfold my_rank. unchanged.
  - unfold remaining_subimissions. unchanged.
  - unfold select_a_challenge. unchanged.
  - unfold leaderboard. unchanged.
  - unfold submission_board. unchanged.
  - unfold create_team. unchanged.
  - unfold team_up. unchanged.
  - unfold disband_team. unchanged.
  - unfold submit. unchanged.
  - unfold download_dataset. unchanged.
Qed.

End Footprints.

(** ** The selection stays usable *)

Lemma ensures_bind {A B : Type} (P R Q : state -> Prop) (m : M A) (f : A -> M B) :
  ensures P m R -> (forall s, R s -> Q s) -> (forall a, ensures R (f a) Q) ->
  ensures P (m ≫= f) Q.
Proof.
  intros Hm Hweak Hf s HP. unfold mbind, M_bind.
  specialize (Hm s HP). destruct (m s) as [[a | e] s1]; cbn in *.
  - now apply Hf.
  - now apply Hweak.
Qed.

Lemma ensures_frame {A : Type} (P Q : Zindian -> Prop) (m : M A) :
  preserves self m -> (forall z, P z -> Q z) -> ensures (on P) m (on Q).
Proof. intros Hm Hweak s HP. unfold on in *. rewrite Hm. now apply Hweak. Qed.

Lemma ensures_update (P Q : Zindian -> Prop) (f : Zindian -> Zindian) :
  (forall z, P z -> Q (f z)) -> ensures (on P) (modify (with_self f)) (on Q).
Proof. intros Hf s HP. now apply Hf. Qed.

Lemma stage_challenge (was : bool) (data : json) (z : Zindian) :
  flag_implies_rest was z -> challenge_stored was (set_challenge_data data z).
Proof. unfold challenge_stored, flag_implies_rest. cbn. intuition eauto. Qed.

Lemma stage_address (was : bool) (url : string) (z : Zindian) :
  challenge_stored was z -> address_stored was (set_api url z).
Proof.
  unfold address_stored, challenge_stored, flag_implies_rest. cbn. intuition eauto.
Qed.

Lemma stage_flag (was : bool) (z : Zindian) :
  address_stored was z -> flag_implies_rest was (set_challenge_selected true z).
Proof.
  unfold address_stored, challenge_stored, flag_implies_rest. cbn. intuition eauto.
Qed.

Lemma challenge_stored_weaken (was : bool) (z : Zindian) :
  challenge_stored was z -> flag_implies_rest was z.
Proof. now intros [H _]. Qed.

Lemma address_stored_weaken (was : bool) (z : Zindian) :
  address_stored was z -> flag_implies_rest was z.
Proof. now intros [[H _] _]. Qed.

Ltac stage_weaken :=
  first [ exact (fun z H => H)
        | apply challenge_stored_weaken
        | apply address_stored_weaken ].

Ltac stage_weaken_at :=
  intros ?; unfold on;
  first [ exact (fun H => H)
        | apply challenge_stored_weaken
        | apply address_stored_weaken ].

Ltac staged :=
  repeat first
    [ solve [apply ensures_frame; [unchanged | stage_weaken]]
    | match goal with
      | |- ensures _ (mbind _ (modify (with_self (set_challenge_data _)))) _ =>
          eapply ensures_bind;
          [apply ensures_update; apply stage_challenge
          | stage_weaken_at | intros ?]
      | |- ensures _ (mbind _ (modify (with_self (set_api _)))) _ =>
          eapply ensures_bind;
          [apply ensures_update; apply stage_address
          | stage_weaken_at | intros ?]
      | |- ensures _ (mbind _ (modify (with_self (set_challenge_selected true)))) _ =>
          eapply ensures_bind;
          [apply ensures_update; apply stage_flag
          | stage_weaken_at | intros ?]
      | |- ensures (on ?P) (mbind _ ?m) _ =>
          apply (ensures_bind (on P) (on P));
          [apply ensures_frame; [unchanged | exact (fun z H => H)]
          | stage_weaken_at | intros ?]
      | |- ensures _ (if ?b then _ else _) _ => destruct b
      | |- ensures _ (match ?x with _ => _ end) _ => destruct x
      end ].

(** X12: whatever the service and the helpers answer and whatever the
    arguments are, [select_a_challenge] ends on a session whose flag implies
    that the challenge and its address are set (they are stored before the
    flag is raised), and it never lowers the flag. *)
Theorem select_keeps_the_session_consistent (E : environment) (s : state)
    (challenge_id query reward : option string) (kind : string) (active : bool)
    (fixed_index : option json) (per_page : Z) :
  let s' := snd (select_a_challenge E challenge_id query kind reward active fixed_index
                   per_page s) in
  consistent s ->
  consistent s'
  /\ (challenge_selected (self s) = true -> challenge_selected (self s') = true).
Proof.
  intros s' Hs. subst s'.
  assert (H : ensures (on (flag_implies_rest (challenge_selected (self s))))
                (select_a_challenge E challenge_id query kind reward active fixed_index
                   per_page)
                (on (flag_implies_rest (challenge_selected (self s))))).
  { unfold select_a_challenge. staged. }
  apply H. split; [exact Hs | trivial].
Qed.

Lemma select_keeps_the_session_consistent_witness :
  let E := Scenario.helpers_fail (JObj [("data", JObj [("subtitle", JStr "no id")])]) in
  let s := Sample.boot Sample.enrolled in
  let s' := snd (select_a_challenge E (Some "other") None "competition" None true None 20 s) in
  consistent s /\ consistent s' /\ challenge_selected (self s') = true.
Proof.
  intros E s s'.
  assert (Hs : consistent s) by (intros _; split; eexists; reflexivity).
  destruct (select_keeps_the_session_consistent E s (Some "other") None None "competition" true
              None 20 Hs) as [Hs' Hflag].
  split; [exact Hs |]. split; [exact Hs' | exact (Hflag eq_refl)].
Defined.

(** ** The boards *)

(** X13: with a challenge selected, [leaderboard] asks for page 0 of the
    participations once.  When the payload has an [errors] entry it raises
    with that entry and the session is as before.  Otherwise it stores the
    page first, then asks [user_on_lb] for the rank: when that helper raises,
    the new page is already cached while the rank is the old one; when it
    returns, the rank is stored, and [print_lb] is called exactly when
    [to_print] is set. *)
Theorem leaderboard_caches_page_then_rank (E : environment) (s : state) (url : string)
    (token challenge id user username payload page : json) (code per_page : Z)
    (to_print failed : bool) :
  let headers := Py.extend (headers_ (self s)) [("auth_token", token)] in
  let asked :=
    Http GET (url ++ "/participations") headers None
         (Some [("page", JInt 0); ("per_page", JInt per_page)]) in
  let lookup := UserOnLb page id username headers in
  challenge_selected (self s) = true ->
  api (self s) = Some url ->
  PyOp.getitem (auth_data (self s)) "auth_token" = Ok token ->
  challenge_data (self s) = Some challenge ->
  PyOp.getitem challenge "id" = Ok id ->
  PyOp.getitem (auth_data (self s)) "user" = Ok user ->
  PyOp.getitem user "username" = Ok username ->
  respond E (log s) asked = Ok (mk_response code (Some payload)) ->
  PyOp.getitem payload "data" = Ok page ->
  PyOp.contains "errors" page = Ok failed ->
  leaderboard E to_print per_page s
  = if failed then
      (match PyOp.getitem page "errors" with
       | Ok errors => Raise (Exception (refused_msg errors))
       | Raise e => Raise e
       end,
       emit [] [asked] s)
    else
      match reply E (log s ++ [asked]) lookup with
      | Raise e =>
          (Raise e, emit [] [asked; lookup] (with_self (set_challengers_data page) s))
      | Ok found =>
          let stored :=
            with_self (fun z => set_rank found (set_challengers_data page z)) s in
          if to_print then
            (dropped (reply E (log s ++ [asked; lookup]) (PrintLb page found)),
             emit [] [asked; lookup; PrintLb page found] stored)
          else (Ok tt, emit [] [asked; lookup] stored)
      end.
Proof.
  intros headers asked lookup Hsel Hapi Htoken Hch Hid Huser Hname Hresp Hdata Hin.
  subst lookup asked headers.
  unfold leaderboard. exec.
  repeat progress (rewrite ?Hsel, ?Hapi, ?Htoken, ?Hresp, ?Hdata, ?Hin; cbn).
  destruct failed; cbn.
  - destruct (PyOp.getitem page "errors"); same_state.
  - repeat progress (rewrite ?Hch, ?Hid, ?Huser, ?Hname; cbn).
    unfold with_log; cbn.
    destruct (reply E (log s ++ [_]) _) as [found | e]; cbn; [| same_state].
    destruct to_print; cbn; same_state.
    match goal with |- context [dropped ?r] => destruct r; reflexivity end.
Qed.

Lemma leaderboard_caches_page_then_rank_witness :
  let page := JList [JObj [("user", JObj [("username", JStr "testuser")])]] in
  let stale := Sample.boot (set_rank (JInt 7) Sample.enrolled) in
  let failing := leaderboard (Scenario.helpers_fail (JObj [("data", page)])) true 50 stale in
  let quiet := leaderboard (Sample.constant (JObj [("data", page)]) (JInt 1)) false 50 stale in
  (fst failing = Raise (Foreign "helper failed")
   /\ challengers_data (self (snd failing)) = Some page
   /\ rank (self (snd failing)) = Some (JInt 7))
  /\ (fst quiet = Ok tt
      /\ rank (self (snd quiet)) = Some (JInt 1)
      /\ length (log (snd quiet)) = 2%nat).
Proof.
  intros page stale failing quiet. subst failing quiet. split.
  - rewrite (leaderboard_caches_page_then_rank
               (Scenario.helpers_fail (JObj [("data", page)])) stale Sample.api_2
               (JStr "mock_token") Sample.challenge_2 (JStr "challenge-2")
               (JObj [("username", JStr "testuser"); ("id", JInt 123)]) (JStr "testuser")
               (JObj [("data", page)]) page 200 50 true false
               eq_refl eq_refl eq_refl eq_refl eq_refl eq_refl eq_refl eq_refl eq_refl eq_refl).
    split; [reflexivity | split; reflexivity].
  - rewrite (leaderboard_caches_page_then_rank
               (Sample.constant (JObj [("data", page)]) (JInt 1)) stale Sample.api_2
               (JStr "mock_token") Sample.challenge_2 (JStr "challenge-2")
               (JObj [("username", JStr "testuser"); ("id", JInt 123)]) (JStr "testuser")
               (JObj [("data", page)]) page 200 50 false false
               eq_refl eq_refl eq_refl eq_refl eq_refl eq_refl eq_refl eq_refl eq_refl eq_refl).
    split; [reflexivity | split; reflexivity].
Defined.

(** X14: with a challenge selected, [submission_board] sends one request and
    prints the response object before it decodes it, so the line
    [<Response [code]>] is on the standard output even when the body is not
    JSON and the call raises.  With an [errors] entry it raises with that
    entry and the cached board stays as it was; otherwise the payload is
    cached, and [print_submission_board] is called exactly when [to_print]
    is set. *)
Theorem submission_board_prints_the_response_first (E : environment) (s : state)
    (url : string) (token : json) (answer : http_response) (per_page : Z) (to_print : bool) :
  let headers := Py.extend (headers_ (self s)) [("auth-token", token)] in
  let asked :=
    Http GET (url ++ "/submissions") headers (Some [("auth-token", token)])
         (Some [("per_page", JInt per_page)]) in
  let printed := emit [response_repr answer] [asked] s in
  challenge_selected (self s) = true ->
  api (self s) = Some url ->
  PyOp.getitem (auth_data (self s)) "auth_token" = Ok token ->
  respond E (log s) asked = Ok answer ->
  submission_board E to_print per_page s
  = match body answer with
    | None => (Raise JSONDecodeError, printed)
    | Some payload =>
        match PyOp.getitem payload "data" with
        | Raise e => (Raise e, printed)
        | Ok board =>
            match PyOp.contains "errors" board with
            | Raise e => (Raise e, printed)
            | Ok true =>
                (match PyOp.getitem board "errors" with
                 | Ok errors => Raise (Exception (refused_msg errors))
                 | Raise e => Raise e
                 end, printed)
            | Ok false =>
                let stored := with_self (set_sb_data board) s in
                if to_print then
                  (dropped (reply E (log s ++ [asked]) (PrintSubmissionBoard board)),
                   emit [response_repr answer] [asked; PrintSubmissionBoard board] stored)
                else (Ok tt, emit [response_repr answer] [asked] stored)
            end
        end
    end.
Proof.
  intros headers asked printed Hsel Hapi Htoken Hresp. subst printed asked headers.
  unfold submission_board. exec.
  repeat progress (rewrite ?Hsel, ?Hapi, ?Htoken; cbn).
  assert (Hstored : forall (h : dict) (k : string) (v : json),
             Py.lookup k (Py.extend h [(k, v)]) = Some v).
  { intros h k v. unfold Py.extend. cbn. induction h as [| [k' v'] h IH]; cbn.
    - rewrite String.eqb_refl. reflexivity.
    - destruct (String.eqb_spec k k') as [-> | Hne]; cbn.
      + rewrite String.eqb_refl. reflexivity.
      + destruct (String.eqb_spec k k'); [contradiction | exact IH]. }
  rewrite Hstored. cbn. rewrite Hresp. cbn.
  destruct (body answer) as [payload |]; cbn; [| same_state].
  destruct (PyOp.getitem payload "data") as [board | e]; cbn; [| same_state].
  destruct (PyOp.contains "errors" board) as [[|] | e]; cbn; [| | same_state].
  - destruct (PyOp.getitem board "errors"); same_state.
  - destruct to_print; cbn; same_state.
    unfold with_log; cbn.
    match goal with |- context [dropped ?r] => destruct r; reflexivity end.
Qed.

Lemma submission_board_prints_the_response_first_witness :
  let run := submission_board (Scenario.interactive JNull JNull) true 50
               (Sample.boot Sample.enrolled) in
  fst run = Raise JSONDecodeError
  /\ stdout (snd run) = ["<Response [404]>"]
  /\ sb_data (self (snd run)) = None.
Proof.
  intros run. subst run.
  rewrite (submission_board_prints_the_response_first (Scenario.interactive JNull JNull)
             (Sample.boot Sample.enrolled) Sample.api_2 (JStr "mock_token")
             (mk_response 404 None) 50 true eq_refl eq_refl eq_refl eq_refl).
  split; [reflexivity | split; reflexivity].
Defined.

(** ** [disband_team] *)

(** X15: with a challenge selected, [disband_team] sends one DELETE to
    [my_team] with the token in the form data and the session's headers.
    The test for an error is ["errors" in response]: on a dictionary it looks
    for the key, but on a string it looks for the substring.  A text answer
    without that substring is printed and the call returns; a text answer
    that contains it makes the call raise a [TypeError] instead of reporting
    the answer. *)
Theorem disband_team_text_answer (E : environment) (s : state) (url text : string)
    (token payload : json) (code : Z) :
  let asked :=
    Http DELETE (url ++ "/my_team") (headers_ (self s)) (Some [("auth_token", token)]) None in
  challenge_selected (self s) = true ->
  api (self s) = Some url ->
  PyOp.getitem (auth_data (self s)) "auth_token" = Ok token ->
  respond E (log s) asked = Ok (mk_response code (Some payload)) ->
  PyOp.getitem payload "data" = Ok (JStr text) ->
  disband_team E s
  = if PyStr.contains "errors" text
    then (Raise (TypeError "indices must be integers"), emit [] [asked] s)
    else (Ok tt, emit [PyStr.nl ++ PyStr.green ++ text ++ PyStr.nl] [asked] s).
Proof.
  intros asked Hsel Hapi Htoken Hresp Hdata. subst asked.
  unfold disband_team. exec.
  assert (Hcopy : forall h : dict, Py.extend h [] = h) by reflexivity.
  repeat progress (rewrite ?Hsel, ?Hapi, ?Htoken, ?Hcopy, ?Hresp, ?Hdata; cbn).
  destruct (PyStr.contains "errors" text); cbn; same_state.
Qed.

Lemma disband_team_text_answer_witness :
  let answer (text : string) := Sample.constant (JObj [("data", JStr text)]) JNull in
  let fine := disband_team (answer "Team disbanded") (Sample.boot Sample.enrolled) in
  let odd := disband_team (answer "Done, no errors") (Sample.boot Sample.enrolled) in
  (fst fine = Ok tt
   /\ stdout (snd fine) = [PyStr.nl ++ PyStr.green ++ "Team disbanded" ++ PyStr.nl])
  /\ (fst odd = Raise (TypeError "indices must be integers") /\ stdout (snd odd) = []).
Proof.
  intros answer fine odd. subst fine odd. split.
  - rewrite (disband_team_text_answer (answer "Team disbanded") (Sample.boot Sample.enrolled)
               Sample.api_2 "Team disbanded" (JStr "mock_token")
               (JObj [("data", JStr "Team disbanded")]) 200
               eq_refl eq_refl eq_refl eq_refl eq_refl).
    split; reflexivity.
  - rewrite (disband_team_text_answer (answer "Done, no errors") (Sample.boot Sample.enrolled)
               Sample.api_2 "Done, no errors" (JStr "mock_token")
               (JObj [("data", JStr "Done, no errors")]) 200
               eq_refl eq_refl eq_refl eq_refl eq_refl).
    split; reflexivity.
Defined.

(** ** Teams *)

(** X16: with a challenge selected, when the service answers the creation of
    a team with an [errors] entry, [create_team] looks at [errors.base].  A
    text with "Leader can only be" counts as success: the method prints that
    the user is already the leader of a team and goes on exactly as [team_up]
    on the teammates (or prints the hint when there are none).  Any other
    text raises with [errors.base] alone as the message, and no invitation
    is posted. *)
Theorem create_team_when_refused (E : environment) (s : state) (url team_name : string)
    (teammates : list string) (token payload data errors base : json) (code : Z)
    (leader : bool) :
  let asked :=
    Http POST (url ++ "/my_team") (headers_ (self s))
         (Some [("title", JStr team_name); ("auth_token", token)]) None in
  let line := PyStr.nl ++ PyStr.green ++ "You are already the leader of a team." ++ PyStr.nl in
  challenge_selected (self s) = true ->
  api (self s) = Some url ->
  PyOp.getitem (auth_data (self s)) "auth_token" = Ok token ->
  respond E (log s) asked = Ok (mk_response code (Some payload)) ->
  PyOp.getitem payload "data" = Ok data ->
  PyOp.getitem data "errors" = Ok errors ->
  PyOp.getitem errors "base" = Ok base ->
  PyOp.contains "Leader can only be" base = Ok leader ->
  create_team E team_name teammates s
  = if leader then
      (if (0 <? length teammates)%nat then team_up E teammates
       else print "You can send invitation to join your team using teamup function")
        (emit [line] [asked] s)
    else (Raise (Exception (refused_msg base)), emit [] [asked] s).
Proof.
  intros asked line Hsel Hapi Htoken Hresp Hdata Herrors Hbase Hleader. subst line asked.
  assert (Hin : PyOp.contains "errors" data = Ok true).
  { destruct data as [| | | | | fields]; try discriminate. cbn in *.
    destruct (Py.lookup "errors" fields); [reflexivity | discriminate]. }
  assert (Hcopy : forall h : dict, Py.extend h [] = h) by reflexivity.
  unfold create_team, team_up. exec.
  repeat progress (rewrite ?Hsel, ?Hapi, ?Htoken, ?Hcopy, ?Hresp, ?Hdata, ?Hin, ?Herrors,
                     ?Hbase, ?Hleader; cbn).
  destruct leader; cbn; [| same_state].
  repeat progress (rewrite ?Hsel, ?Hapi, ?Htoken, ?Hcopy, ?Hresp, ?Hdata, ?Hin, ?Herrors,
                     ?Hbase, ?Hleader; cbn).
  destruct (0 <? length teammates)%nat; cbn; same_state.
Qed.

Lemma create_team_when_refused_witness :
  let E (text : string) :=
    mk_environment
      (fun history _ =>
         Ok (mk_response 200
               (Some (JObj [("data", match history with
                                     | [] => Sample.errors_base text
                                     | _ => Sample.invitation_sent
                                     end)]))))
      (fun _ _ => Ok JNull)
      (fun _ => None) in
  let leader := create_team (E "Leader can only be in one team") "team" ["friend1"]
                  (Sample.boot Sample.enrolled) in
  let taken := create_team (E "Title has already been taken") "team" ["friend1"]
                 (Sample.boot Sample.enrolled) in
  (fst leader = Ok tt
   /\ stdout (snd leader)
      = [PyStr.nl ++ PyStr.green ++ "You are already the leader of a team." ++ PyStr.nl;
         invited_msg "friend1"]
   /\ length (log (snd leader)) = 2%nat)
  /\ (fst taken = Raise (Exception (refused_msg (JStr "Title has already been taken")))
      /\ length (log (snd taken)) = 1%nat).
Proof.
  intros E leader taken. subst leader taken. split.
  - rewrite (create_team_when_refused (E "Leader can only be in one team")
               (Sample.boot Sample.enrolled) Sample.api_2 "team" ["friend1"]
               (JStr "mock_token")
               (JObj [("data", Sample.errors_base "Leader can only be in one team")])
               (Sample.errors_base "Leader can only be in one team")
               (JObj [("base", JStr "Leader can only be in one team")])
               (JStr "Leader can only be in one team") 200 true
               eq_refl eq_refl eq_refl eq_refl eq_refl eq_refl eq_refl eq_refl).
    split; [reflexivity | split; reflexivity].
  - rewrite (create_team_when_refused (E "Title has already been taken")
               (Sample.boot Sample.enrolled) Sample.api_2 "team" ["friend1"]
               (JStr "mock_token")
               (JObj [("data", Sample.errors_base "Title has already been taken")])
               (Sample.errors_base "Title has already been taken")
               (JObj [("base", JStr "Title has already been taken")])
               (JStr "Title has already been taken") 200 false
               eq_refl eq_refl eq_refl eq_refl eq_refl eq_refl eq_refl eq_refl).
    split; reflexivity.
Defined.

(** X17: with a challenge selected, when the service answers the creation of
    a team without [errors] and with a [title], [create_team] prints the
    title and then behaves exactly as [team_up] on the teammates, started
    after that line; with no teammates it prints the hint and posts
    nothing else. *)
Theorem create_team_then_invites (E : environment) (s : state) (url team_name : string)
    (teammates : list string) (token payload data title : json) (code : Z) :
  let asked :=
    Http POST (url ++ "/my_team") (headers_ (self s))
         (Some [("title", JStr team_name); ("auth_token", token)]) None in
  let line :=
    PyStr.nl ++ PyStr.green ++ "Your team is well created as :" ++ Py.str title ++ PyStr.nl in
  challenge_selected (self s) = true ->
  api (self s) = Some url ->
  PyOp.getitem (auth_data (self s)) "auth_token" = Ok token ->
  respond E (log s) asked = Ok (mk_response code (Some payload)) ->
  PyOp.getitem payload "data" = Ok data ->
  PyOp.contains "errors" data = Ok false ->
  PyOp.getitem data "title" = Ok title ->
  create_team E team_name teammates s
  = match teammates with
    | [] =>
        (Ok tt,
         emit [line; "You can send invitation to join your team using teamup function"]
              [asked] s)
    | _ => team_up E teammates (emit [line] [asked] s)
    end.
Proof.
  intros asked line Hsel Hapi Htoken Hresp Hdata Hin Htitle. subst line asked.
  assert (Hcopy : forall h : dict, Py.extend h [] = h) by reflexivity.
  unfold create_team, team_up.
  destruct teammates as [| mate mates];
    [change (0 <? length (@nil string))%nat with false
    | change (0 <? length (mate :: mates))%nat with true];
    exec;
    repeat progress (rewrite ?Hsel, ?Hapi, ?Htoken, ?Hcopy, ?Hresp, ?Hdata, ?Hin, ?Htitle; cbn);
    same_state.
Qed.

Lemma create_team_then_invites_witness :
  let created := JObj [("id", JInt 1); ("title", JStr "New Team")] in
  let run := create_team (Sample.constant (JObj [("data", created)]) JNull) "New Team" []
               (Sample.boot Sample.enrolled) in
  fst run = Ok tt
  /\ stdout (snd run)
     = [PyStr.nl ++ PyStr.green ++ "Your team is well created as :New Team" ++ PyStr.nl;
        "You can send invitation to join your team using teamup function"]
  /\ length (log (snd run)) = 1%nat.
Proof.
  intros created run. subst run.
  rewrite (create_team_then_invites (Sample.constant (JObj [("data", created)]) JNull)
             (Sample.boot Sample.enrolled) Sample.api_2 "New Team" [] (JStr "mock_token")
             (JObj [("data", created)]) created (JStr "New Team") 200
             eq_refl eq_refl eq_refl eq_refl eq_refl eq_refl eq_refl).
  split; [reflexivity | split; reflexivity].
Defined.

(** Whatever the service answers, one turn of the loop of [team_up] posts
    one invitation and leaves the session alone. *)
Lemma invite_one_posts_once (E : environment) (url : string) (headers : dict)
    (zindian : string) (s : state) :
  let after := snd (invite_one E url headers zindian s) in
  log after = (log s ++ [invite url headers zindian])%list /\ self after = self s.
Proof.
  unfold invite_one. exec. fold (invite url headers zindian).
  destruct (respond E (log s) _) as [[code [payload |]] | e]; cbn; [| now split ..].
  destruct (PyOp.getitem payload "data") as [data | e]; cbn; [| now split].
  destruct (PyOp.contains "errors" data) as [[|] | e]; cbn; [| now split ..].
  destruct (PyOp.getitem data "errors") as [errors | e]; cbn; [| now split].
  destruct (PyOp.getitem errors "base") as [base | e]; cbn; [| now split].
  destruct (PyOp.contains "is already invited" base) as [[|] | e]; cbn; now split.
Qed.

Lemma invitations_posted (E : environment) (url : string) (headers : dict)
    (zindians : list string) (s : state) :
  let run := for_each zindians (invite_one E url headers) s in
  exists k : nat,
    (k <= length zindians)%nat
    /\ log (snd run) = (log s ++ map (invite url headers) (take k zindians))%list
    /\ self (snd run) = self s
    /\ (fst run = Ok tt -> k = length zindians).
Proof.
  revert s. induction zindians as [| z zs IH]; intros s; cbn zeta.
  - exists 0%nat. cbn. rewrite app_nil_r. auto.
  - cbn [for_each]. unfold mbind, M_bind.
    destruct (invite_one_posts_once E url headers z s) as [Hlog Hself].
    destruct (invite_one E url headers z s) as [[[] | e] s1]; cbn in Hlog, Hself |- *.
    + destruct (IH s1) as (k & Hk & Hlogs & Hselfs & Hall). exists (S k).
      split; [lia |]. split; [| split].
      * rewrite Hlogs, Hlog. cbn. now rewrite <- app_assoc.
      * congruence.
      * intros Hok. f_equal. apply Hall. destruct (for_each zs _ s1) as [[[] |] ?]; cbn in *;
          congruence.
    + exists 1%nat. split; [lia |]. split; [| split]; [| exact Hself | discriminate].
      cbn. rewrite take_0. exact Hlog.
Qed.

(** X18: in a session whose challenge address is [url], and whatever the
    service answers, the only requests [team_up] adds to the log are
    invitations of the first [k] usernames of the list, in order, each posted
    to [url/my_team/invite] with the session's own headers and the username
    as the only form field, so the authentication token read at the start
    of the method is never sent.  When the method returns normally all the
    usernames were invited, and the session is never changed. *)
Theorem team_up_posts_invitations_only (E : environment) (s : state) (url : string)
    (zindians : list string) :
  let run := team_up E zindians s in
  api (self s) = Some url ->
  exists k : nat,
    (k <= length zindians)%nat
    /\ log (snd run)
       = (log s ++ map (invite (url ++ "/my_team/invite") (headers_ (self s)))
                       (take k zindians))%list
    /\ self (snd run) = self s
    /\ (fst run = Ok tt -> k = length zindians).
Proof.
  intros run Hapi. subst run.
  assert (Hcopy : forall h : dict, Py.extend h [] = h) by reflexivity.
  unfold team_up. exec. rewrite ?Hcopy.
  destruct (challenge_selected (self s)); cbn.
  - destruct (PyOp.getitem (auth_data (self s)) "auth_token") as [token | e]; cbn.
    + rewrite Hapi. cbn. apply invitations_posted.
    + exists 0%nat. cbn. rewrite app_nil_r. repeat split; [lia | discriminate].
  - exists 0%nat. cbn. rewrite app_nil_r. repeat split; [lia | discriminate].
Qed.

Lemma team_up_posts_invitations_only_witness :
  let run := team_up Sample.offline ["friend1"; "friend2"] (Sample.boot Sample.enrolled) in
  exists k : nat,
    (k <= 2)%nat
    /\ log (snd run)
       = map (invite (Sample.api_2 ++ "/my_team/invite") (headers_ Sample.enrolled))
             (take k ["friend1"; "friend2"])
    /\ self (snd run) = Sample.enrolled
    /\ (fst run = Ok tt -> k = 2%nat).
Proof.
  exact (team_up_posts_invitations_only Sample.offline (Sample.boot Sample.enrolled)
           Sample.api_2 ["friend1"; "friend2"] eq_refl).
Defined.

(** X19: [team_up] reads [errors.base] of every answer that has an [errors]
    entry.  When the entry has no [base] (a dictionary with only a [message],
    or a plain text), the method does not report the error it was given: it
    raises the exception of the failed lookup, a [KeyError] or a
    [TypeError], after the notices of the invitations that went through, and
    posts no invitation after that one. *)
Theorem team_up_errors_without_base (E : environment) (s : state) (api_ : string)
    (token : json) (code : Z) (answer : string -> json)
    (before after : list string) (zindian : string) (errors : json) (e : exn) :
  let url := api_ ++ "/my_team/invite" in
  let headers := headers_ (self s) in
  challenge_selected (self s) = true ->
  api (self s) = Some api_ ->
  PyOp.getitem (auth_data (self s)) "auth_token" = Ok token ->
  (forall history zindian,
      respond E history (invite url headers zindian)
      = Ok (mk_response code (Some (JObj [("data", answer zindian)])))) ->
  Forall (goes_through answer) before ->
  PyOp.getitem (answer zindian) "errors" = Ok errors ->
  PyOp.getitem errors "base" = Raise e ->
  team_up E (before ++ zindian :: after)%list s
  = (Raise e,
     emit (map (notice answer) before) (map (invite url headers) (before ++ [zindian])%list) s).
Proof.
  intros url headers Hsel Hapi Htoken Hanswers Hall Herrors Hbase.
  assert (Hloop : forall s0,
             for_each (before ++ zindian :: after)%list (invite_one E url headers) s0
             = (Raise e,
                emit (map (notice answer) before)
                     (map (invite url headers) (before ++ [zindian])%list) s0));
    [| unfold team_up; exec; rewrite Hsel, Htoken, Hapi; cbn; apply Hloop].
  induction Hall as [| z zs Hz _ IH]; intros s0.
  - cbn [app for_each map]. unfold mbind, M_bind.
    unfold invite_one. exec. fold (invite url headers zindian). rewrite Hanswers. cbn.
    destruct (answer zindian) as [| | | | | fields]; try discriminate. cbn in *.
    destruct (Py.lookup "errors" fields) as [errs |]; [| discriminate].
    injection Herrors as ->. cbn. rewrite Hbase. cbn. same_state.
  - cbn [app for_each map]. unfold mbind, M_bind.
    rewrite (invite_one_goes_through E url headers code answer Hanswers z s0 Hz), IH,
      emit_emit.
    reflexivity.
Qed.

Lemma team_up_errors_without_base_witness :
  let answer := fun zindian : string =>
                  if String.eqb zindian "friend2"
                  then JObj [("errors", JObj [("message", JStr "Not allowed")])]
                  else Sample.invitation_sent in
  let run := team_up (Sample.team_service answer) ["friend1"; "friend2"; "friend3"]
               (Sample.boot Sample.enrolled) in
  Forall (goes_through answer) ["friend1"]
  /\ fst run = Raise (KeyError "base")
  /\ stdout (snd run) = [invited_msg "friend1"]
  /\ length (log (snd run)) = 2%nat.
Proof.
  intros answer run.
  assert (Hfirst : Forall (goes_through answer) ["friend1"]).
  { constructor; [left; reflexivity | constructor]. }
  split; [exact Hfirst |]. subst run.
  change ["friend1"; "friend2"; "friend3"] with (["friend1"] ++ "friend2" :: ["friend3"])%list.
  rewrite (team_up_errors_without_base (Sample.team_service answer)
             (Sample.boot Sample.enrolled) Sample.api_2 (JStr "mock_token") 200 answer
             ["friend1"] ["friend3"] "friend2" (JObj [("message", JStr "Not allowed")])
             (KeyError "base") eq_refl eq_refl eq_refl (fun _ _ => eq_refl) Hfirst
             eq_refl eq_refl).
  split; [reflexivity | split; reflexivity].
Defined.

(** ** [submit]: answers and services the batch does not expect *)

Lemma for_each_app {A : Type} (l1 l2 : list A) (f : A -> M unit) (s : state) :
  for_each (l1 ++ l2)%list f s
  = match for_each l1 f s with
    | (Ok _, s1) => for_each l2 f s1
    | (Raise e, s1) => (Raise e, s1)
    end.
Proof.
  revert s. induction l1 as [| x l1 IH]; intros s; [reflexivity |].
  cbn [app for_each]. unfold mbind, M_bind.
  destruct (f x s) as [[[] | e] s1]; [apply IH | reflexivity].
Qed.

(** X20: the loop of [submit] tells a failed upload from an accepted one by
    a bare [try]/[except] around the [errors] entry, and reads the [id] in
    the handler.  An answer that has neither entry therefore raises the
    exception of the [id] lookup out of [submit]: the lines of the earlier
    files are printed, the file itself was uploaded, and the files after it
    are neither checked nor uploaded. *)
Theorem submit_answer_without_id (E : environment) (s : state) (filepaths : list string)
    (comments : loc) (api_ : string) (token : json) (code : Z) (answer : string -> json)
    (before after : list (string * string)) (pair : string * string)
    (lines : list string) (e0 e : exn) :
  let url := api_ ++ "/submissions" in
  let headers := Py.extend (headers_ (self s)) [("auth_token", token)] in
  let run := submit E filepaths comments s in
  challenge_selected (self s) = true ->
  api (self s) = Some api_ ->
  PyOp.getitem (auth_data (self s)) "auth_token" = Ok token ->
  (forall history pair,
      respond E history (upload_of url headers pair)
      = Ok (mk_response code (Some (JObj [("data", answer (fst pair))])))) ->
  zip filepaths (padded (default [] (heap s !! comments)) filepaths)
  = (before ++ pair :: after)%list ->
  mapM (submit_line (files s) answer) before = Some lines ->
  uploaded (files s) pair = true ->
  PyOp.getitem (answer (fst pair)) "errors" = Raise e0 ->
  PyOp.getitem (answer (fst pair)) "id" = Raise e ->
  fst run = Raise e
  /\ stdout (snd run) = (stdout s ++ lines)%list
  /\ log (snd run)
     = (log s ++ map (upload_of url headers)
                     (List.filter (uploaded (files s)) before ++ [pair]))%list.
Proof.
  intros url headers run Hsel Hapi Htoken Hanswers Hpairs Hlines Hup Herrors Hid.
  assert (Hloop : forall s0, files s0 = files s ->
             for_each (before ++ pair :: after)%list (submit_one E url headers) s0
             = (Raise e,
                emit lines (map (upload_of url headers)
                                (List.filter (uploaded (files s)) before ++ [pair])) s0)).
  { intros s0 Hfiles. rewrite for_each_app. rewrite <- Hfiles in Hlines.
    rewrite (submit_loop_runs E url headers code answer Hanswers before lines s0 Hlines).
    cbn [for_each]. unfold mbind at 1, M_bind at 1.
    destruct pair as [filepath comment]. unfold uploaded in Hup. cbn [fst snd] in *.
    apply andb_prop in Hup as [Hcsv Hdisk]. unfold is_csv in Hcsv.
    unfold submit_one. rewrite Hcsv. exec. rewrite <- Hfiles in Hdisk. rewrite Hdisk. cbn.
    change (Upload filepath comment url headers)
      with (upload_of url headers (filepath, comment)).
    rewrite Hanswers. cbn. unfold try_except. exec. rewrite Herrors. cbn. rewrite Hid. cbn.
    rewrite Hfiles, map_app. same_state. }
  subst run. unfold submit, padded in *. exec.
  repeat progress (rewrite ?Hsel, ?Htoken, ?Hapi; cbn).
  fold url. fold headers.
  destruct (length (default [] (heap s !! comments)) <? length filepaths)%nat; cbn.
  - rewrite lookup_insert_eq. cbn [default].
    match goal with
    | |- context [for_each ?l _ ?s2] =>
        replace l with (before ++ pair :: after)%list by (symmetry; exact Hpairs);
        rewrite (Hloop s2 eq_refl)
    end.
    cbn. auto.
  - match goal with
    | |- context [for_each ?l _ ?s2] =>
        replace l with (before ++ pair :: after)%list by (symmetry; exact Hpairs);
        rewrite (Hloop s2 eq_refl)
    end.
    cbn. auto.
Qed.

Lemma submit_answer_without_id_witness :
  let s := Sample.with_files {["b.csv"; "c.csv"]} (Sample.boot Sample.enrolled) in
  let queued := fun _ : string => JObj [("message", JStr "queued")] in
  let run := submit (Sample.upload_service queued) ["a.txt"; "b.csv"; "c.csv"]
               submit_default_comments s in
  uploaded (files s) ("b.csv", "") = true
  /\ uploaded (files s) ("c.csv", "") = true
  /\ fst run = Raise (KeyError "id")
  /\ stdout (snd run) = [not_csv_msg "a.txt"]
  /\ log (snd run)
     = [Upload "b.csv" "" (Sample.api_2 ++ "/submissions")
               [("User-Agent", JStr user_agent); ("auth_token", JStr "mock_token")]].
Proof.
  intros s queued run.
  assert (Hb : uploaded (files s) ("b.csv", "") = true) by (vm_compute; reflexivity).
  assert (Hc : uploaded (files s) ("c.csv", "") = true) by (vm_compute; reflexivity).
  destruct (submit_answer_without_id (Sample.upload_service queued) s
              ["a.txt"; "b.csv"; "c.csv"] submit_default_comments Sample.api_2
              (JStr "mock_token") 200 queued [("a.txt", "")] [("c.csv", "")] ("b.csv", "")
              [not_csv_msg "a.txt"] (KeyError "errors") (KeyError "id")
              eq_refl eq_refl eq_refl (fun _ _ => eq_refl) eq_refl eq_refl Hb eq_refl eq_refl)
    as (Hraise & Hout & Hlog).
  split; [exact Hb |]. split; [exact Hc |]. split; [exact Hraise |].
  split; [subst run; rewrite Hout; reflexivity |].
  subst run. rewrite Hlog. reflexivity.
Defined.

(** Whatever the service answers, one turn of the loop of [submit] uploads
    the file when it is eligible and issues no call otherwise. *)
Lemma submit_one_uploads_at_most_once (E : environment) (url : string) (headers : dict)
    (pair : string * string) (s : state) :
  log (snd (submit_one E url headers pair s))
  = (log s ++ if uploaded (files s) pair then [upload_of url headers pair] else [])%list.
Proof.
  destruct pair as [filepath comment]. unfold uploaded, submit_one. cbn [fst snd].
  fold (is_csv filepath).
  destruct (is_csv filepath); cbn [andb]; [| exec; now rewrite app_nil_r].
  exec. destruct (bool_decide (filepath ∈ files s)); cbn; [| now rewrite app_nil_r].
  change (Upload filepath comment url headers) with (upload_of url headers (filepath, comment)).
  unfold try_except. exec.
  destruct (respond E (log s) _) as [[code [payload |]] | e]; cbn; [| reflexivity ..].
  destruct (PyOp.getitem payload "data") as [data | e]; cbn; [| reflexivity].
  destruct (PyOp.getitem data "errors") as [errors | e]; cbn; [reflexivity |].
  destruct (PyOp.getitem data "id") as [id | e']; reflexivity.
Qed.

Lemma uploads_are_eligible (E : environment) (url : string) (headers : dict)
    (pairs : list (string * string)) (s : state) :
  let run := for_each pairs (submit_one E url headers) s in
  exists k : nat,
    (k <= length pairs)%nat
    /\ log (snd run)
       = (log s ++ map (upload_of url headers)
                       (List.filter (uploaded (files s)) (take k pairs)))%list
    /\ (fst run = Ok tt -> k = length pairs).
Proof.
  revert s. induction pairs as [| pair pairs IH]; intros s; cbn zeta.
  - exists 0%nat. cbn. rewrite app_nil_r. auto.
  - cbn [for_each]. unfold mbind, M_bind.
    pose proof (submit_one_uploads_at_most_once E url headers pair s) as Hlog.
    pose proof (submit_one_untouched files (fun _ _ => eq_refl) (fun _ _ => eq_refl)
                  E url headers pair s) as Hfiles.
    destruct (submit_one E url headers pair s) as [[[] | e] s1]; cbn in Hlog, Hfiles |- *.
    + destruct (IH s1) as (k & Hk & Hlogs & Hall). exists (S k).
      split; [lia |]. split.
      * rewrite Hlogs, Hlog, Hfiles. cbn [take List.filter].
        destruct (uploaded (files s) pair); cbn [map]; rewrite <- app_assoc; reflexivity.
      * intros Hok. f_equal. apply Hall.
        destruct (for_each pairs _ s1) as [[[] |] ?]; cbn in *; congruence.
    + exists 1%nat. split; [lia |]. split; [| discriminate].
      cbn [take List.filter]. rewrite take_0. cbn [List.filter].
      rewrite Hlog. destruct (uploaded (files s) pair); reflexivity.
Qed.

(** X21: whatever the service answers, and whether or not it answers at
    all, the calls [submit] adds to the log are uploads, to
    [url/submissions] with the token in the headers, of the eligible pairs (a
    csv extension and a regular file on disk) among the first [k] of the
    batch, in order; when the method returns normally the whole batch was
    handled.  The session and the file system are as before, and when
    [comments] is not shorter than [filepaths] no list is modified. *)
Theorem submit_uploads_eligible_files_only (E : environment) (s : state)
    (filepaths : list string) (comments : loc) (api_ : string) (token : json) :
  let url := api_ ++ "/submissions" in
  let headers := Py.extend (headers_ (self s)) [("auth_token", token)] in
  let given := default [] (heap s !! comments) in
  let pairs := zip filepaths (padded given filepaths) in
  let run := submit E filepaths comments s in
  api (self s) = Some api_ ->
  PyOp.getitem (auth_data (self s)) "auth_token" = Ok token ->
  (exists k : nat,
      (k <= length pairs)%nat
      /\ log (snd run)
         = (log s ++ map (upload_of url headers)
                         (List.filter (uploaded (files s)) (take k pairs)))%list
      /\ (fst run = Ok tt -> k = length pairs))
  /\ self (snd run) = self s
  /\ files (snd run) = files s
  /\ dirs (snd run) = dirs s
  /\ ((length filepaths <= length given)%nat -> heap (snd run) = heap s).
Proof.
  intros url headers given pairs run Hapi Htoken.
  assert (Hframe : forall (X : Type) (field : state -> X),
             (forall f s0, field (with_log f s0) = field s0) ->
             (forall f s0, field (with_stdout f s0) = field s0) ->
             forall l s0, field (snd (for_each l (submit_one E url headers) s0)) = field s0).
  { intros X field Hl Ho l s0.
    apply (preserves_for_each field l (submit_one E url headers)
             (submit_one_untouched field Hl Ho E url headers)). }
  subst run pairs given. unfold submit, padded. exec.
  destruct (challenge_selected (self s)); cbn.
  2: { split; [exists 0%nat; cbn; rewrite app_nil_r; repeat split; [lia | discriminate] |].
       auto. }
  rewrite Htoken. cbn. rewrite Hapi. cbn. fold url. fold headers.
  destruct (Nat.ltb_spec (length (default [] (heap s !! comments))) (length filepaths))
    as [Hshort | Hlong]; cbn.
  - rewrite lookup_insert_eq. cbn [default].
    split; [| rewrite !Hframe by reflexivity; cbn; repeat split; intros; lia].
    match goal with
    | |- context [for_each ?l _ ?s2] =>
        exact (uploads_are_eligible E url headers l s2)
    end.
  - split; [| rewrite !Hframe by reflexivity; cbn; repeat split].
    exact (uploads_are_eligible E url headers
             (zip filepaths (default [] (heap s !! comments))) s).
Qed.

Lemma submit_uploads_eligible_files_only_witness :
  let s := Sample.with_files {["a.csv"]} (Sample.boot Sample.enrolled) in
  let run := submit Sample.offline ["a.csv"; "b.csv"] submit_default_comments s in
  let url := Sample.api_2 ++ "/submissions" in
  let headers := [("User-Agent", JStr user_agent); ("auth_token", JStr "mock_token")] in
  (exists k : nat,
      (k <= 2)%nat
      /\ log (snd run)
         = map (upload_of url headers)
               (List.filter (uploaded {["a.csv"]}) (take k [("a.csv", ""); ("b.csv", "")]))
      /\ (fst run = Ok tt -> k = 2%nat))
  /\ self (snd run) = Sample.enrolled.
Proof.
  intros s run url headers.
  destruct (submit_uploads_eligible_files_only Sample.offline s ["a.csv"; "b.csv"]
              submit_default_comments Sample.api_2 (JStr "mock_token") eq_refl eq_refl)
    as (Hlog & Hself & _).
  split; [exact Hlog | exact Hself].
Defined.

(** ** [download_dataset]: what can stop it *)

(** X22: the destination is handled before the session is looked at and
    before any request.  When a regular file is in the way,
    [download_dataset] with [make_destination] raises [FileExistsError] out of
    [os.makedirs], whether or not a challenge is selected, and nothing else
    has happened; without [make_destination] nothing is created, and the
    method goes on to the download with the file system as it is. *)
Theorem destination_is_a_file (E : environment) (s : state) (destination : string) :
  destination ∉ dirs s ->
  destination ∈ files s ->
  download_dataset E destination true s = (Raise (FileExistsError destination), s)
  /\ download_dataset E destination false s = download_selected E destination s.
Proof.
  intros Hd Hf. unfold download_dataset. exec.
  repeat progress (rewrite ?(bool_decide_eq_false_2 _ Hd), ?(bool_decide_eq_true_2 _ Hf); cbn).
  split; reflexivity.
Qed.

Lemma destination_is_a_file_witness :
  let s := Sample.with_files {["data"]} (Sample.boot Sample.signed_in) in
  ("data" ∉ dirs s)
  /\ ("data" ∈ files s)
  /\ download_dataset Sample.offline "data" true s = (Raise (FileExistsError "data"), s)
  /\ fst (download_dataset Sample.offline "data" false s)
     = Raise (Exception download_not_selected_msg).
Proof.
  intros s.
  assert (Hd : "data" ∉ dirs s).
  { cbn. intros Hin. apply elem_of_singleton in Hin. discriminate. }
  assert (Hf : "data" ∈ files s) by (cbn; apply elem_of_singleton; reflexivity).
  destruct (destination_is_a_file Sample.offline s "data" Hd Hf) as [Hraise Hgo].
  split; [exact Hd |]. split; [exact Hf |]. split; [exact Hraise |].
  rewrite Hgo. reflexivity.
Defined.

(** X23: once the directory step has returned, the downloads are issued
    one record at a time, and a record is only looked at when its turn
    comes.  When a kept record has no usable [filename], [download_dataset]
    raises the exception of that lookup after having downloaded the records
    before it, and the records after it are not downloaded. *)
Theorem download_stops_at_a_bad_record (E : environment) (s : state)
    (destination url : string) (make_destination : bool)
    (token payload response_data : json) (code : Z)
    (manifest before after : list json) (bad : json) (e : exn) (filename : json -> string) :
  let headers := Py.extend (headers_ (self s)) [("auth_token", token)] in
  let fetch := Http GET url headers (Some [("auth_token", token)]) None in
  let download := fun data => download_of url destination headers (filename data) in
  let run := download_dataset E destination make_destination s in
  challenge_selected (self s) = true ->
  api (self s) = Some url ->
  PyOp.getitem (auth_data (self s)) "auth_token" = Ok token ->
  fst (make_destination_dir E destination make_destination s) = Ok tt ->
  respond E (log s) fetch = Ok (mk_response code (Some payload)) ->
  PyOp.getitem payload "data" = Ok response_data ->
  PyOp.getitem response_data "datafiles" = Ok (JList manifest) ->
  remove_duplicates manifest = (before ++ bad :: after)%list ->
  Forall (fun data => PyOp.getitem data "filename" = Ok (JStr (filename data))) before ->
  PyOp.getitem bad "filename" = Raise e ->
  (forall history name,
      exists v, reply E history (download_of url destination headers name) = Ok v) ->
  fst run = Raise e
  /\ log (snd run) = (log s ++ fetch :: map download before)%list.
Proof.
  intros headers fetch download run Hsel Hapi Htoken Hdir Hresp Hdata Hfiles Hkept Hnames
         Hbad Hreply.
  destruct (make_destination_dir_ok E destination make_destination s Hdir)
    as (s1 & Hs1 & Hself & Hlog & _).
  assert (Hrun : run = (Raise e, emit [] (fetch :: map download before) s1)).
  { subst run. unfold download_dataset, mbind at 1, M_bind at 1. rewrite Hs1.
    unfold download_selected. exec.
    repeat progress (rewrite ?Hself, ?Hlog, ?Hsel, ?Hapi, ?Htoken; cbn).
    fold headers. fold fetch. rewrite Hresp. cbn.
    rewrite Hdata. cbn. rewrite Hfiles. cbn. rewrite Hkept, for_each_app.
    rewrite (downloads_run E url destination headers filename Hreply before _ Hnames).
    cbn [for_each]. unfold mbind at 1, M_bind at 1.
    unfold download_one. exec. rewrite Hbad. cbn.
    unfold emit. cbn. now rewrite <- app_assoc, app_nil_r. }
  rewrite Hrun. cbn [fst snd emit log]. rewrite Hlog. split; reflexivity.
Qed.

Lemma download_stops_at_a_bad_record_witness :
  let s := Sample.boot Sample.enrolled in
  let headers := [("User-Agent", JStr user_agent); ("auth_token", JStr "mock_token")] in
  let nameless := JObj [("id", JStr "df-3")] in
  let manifest := [Sample.train; nameless; Sample.test] in
  let listing := JObj [("data", JObj [("datafiles", JList manifest)])] in
  let run := download_dataset (Sample.constant listing JNull) "." true s in
  remove_duplicates manifest = ([Sample.train] ++ nameless :: [Sample.test])%list
  /\ fst run = Raise (KeyError "filename")
  /\ log (snd run)
     = [Http GET Sample.api_2 headers (Some [("auth_token", JStr "mock_token")]) None;
        Download (Sample.api_2 ++ "/files/Train.csv") "./Train.csv" headers].
Proof.
  intros s headers nameless manifest listing run.
  assert (Hkept : remove_duplicates manifest
                  = ([Sample.train] ++ nameless :: [Sample.test])%list) by reflexivity.
  assert (Hnames : Forall (fun data => PyOp.getitem data "filename"
                                       = Ok (JStr (Sample.name_of data))) [Sample.train]).
  { constructor; [reflexivity | constructor]. }
  assert (Hdir : fst (make_destination_dir (Sample.constant listing JNull) "." true s) = Ok tt)
    by reflexivity.
  destruct (download_stops_at_a_bad_record (Sample.constant listing JNull) s "." Sample.api_2
              true (JStr "mock_token") listing (JObj [("datafiles", JList manifest)]) 200
              manifest [Sample.train] [Sample.test] nameless (KeyError "filename")
              Sample.name_of eq_refl eq_refl eq_refl Hdir eq_refl eq_refl eq_refl Hkept
              Hnames eq_refl (fun _ _ => ex_intro _ JNull eq_refl))
    as (Hraise & Hlog).
  split; [exact Hkept |]. split; [exact Hraise |].
  subst run. rewrite Hlog. reflexivity.
Defined.

(** ** The two pure steps: duplicates and extensions *)

Lemma append_new_of_distinct {A : Type} (same : A -> A -> bool) (todo datafiles : list A) :
  pairwise_distinct same (datafiles ++ todo)%list ->
  append_new same todo datafiles = (datafiles ++ todo)%list.
Proof.
  revert datafiles. induction todo as [| i todo IH]; intros datafiles Hd; cbn.
  - now rewrite app_nil_r.
  - assert (Hi : existsb (fun item => same item i) datafiles = false).
    { destruct (existsb _ datafiles) eqn:Hex; [| reflexivity].
      apply existsb_exists in Hex as (y & Hy & Hsame).
      apply list_elem_of_In, list_elem_of_lookup in Hy as [a Ha].
      assert (Hlt : (a < length datafiles)%nat) by (apply lookup_lt_is_Some; eauto).
      rewrite <- Hsame.
      apply (Hd a (length datafiles) y i Hlt).
      - rewrite lookup_app_l by lia. exact Ha.
      - rewrite lookup_app_r by lia. now rewrite Nat.sub_diag. }
    rewrite Hi, IH; rewrite <- app_assoc; [reflexivity | exact Hd].
Qed.

(** X24: the removal of duplicates of [download_dataset] leaves a manifest
    as it is exactly when no record of it compares equal to an earlier one,
    and running it twice changes nothing more. *)
Theorem remove_duplicates_idempotent (datafiles_ : list json) :
  (remove_duplicates datafiles_ = datafiles_ <-> pairwise_distinct Py.eq datafiles_)
  /\ remove_duplicates (remove_duplicates datafiles_) = remove_duplicates datafiles_.
Proof.
  assert (Hkeep : forall l, pairwise_distinct Py.eq l -> remove_duplicates l = l).
  { intros l Hl. unfold remove_duplicates. now rewrite append_new_of_distinct. }
  destruct (remove_duplicates_spec datafiles_) as (_ & Hdist & _).
  split; [split |].
  - intros Heq. now rewrite Heq in Hdist.
  - apply Hkeep.
  - apply Hkeep, Hdist.
Qed.

(** X25: the extension [submit] checks is what follows the last dot of the
    path, stripped of surrounding white space and lowercased: whatever comes
    before that dot (folders, other dots) plays no part, and a path without
    any dot is its own extension, so a file named [csv] passes the check. *)
Theorem extension_is_what_follows_the_last_dot (stem ext : string) :
  PyStr.contains "." ext = false ->
  extension_of (stem ++ "." ++ ext) = PyStr.lower (PyStr.strip ext)
  /\ extension_of ext = PyStr.lower (PyStr.strip ext).
Proof.
  intros Hdot.
  assert (Hext : PyStr.last_segment_acc ext EmptyString = ext).
  { rewrite (last_segment_acc_dotless ext EmptyString Hdot). unfold PyStr.rev.
    rewrite rev_acc_rev_acc. change (PyStr.rev_acc "" (ext ++ "")) with (ext ++ "").
    apply string_app_empty. }
  unfold extension_of, PyStr.last_segment.
  rewrite last_segment_acc_after_dot, Hext. split; reflexivity.
Qed.

Lemma extension_is_what_follows_the_last_dot_witness :
  PyStr.contains "." " CSV " = false
  /\ extension_of ("runs/v1.2/final.sub" ++ "." ++ " CSV ") = "csv"
  /\ is_csv "csv" = true.
Proof.
  assert (Hdot : PyStr.contains "." " CSV " = false) by reflexivity.
  destruct (extension_is_what_follows_the_last_dot "runs/v1.2/final.sub" " CSV " Hdot)
    as [Hstem _].
  split; [exact Hdot |]. split; [rewrite Hstem; reflexivity | reflexivity].
Defined.
